(** * cordova-paramedic: the run coordinator and the Appium event poller

    A shallow embedding of [lib/paramedic.js] (class [ParamedicRunner]),
    of [pollForEvents] from [lib/appium/helpers/wdHelper.js] and of the
    constants of [lib/utils/utilities.js] they use.

    Promises of the Q library are modelled by their eventual outcome
    (fulfilled, rejected, or never settled), effects by a log of the calls
    made on the external collaborators, and the collaborators themselves
    (the platform CLI, the local server, the Appium runner, the webdriver
    session) by records of their observable behaviour. *)

From Stdlib Require Import String Ascii List ZArith Bool Lia.
From Stdlib Require Import DecimalString.
Import ListNotations.
Local Open Scope string_scope.
Local Open Scope Z_scope.

(* ================================================================== *)
(** ** JavaScript values and strings *)

Module Js.

(** [String.prototype.indexOf(pat)]: the index of the first occurrence of
    [pat], or [-1]. *)
Fixpoint indexOf_from (i : Z) (s pat : string) : Z :=
  if String.prefix pat s then i
  else match s with
       | EmptyString => -1
       | String _ s' => indexOf_from (i + 1) s' pat
       end.

Definition indexOf (s pat : string) : Z := indexOf_from 0 s pat.

(** [Array.prototype.join(sep)] on strings. *)
Fixpoint join (sep : string) (l : list string) : string :=
  match l with
  | [] => ""
  | [x] => x
  | x :: rest => x ++ sep ++ join sep rest
  end.

(** The values that cross the reporting channel and the webdriver wire:
    JSON values plus [undefined]. The numbers are those with an integer
    value: [Num z] is the Number nearest to the integer [z], which is [z]
    itself up to [2 ^ 53]. *)
#[warnings="-register-all"]
Inductive value : Type :=
| Undefined
| Null
| Bool (b : bool)
| Num (z : Z)
| Str (s : string)
| Arr (l : list value)
| Obj (fields : list (string * value)).

(** [v === 0] for a value [v]. *)
Definition strict_eq_zero (v : value) : bool :=
  match v with
  | Num z => z =? 0
  | _ => false
  end.

(** [Object.prototype.toString.call(v) === '[object Array]']. *)
Definition is_array (v : value) : bool :=
  match v with
  | Arr _ => true
  | _ => false
  end.

(** The decimal digits of an integer. *)
Definition digits_of_Z (z : Z) : string := NilZero.string_of_int (Z.to_int z).

(** The double nearest to a natural number [x], ties to even: above
    [2 ^ 53] the doubles are the multiples of a power of two. *)
Definition round_to_double (x : Z) : Z :=
  if x <? 2 ^ 53 then x
  else
    let ulp := 2 ^ (Z.log2 x - 52) in
    let q := x / ulp in
    let r := x mod ulp in
    if 2 * r <? ulp then q * ulp
    else if ulp <? 2 * r then (q + 1) * ulp
    else if Z.even q then q * ulp
    else (q + 1) * ulp.

(** The number with the fewest significant digits, [k] or more, that is
    read back as the double [x] of [n] digits; of two such numbers the
    one nearer to [x]. With [n] digits it is [x] itself. *)
Fixpoint shortest_from (fuel : nat) (k : Z) (x n : Z) : Z :=
  match fuel with
  | O => x
  | S fuel' =>
      if n <=? k then x
      else
        let scale := 10 ^ (n - k) in
        let lo := x / scale * scale in
        let hi := lo + scale in
        let ok_lo := round_to_double lo =? x in
        let ok_hi := round_to_double hi =? x in
        if ok_lo && ok_hi
        then if x - lo <? hi - x then lo
             else if hi - x <? x - lo then hi
             else if Z.even (x / scale) then lo else hi
        else if ok_lo then lo
        else if ok_hi then hi
        else shortest_from fuel' (k + 1) x n
  end.

Fixpoint strip_zeros (s : string) : string :=
  match s with
  | EmptyString => EmptyString
  | String c rest =>
      match strip_zeros rest with
      | EmptyString =>
          if Ascii.eqb c "0" then EmptyString else String c EmptyString
      | rest' => String c rest'
      end
  end.

(** The digits in full up to 21 of them, the exponent form beyond. *)
Definition exponent_form (v : Z) : string :=
  let n := Z.of_nat (String.length (digits_of_Z v)) in
  if n <=? 21 then digits_of_Z v
  else
    match strip_zeros (digits_of_Z v) with
    | EmptyString => "0"
    | String d EmptyString => String d ("e+" ++ digits_of_Z (n - 1))
    | String d rest => String d ("." ++ rest ++ "e+" ++ digits_of_Z (n - 1))
    end.

(** [String(z)] for the Number nearest to the integer [z]
    ([Number::toString]): the shortest digits that are read back as the
    same double, in exponent form from [1e21] on, [Infinity] beyond the
    largest double. *)
Definition string_of_Z (z : Z) : string :=
  if z =? 0 then "0"
  else
    let x := round_to_double (Z.abs z) in
    let sign := if z <? 0 then "-" else "" in
    if 2 ^ 1024 <=? x then sign ++ "Infinity"
    else
      let n := Z.of_nat (String.length (digits_of_Z x)) in
      sign ++ exponent_form (shortest_from (Z.to_nat n) 1 x n).

(** The string conversion of [ '...' + v ]. Inside an array, [null] and
    [undefined] become the empty string, as [Array.prototype.join] does. *)
Fixpoint to_string (v : value) : string :=
  match v with
  | Undefined => "undefined"
  | Null => "null"
  | Bool true => "true"
  | Bool false => "false"
  | Num z => string_of_Z z
  | Str s => s
  | Arr l =>
      join ","
        (map (fun x => match x with
                       | Undefined | Null => ""
                       | _ => to_string x
                       end) l)
  | Obj _ => "[object Object]"
  end.

(** Thrown values: [new Error(msg)] and its subclasses, with their
    [name] and [message]. A string that is thrown as it is has no name:
    it is [MkError "" s]. *)
Record error : Type := MkError { err_name : string; err_message : string }.

Definition Error (msg : string) : error := MkError "Error" msg.
Definition TypeError (msg : string) : error := MkError "TypeError" msg.

(** [String(e)] for a thrown value ([Error.prototype.toString]): the
    message alone without a name (and for a thrown string, the string),
    the name alone without a message, [name + ': ' + message]
    otherwise. *)
Definition error_to_string (e : error) : string :=
  if String.eqb (err_name e) "" then err_message e
  else if String.eqb (err_message e) "" then err_name e
  else err_name e ++ ": " ++ err_message e.

(** [new Error(e)]: the message is the string conversion of [e]. *)
Definition wrap_error (e : error) : error := Error (error_to_string e).

(** [JSON.parse(JSON.stringify(v))]: in an array [undefined] becomes
    [null], in an object a field that is [undefined] is left out. *)
Fixpoint json_round_trip (v : value) : value :=
  match v with
  | Arr l =>
      Arr (map (fun x => match x with
                         | Undefined => Null
                         | _ => json_round_trip x
                         end) l)
  | Obj fields =>
      Obj (flat_map (fun field =>
                       match field with
                       | (_, Undefined) => []
                       | (key, x) => [(key, json_round_trip x)]
                       end) fields)
  | _ => v
  end.

(** [Array.prototype.indexOf(item)] on an array of strings: the index of
    the first element strictly equal to [item], or [-1]. *)
Fixpoint array_indexOf_from (i : Z) (l : list string) (item : string) : Z :=
  match l with
  | [] => -1
  | x :: rest =>
      if String.eqb x item then i else array_indexOf_from (i + 1) rest item
  end.

Definition array_indexOf (l : list string) (item : string) : Z :=
  array_indexOf_from 0 l item.

(** The line feed, which has no notation inside a string. *)
Definition LF : ascii := ascii_of_nat 10.

(** [s.split(sep)] for a separator of one character: the pieces between
    the separators, a single empty piece for the empty string. *)
Fixpoint split (sep : ascii) (s : string) : list string :=
  match s with
  | EmptyString => [EmptyString]
  | String c rest =>
      if Ascii.eqb c sep then EmptyString :: split sep rest
      else match split sep rest with
           | [] => [String c EmptyString]
           | piece :: pieces => String c piece :: pieces
           end
  end.

End Js.

(* ================================================================== *)
(** ** [lib/utils/utilities.js] *)

Module utilities.

Definition ANDROID : string := "android".
Definition IOS : string := "ios".
Definition WINDOWS : string := "windows".
Definition BROWSER : string := "browser".
Definition PARAMEDIC_DEFAULT_APP_NAME : string := "io.cordova.hellocordova".
Definition PARAMEDIC_COMMON_ARGS : list string :=
  ["--no-telemetry"; "--no-update-notifier"].
Definition DEFAULT_LOG_TIME : Z := 15.
Definition TEST_PASSED : bool := true.
Definition TEST_FAILED : bool := false.

(** [HEADING_LINE_PATTERN.test(line)] and [DEVICE_ROW_PATTERN.test(line)]:
    both patterns are plain alternatives of literal words, so a line
    matches when it contains one of them. *)
Definition HEADING_LINE_PATTERN (line : string) : bool :=
  0 <=? Js.indexOf line "List of devices".

Definition DEVICE_ROW_PATTERN (line : string) : bool :=
  (0 <=? Js.indexOf line "emulator")
  || (0 <=? Js.indexOf line "device")
  || (0 <=? Js.indexOf line "host").

(** [countAndroidDevices], applied to the output of [adb devices]. *)
Definition countAndroidDevices (stdout : string) : Z :=
  fold_left
    (fun numDevices line =>
       if negb (HEADING_LINE_PATTERN line) && DEVICE_ROW_PATTERN line
       then numDevices + 1
       else numDevices)
    (Js.split Js.LF stdout) 0.

(** [contains(collection, item)], for a string and for an array. *)
Definition contains (collection item : string) : bool :=
  negb (Js.indexOf collection item =? -1).

Definition contains_array (collection : list string) (item : string) : bool :=
  negb (Js.array_indexOf collection item =? -1).

(** What [getConfigPath] returns: [false], a path, or it throws. *)
Inductive config_path : Type :=
| NoConfig
| ConfigAt (configPath : string)
| ConfigError (e : Js.error).

Section GetConfigPath.
(** [path.resolve(config)], [path.join(__dirname, '..', '..', 'conf',
    config)] and [fs.existsSync] *)
Variable path_resolve : string -> string.
Variable path_join_conf : string -> string.
Variable existsSync : string -> bool.

(** The name searched in the [conf] directory. *)
Definition conf_name (config : string) : string :=
  if (Js.indexOf config ".config.json" =? -1)
     || negb (Js.indexOf config ".config.json"
              =? Z.of_nat (String.length config) - 12)
  then config ++ ".config.json"
  else config.

(** [getConfigPath(config)]; [None] is an undefined [config]. *)
Definition getConfigPath (config : option string) : config_path :=
  match config with
  | None => NoConfig
  | Some config =>
      if String.eqb config "" then NoConfig
      else if existsSync (path_resolve config)
      then ConfigAt (path_resolve config)
      else if existsSync (path_join_conf (conf_name config))
      then ConfigAt (path_join_conf (conf_name config))
      else ConfigError (Js.Error "Can't find the specified config.")
  end.

End GetConfigPath.

End utilities.

(* ================================================================== *)
(** ** Promises *)

(** The eventual outcome of a promise. [Pending] is a promise that is
    never settled (for the phase chain of [run]: not before the global
    deadline). *)
Inductive outcome (A : Type) : Type :=
| Fulfilled (a : A)
| Rejected (e : Js.error)
| Pending.
Arguments Fulfilled {A} a.
Arguments Rejected {A} e.
Arguments Pending {A}.

(** [resolve(v)] and [reject(e)] of a deferred: only the first call that
    reaches a pending promise settles it. *)
Definition resolve {A} (v : A) (p : outcome A) : outcome A :=
  match p with
  | Pending => Fulfilled v
  | _ => p
  end.

Definition reject {A} (e : Js.error) (p : outcome A) : outcome A :=
  match p with
  | Pending => Rejected e
  | _ => p
  end.

Definition is_settled {A} (p : outcome A) : bool :=
  match p with
  | Pending => false
  | _ => true
  end.

(* ================================================================== *)
(** ** The reporting channel and the two waits of [paramedic.js] *)

Module Channel.

(** [INITIAL_CONNECTION_TIMEOUT / 1000], as it is printed in the messages. *)
Definition INITIAL_CONNECTION_TIMEOUT : Z := 540000.

(** The [jasmineDone] payload [{ specResults: { specFailed } }]. *)
Record payload : Type := { specFailed : Js.value }.

(** What the local server and the two connection timers deliver to the
    runner, one callback at a time. A timer callback reads
    [server.isDeviceConnected()] when it fires. *)
Inductive event : Type :=
| JasmineDone (data : payload)
| Disconnect
| ConnectionTimer (deviceConnected : bool)
| TestsTimer (deviceConnected : bool).

Definition ERR_waitForTests : string :=
  "waitForTests: Seems like device not connected to local server in "
  ++ Js.string_of_Z (INITIAL_CONNECTION_TIMEOUT / 1000) ++ " secs".

Definition ERR_waitForConnection : string :=
  "waitForConnection: Seems like device not connected to local server in "
  ++ Js.string_of_Z (INITIAL_CONNECTION_TIMEOUT / 1000) ++ " secs".

Definition ERR_disconnected : string :=
  "Device is disconnected before passing the tests".

(** The value the [jasmineDone] listener resolves with:
    [data.specResults.specFailed === 0]. *)
Definition isTestPassed (data : payload) : bool :=
  Js.strict_eq_zero (specFailed data).

(** [waitForTests]: one callback of the promise's executor applied to the
    state of the promise. *)
Definition waitForTests_on (ev : event) (p : outcome bool) : outcome bool :=
  match ev with
  | TestsTimer connected =>
      if negb connected then reject (Js.Error ERR_waitForTests) p else p
  | JasmineDone data => resolve (isTestPassed data) p
  | Disconnect => reject (Js.Error ERR_disconnected) p
  | ConnectionTimer _ => p
  end.

(** The promise returned by [waitForTests] after the events [evs]. *)
Definition waitForTests (evs : list event) : outcome bool :=
  fold_left (fun p ev => waitForTests_on ev p) evs Pending.

(** [waitForConnection]: its single timer rejects or resolves. *)
Definition waitForConnection_on (ev : event) (p : outcome unit) : outcome unit :=
  match ev with
  | ConnectionTimer connected =>
      if negb connected then reject (Js.Error ERR_waitForConnection) p
      else resolve tt p
  | _ => p
  end.

Definition waitForConnection (evs : list event) : outcome unit :=
  fold_left (fun p ev => waitForConnection_on ev p) evs Pending.

(** The race of [runLocalTests]:
    [Q.promise((resolve, reject) => {
        this.waitForConnection().catch(reject);
        this.waitForTests().then(resolve); })].
    Only the rejection of the first wait and the fulfilment of the second
    are forwarded to the outer promise, when the event settles them. *)
Record race_state : Type :=
  { connection : outcome unit; tests : outcome bool; outer : outcome bool }.

Definition race_start : race_state :=
  {| connection := Pending; tests := Pending; outer := Pending |}.

Definition race_on (s : race_state) (ev : event) : race_state :=
  let c := waitForConnection_on ev (connection s) in
  let t := waitForTests_on ev (tests s) in
  let o1 := match connection s, c with
            | Pending, Rejected e => reject e (outer s)
            | _, _ => outer s
            end in
  let o2 := match tests s, t with
            | Pending, Fulfilled v => resolve v o1
            | _, _ => o1
            end in
  {| connection := c; tests := t; outer := o2 |}.

Definition race (evs : list event) : outcome bool :=
  outer (fold_left race_on evs race_start).

End Channel.

(* ================================================================== *)
(** ** Promise chains with effects

    A computation reads and updates a state [St] (the fields of the
    object it runs on and the log of the calls it has made) and ends in the
    outcome of the promise it returns. A callback that throws rejects the
    promise derived from it, so a synchronous [throw] inside a chain is
    [throw]. *)

Module Q.

Section Chains.
Context {St : Type}.

Definition M (A : Type) : Type := St -> outcome A * St.

Definition ret {A} (a : A) : M A := fun s => (Fulfilled a, s).
Definition throw {A} (e : Js.error) : M A := fun s => (Rejected e, s).
Definition never {A} : M A := fun s => (Pending, s).

(** [p.then(f)] *)
Definition then_ {A B} (p : M A) (f : A -> M B) : M B :=
  fun s =>
    match p s with
    | (Fulfilled a, s') => f a s'
    | (Rejected e, s') => (Rejected e, s')
    | (Pending, s') => (Pending, s')
    end.

(** [p.catch(h)], also written [p.fail(h)] *)
Definition catch_ {A} (p : M A) (h : Js.error -> M A) : M A :=
  fun s =>
    match p s with
    | (Rejected e, s') => h e s'
    | r => r
    end.

(** [p.then(f, h)] *)
Definition then2 {A B} (p : M A) (f : A -> M B) (h : Js.error -> M B) : M B :=
  fun s =>
    match p s with
    | (Fulfilled a, s') => f a s'
    | (Rejected e, s') => h e s'
    | (Pending, s') => (Pending, s')
    end.

(** [p.fin(cb)]: Q calls [cb] with no argument once [p] is settled, waits
    for what it returns, and then passes the outcome of [p] on, unless
    [cb] itself failed. *)
Definition fin {A B} (p : M A) (cb : M B) : M A :=
  fun s =>
    match p s with
    | (Fulfilled a, s') =>
        match cb s' with
        | (Fulfilled _, s'') => (Fulfilled a, s'')
        | (Rejected e', s'') => (Rejected e', s'')
        | (Pending, s'') => (Pending, s'')
        end
    | (Rejected e, s') =>
        match cb s' with
        | (Fulfilled _, s'') => (Rejected e, s'')
        | (Rejected e', s'') => (Rejected e', s'')
        | (Pending, s'') => (Pending, s'')
        end
    | (Pending, s') => (Pending, s')
    end.

(** [p.timeout(ms, msg)]: a promise not settled by the deadline is
    rejected with [new Error(msg)]. *)
Definition timeout {A} (p : M A) (msg : string) : M A :=
  fun s =>
    match p s with
    | (Pending, s') => (Rejected (Js.Error msg), s')
    | r => r
    end.

(** [Q.all([a, b])]: both are started, in this order; the first
    rejection rejects the whole, otherwise both values are awaited. When
    both reject, the one started first is reported. *)
Definition all2 {A B} (a : M A) (b : M B) : M (A * B) :=
  fun s =>
    let (ra, s1) := a s in
    let (rb, s2) := b s1 in
    (match ra, rb with
     | Rejected e, _ => Rejected e
     | _, Rejected e => Rejected e
     | Fulfilled x, Fulfilled y => Fulfilled (x, y)
     | _, _ => Pending
     end, s2).

(** The outcome of a promise made elsewhere, as a step of a chain. *)
Definition await {A} (o : outcome A) : M A := fun s => (o, s).

End Chains.
Arguments M : clear implicits.

Module Notations.
Notation "x <- c1 ;; c2" := (then_ c1 (fun x => c2))
  (at level 61, c1 at next level, right associativity).
Notation "c1 ;;; c2" := (then_ c1 (fun _ => c2))
  (at level 61, right associativity).
End Notations.

End Q.

(* ================================================================== *)
(** ** [lib/appium/helpers/wdHelper.js]: the event poller *)

Module wdHelper.
Import Q.Notations.

Definition handle : Type := string.

(** The web content of one window: the global
    [window._jasmineParamedicProxyCache], [None] when it is undefined. *)
Record page : Type := { jasmineParamedicProxyCache : option Js.value }.

(** What [execute] brings back over the wire: [null], or a JSON text.
    [WJson v] is the JSON text that [JSON.parse] reads as [v]. A JSON
    text is never the empty string, so it is truthy. *)
Inductive wire : Type :=
| WNull
| WJson (v : Js.value).

(** The function [pollForEvents] passes to [execute]: the text is
    [JSON.stringify(result)], which is read back as the round trip of
    [result]. *)
Definition read_cache_script (pg : page) : wire * page :=
  match jasmineParamedicProxyCache pg with
  | None | Some Js.Undefined => (WNull, pg)
  | Some result =>
      (WJson (Js.json_round_trip result),
       {| jasmineParamedicProxyCache := Some (Js.Arr []) |})
  end.

(** [if (result) { result = JSON.parse(result); }] *)
Definition parse_result (result : wire) : Js.value :=
  match result with
  | WNull => Js.Null
  | WJson v => v
  end.

(** The calls of the [wd] session the poller makes. *)
Inductive command : Type :=
| CSleep (ms : Z)
| CCurrentContext
| CContext (name : string)
| CAcceptAlert
| CClickAllowButton
| CWindowHandles
| CWindow (h : handle)
| CExecuteReadCache
| CGet (url : string).

(** The [wd] session, as the poller sees it: each call settles (or not)
    and moves the remote session to a new state. *)
Record Driver (S : Type) : Type := {
  currentContext : S -> outcome string * S;
  context : string -> S -> outcome unit * S;
  acceptAlert : S -> outcome unit * S;
  clickAllowButton : S -> outcome unit * S;
  windowHandles : S -> outcome (list handle) * S;
  window : handle -> S -> outcome unit * S;
  execute : (page -> wire * page) -> S -> outcome wire * S;
  get : string -> S -> outcome unit * S
}.
Arguments currentContext {S} _ _.
Arguments context {S} _ _ _.
Arguments acceptAlert {S} _ _.
Arguments clickAllowButton {S} _ _.
Arguments windowHandles {S} _ _.
Arguments window {S} _ _ _.
Arguments execute {S} _ _ _.
Arguments get {S} _ _ _.

Section Poller.
Context {S : Type} (driver : Driver S).

(** The state of a polling chain: the remote session and the calls made. *)
Definition session : Type := (S * list command)%type.

Definition call {A} (c : command) (op : S -> outcome A * S)
  : Q.M session A :=
  fun s =>
    let (r, s') := op (fst s) in
    (r, (s', (snd s ++ [c])%list)).

Definition ERR_no_window : string := "Cannot find a window with the event cache.".

Definition ERR_no_cache : string :=
  "Cannot get the event cache: it doesn't exist in the app. Got this instead: ".

Definition TEST_PAGE : string := "http://localhost:8000/cdvtests/index.html".

(** [module.exports.bustAlert] *)
Definition bustAlert (platform : string) : Q.M session unit :=
  ctx <- call CCurrentContext (currentContext driver) ;;
  let previousContext :=
    if negb (String.eqb ctx "NATIVE_APP") then Some ctx else None in
  call (CContext "NATIVE_APP") (context driver "NATIVE_APP") ;;;
  (if String.eqb platform "ios"
   then Q.then2 (call CAcceptAlert (acceptAlert driver))
          (fun _ => Q.ret tt) (fun _ => Q.ret tt)
   else Q.catch_ (call CClickAllowButton (clickAllowButton driver))
          (fun _ => Q.ret tt)) ;;;
  match previousContext with
  | Some c =>
      if negb (String.eqb c "")
      then call (CContext c) (context driver c)
      else Q.ret tt
  | None => Q.ret tt
  end.

(** [if (retries === undefined || retries === null) retries = 2;] *)
Definition default_retries (retries : option Z) : Z :=
  match retries with
  | None => 2
  | Some r => r
  end.

(** [if (!windowOffset) windowOffset = 0;] *)
Definition default_windowOffset (windowOffset : option nat) : nat :=
  match windowOffset with
  | None => 0%nat
  | Some w => w
  end.

(** The callbacks of [pollForEvents] that run before the cache is read:
    the alert is dismissed unless [skipBuster], ... *)
Definition dismiss_alert (platform : string) (skipBuster : bool)
  : Q.M session unit :=
  call (CSleep 0) (fun s => (Fulfilled tt, s)) ;;;
  if skipBuster then Q.ret tt else bustAlert platform.

(** ... and on Android the session is switched to the window at
    [windowOffset] among the open ones. *)
Definition switch_window (platform : string) (windowOffset : nat)
  : Q.M session unit :=
  let isBrowser := String.eqb platform utilities.BROWSER in
  let isIOS := String.eqb platform utilities.IOS in
  if isIOS || isBrowser then Q.ret tt
  else
    handles <- call CWindowHandles (windowHandles driver) ;;
    if (length handles <=? windowOffset)%nat
    then Q.throw (Js.Error ERR_no_window)
    else
      let h := nth windowOffset handles "" in
      call (CWindow h) (window driver h).

(** [.execute(function () { ... }, [])] *)
Definition read_cache : Q.M session wire :=
  call CExecuteReadCache (execute driver read_cache_script).

(** The last callback of [pollForEvents], applied to what [execute]
    brought back; [self] is [module.exports.pollForEvents] with the
    driver, the platform and [skipBuster] of this call. *)
Definition on_result (self : option nat -> option Z -> Q.M session (list Js.value))
  (platform : string) (windowOffset : nat) (retries : Z) (result : wire)
  : Q.M session (list Js.value) :=
  let isAndroid := String.eqb platform utilities.ANDROID in
  let isBrowser := String.eqb platform utilities.BROWSER in
  let result := parse_result result in
  match result with
  | Js.Arr events => Q.ret events
  | _ =>
      if isBrowser && (0 <? retries)
      then
        call (CGet TEST_PAGE) (get driver TEST_PAGE) ;;;
        self (Some windowOffset) (Some (retries - 1))
      else if negb isAndroid
      then Q.throw (Js.Error (ERR_no_cache ++ Js.to_string result))
      else self (Some (windowOffset + 1)%nat) None
  end.

(** [module.exports.pollForEvents]. The function calls itself from its
    last callback; [fuel] bounds the depth of these calls, and a chain
    that needs more never settles. *)
Fixpoint pollForEvents (fuel : nat) (platform : string) (skipBuster : bool)
  (windowOffset : option nat) (retries : option Z)
  : Q.M session (list Js.value) :=
  match fuel with
  | O => Q.never
  | Datatypes.S fuel' =>
      let retries := default_retries retries in
      let windowOffset := default_windowOffset windowOffset in
      dismiss_alert platform skipBuster ;;;
      switch_window platform windowOffset ;;;
      result <- read_cache ;;
      on_result (pollForEvents fuel' platform skipBuster)
        platform windowOffset retries result
  end.

End Poller.

(** *** A simulated session, to run the poller on *)

Record sim : Type := {
  sim_windows : list (handle * page);
  sim_current : handle;
  sim_context : string;
  (** the pages the next reloads of the test page will show *)
  sim_reloads : list page
}.

Fixpoint update_page (h : handle) (f : page -> page)
  (ws : list (handle * page)) : list (handle * page) :=
  match ws with
  | [] => []
  | (h', pg) :: rest =>
      if String.eqb h h' then (h', f pg) :: rest
      else (h', pg) :: update_page h f rest
  end.

Fixpoint find_page (h : handle) (ws : list (handle * page)) : option page :=
  match ws with
  | [] => None
  | (h', pg) :: rest => if String.eqb h h' then Some pg else find_page h rest
  end.

Definition sim_driver : Driver sim := {|
  currentContext := fun s => (Fulfilled (sim_context s), s);
  context := fun c s =>
    (Fulfilled tt,
     {| sim_windows := sim_windows s; sim_current := sim_current s;
        sim_context := c; sim_reloads := sim_reloads s |});
  acceptAlert := fun s => (Rejected (Js.Error "no such alert"), s);
  clickAllowButton := fun s => (Rejected (Js.Error "no such element"), s);
  windowHandles := fun s => (Fulfilled (map fst (sim_windows s)), s);
  window := fun h s =>
    match find_page h (sim_windows s) with
    | Some _ =>
        (Fulfilled tt,
         {| sim_windows := sim_windows s; sim_current := h;
            sim_context := sim_context s; sim_reloads := sim_reloads s |})
    | None => (Rejected (Js.Error "no such window"), s)
    end;
  execute := fun script s =>
    match find_page (sim_current s) (sim_windows s) with
    | Some pg =>
        let (w, pg') := script pg in
        (Fulfilled w,
         {| sim_windows := update_page (sim_current s) (fun _ => pg') (sim_windows s);
            sim_current := sim_current s;
            sim_context := sim_context s; sim_reloads := sim_reloads s |})
    | None => (Rejected (Js.Error "no such window"), s)
    end;
  get := fun _ s =>
    match sim_reloads s with
    | [] => (Fulfilled tt, s)
    | pg :: rest =>
        (Fulfilled tt,
         {| sim_windows := update_page (sim_current s) (fun _ => pg) (sim_windows s);
            sim_current := sim_current s;
            sim_context := sim_context s; sim_reloads := rest |})
    end
|}.

(** *** [getWebviewContext] *)

Definition WEBVIEW_WAIT_TIMEOUT : Z := 5000.

(** The calls of the session [getWebviewContext] makes. *)
Inductive webview_command : Type :=
| WSleep (ms : Z)
| WContexts.

(** A string that is thrown as it is ([throw 'Couldn\'t get ...']): a
    thrown value without a name. *)
Definition thrown_string (s : string) : Js.error := Js.MkError "" s.

(** The loop of [getWebviewContext] over the reversed contexts: the first
    one that contains "WEBVIEW". *)
Fixpoint first_webview (contexts : list string) : option string :=
  match contexts with
  | [] => None
  | c :: rest =>
      if 0 <=? Js.indexOf c "WEBVIEW" then Some c else first_webview rest
  end.

Section WebviewContext.
Context {S : Type}.
(** [driver.contexts()] *)
Variable contexts : S -> outcome (list string) * S.

Definition webview_session : Type := (S * list webview_command)%type.

Definition webview_call {A} (c : webview_command) (op : S -> outcome A * S)
  : Q.M webview_session A :=
  fun s =>
    let (r, s') := op (fst s) in
    (r, (s', (snd s ++ [c])%list)).

(** [getWebviewContext(driver, retries)] for a given [retries]. The
    function calls itself while [retries > 0], with [retries - 1];
    [depth] is the number of these calls that are left, which
    [getWebviewContext] below sets to the value of [retries]. *)
Fixpoint getWebviewContext_from (depth : nat) (retries : Z)
  : Q.M webview_session string :=
  webview_call (WSleep WEBVIEW_WAIT_TIMEOUT) (fun s => (Fulfilled tt, s)) ;;;
  ctxs <- webview_call WContexts contexts ;;
  match first_webview (rev ctxs) with
  | Some c => Q.ret c
  | None =>
      webview_call (WSleep 1000) (fun s => (Fulfilled tt, s)) ;;;
      if 0 <? retries
      then match depth with
           | O => Q.never
           | Datatypes.S depth' => getWebviewContext_from depth' (retries - 1)
           end
      else Q.throw (thrown_string "Couldn't get webview context.")
  end.

(** [module.exports.getWebviewContext]; [None] is an undefined
    [retries]. *)
Definition getWebviewContext (retries : option Z)
  : Q.M webview_session string :=
  let retries := match retries with
                 | None => 2
                 | Some r => r
                 end in
  getWebviewContext_from (Z.to_nat retries) retries.

End WebviewContext.

End wdHelper.

(* ================================================================== *)
(** ** The config object of a run *)

Module Config.

(** The options [ParamedicRunner] reads from its [config] object. The
    values that are only tested for truthiness are booleans. *)
Record t : Type := {
  getPlatformId : string;
  getAction : string;
  getCli : string;
  getArgs : string;
  getPlugins : list string;
  getTimeout : Z;
  getOutputDir : option string;
  getLogMins : option Z;
  getFileTransferServer : bool;
  getTccDb : bool;
  isCI : bool;
  runMainTests : bool;
  runAppiumTests : bool;
  shouldUseSauce : bool;
  shouldCleanUpAfterRun : bool
}.

End Config.

(* ================================================================== *)
(** ** [lib/paramedic.js]: the run coordinator *)

Module Paramedic.
Import Q.Notations.

(** The target the target chooser resolves: [{ target, simId }]. *)
Record TargetObj : Type := { target : option string; simId : option string }.

(** The result of a call that returns or throws. *)
Inductive sync (A : Type) : Type :=
| Returns (a : A)
| Throws (e : Js.error).
Arguments Returns {A} a.
Arguments Throws {A} e.

(** The options handed to [new AppiumRunner(options)] that depend on the
    state of the runner. *)
Record AppiumOptions : Type := {
  opt_platform : string;
  opt_appPath : string;
  opt_appiumDeviceName : option string;
  opt_udid : option string;
  opt_sauce : bool;
  opt_cli : string
}.

(** The calls the runner makes on its collaborators, in the order it
    makes them. *)
Inductive effect : Type :=
| ECheckSauceRequirements
| ECreateTempProject
| EPushd (dir : string)
| EPrepareProjectToRunTests
| EStartServer (noListener : bool)
| EInjectReporters
| ESubscribeForEvents
| EWriteMedicJson
| ERunSauceTests
| EStartFileTransferServer (dir : string)
| EChooseTarget
| EUpdatePermissions
| EExecPromise (command : string)
| ECpExec (command : string)
| EWaitForConnection
| EWaitForTests
| EKillProcess
| ENewAppiumRunner (options : AppiumOptions)
| EAppiumPrepareApp
| ESaucePackageApp
| ESauceUploadApp
| EAppiumRunTests (useSauce : bool)
| ELoggerError (e : Js.error)
| ECollectDataAndCleanUp
| EDisplaySauceDetails
| ECollectLogs (outputDir : string) (logMins : Z)
| EUninstallApp
| EKill
| ECleanUpProject
| EServerCleanUp
| EPopd
| ERm (dir : string).

(** The behaviour of the collaborators during one run. The modules
    themselves ([ParamedicApp], [LocalServer], [ParamedicSauceLabs],
    [ParamedicTargetChooser], [AppiumRunner], [execWrapper], ...) are not
    part of the sources modelled here; what they answer is a parameter of
    the run. *)
Record World : Type := {
  (** [path.isAbsolute], [path.resolve] *)
  path_isAbsolute : string -> bool;
  path_resolve : string -> string;
  (** [ParamedicSauceLabs] *)
  checkSauceRequirements : sync unit;
  runSauceTests : outcome bool;
  displaySauceDetails : outcome unit;
  packageApp : outcome unit;
  uploadApp : outcome unit;
  (** [ParamedicApp]: the name of the temp folder, the preparation *)
  createTempProject : sync string;
  prepareProjectToRunTests : outcome unit;
  (** [LocalServer] and the file written for it *)
  startServer : outcome unit;
  startFileTransferServer : outcome unit;
  writeFileSync : sync unit;
  (** what the channel and the two connection timers deliver, in order *)
  channel_events : list Channel.event;
  (** [ParamedicTargetChooser.chooseTarget], [ParamediciOSPermissions] *)
  chooseTarget : outcome TargetObj;
  updatePermissions : sync unit;
  (** the exit code of the launch command, [None] if it does not exit,
      and what [execPromise] rejects with when the command fails *)
  launch_exit_code : option Z;
  launch_failure : Js.error;
  (** the process spawned with [cp.exec] for the browser has not exited
      (its callback has not reset [runProcess]) when the tests are over *)
  runProcess_alive : bool;
  (** [AppiumRunner]: the test files found, the two phases *)
  appium_testPaths : option (list string);
  prepareApp : outcome unit;
  appium_runTests : outcome bool;
  (** [ParamedicAppUninstall.uninstallApp] *)
  uninstall : outcome unit
}.

(** The fields of a [ParamedicRunner] that change during a run, the
    command-line client of the config ([setCli]) and the log. *)
Record Runner : Type := {
  cli : string;
  tempFolder : option string;
  server : bool;
  targetObj : option TargetObj;
  paramedicSauceLabs : bool;
  (** the variable [runProcess] of [runLocalTests], set by its callbacks *)
  runProcess : bool;
  log : list effect
}.

Definition set_cli (c : string) (r : Runner) : Runner :=
  {| cli := c; tempFolder := tempFolder r; server := server r;
     targetObj := targetObj r; paramedicSauceLabs := paramedicSauceLabs r;
     runProcess := runProcess r; log := log r |}.

Definition set_tempFolder (t : option string) (r : Runner) : Runner :=
  {| cli := cli r; tempFolder := t; server := server r;
     targetObj := targetObj r; paramedicSauceLabs := paramedicSauceLabs r;
     runProcess := runProcess r; log := log r |}.

Definition set_server (b : bool) (r : Runner) : Runner :=
  {| cli := cli r; tempFolder := tempFolder r; server := b;
     targetObj := targetObj r; paramedicSauceLabs := paramedicSauceLabs r;
     runProcess := runProcess r; log := log r |}.

Definition set_targetObj (t : option TargetObj) (r : Runner) : Runner :=
  {| cli := cli r; tempFolder := tempFolder r; server := server r;
     targetObj := t; paramedicSauceLabs := paramedicSauceLabs r;
     runProcess := runProcess r; log := log r |}.

Definition set_paramedicSauceLabs (b : bool) (r : Runner) : Runner :=
  {| cli := cli r; tempFolder := tempFolder r; server := server r;
     targetObj := targetObj r; paramedicSauceLabs := b;
     runProcess := runProcess r; log := log r |}.

Definition set_runProcess (b : bool) (r : Runner) : Runner :=
  {| cli := cli r; tempFolder := tempFolder r; server := server r;
     targetObj := targetObj r; paramedicSauceLabs := paramedicSauceLabs r;
     runProcess := b; log := log r |}.

Definition add_log (e : effect) (r : Runner) : Runner :=
  {| cli := cli r; tempFolder := tempFolder r; server := server r;
     targetObj := targetObj r; paramedicSauceLabs := paramedicSauceLabs r;
     runProcess := runProcess r; log := (log r ++ [e])%list |}.

Definition M : Type -> Type := Q.M Runner.

Definition emit (e : effect) : M unit := fun r => (Fulfilled tt, add_log e r).
Definition modify (f : Runner -> Runner) : M unit := fun r => (Fulfilled tt, f r).
Definition read {A} (f : Runner -> A) : M A := fun r => (Fulfilled (f r), r).

Definition call_sync {A} (e : effect) (res : sync A) : M A :=
  Q.then_ (emit e) (fun _ =>
    match res with
    | Returns a => Q.ret a
    | Throws err => Q.throw err
    end).

Definition call_async {A} (e : effect) (res : outcome A) : M A :=
  Q.then_ (emit e) (fun _ => Q.await res).

Definition quote : string := String (ascii_of_nat 34) EmptyString.

(** A value is falsy when it is [undefined] or the empty string. *)
Definition truthy (o : option string) : bool :=
  match o with
  | Some s => negb (String.eqb s "")
  | None => false
  end.

(** What a template literal prints for a value that may be undefined. *)
Definition template (o : option string) : string :=
  match o with
  | Some s => s
  | None => "undefined"
  end.

Section Run.
Variable config : Config.t.
Variable world : World.

(** The constructor. *)
Definition new_runner : Runner :=
  {| cli := Config.getCli config; tempFolder := None; server := false;
     targetObj := None; paramedicSauceLabs := false; runProcess := false;
     log := [] |}.

Definition isBrowser : bool := String.eqb (Config.getPlatformId config) utilities.BROWSER.
Definition isWindows : bool := String.eqb (Config.getPlatformId config) utilities.WINDOWS.
Definition isIos : bool := String.eqb (Config.getPlatformId config) utilities.IOS.

(** [this.tempFolder.name]: a [TypeError] while [tempFolder] is [null]. *)
Definition tempFolder_name : M string :=
  t <- read tempFolder ;;
  match t with
  | Some name => Q.ret name
  | None => Q.throw (Js.TypeError "Cannot read property 'name' of null")
  end.

(** [checkConfig] (the lines that print the config are left out). *)
Definition checkConfig : M unit :=
  (if Config.shouldUseSauce config
   then modify (set_paramedicSauceLabs true) ;;;
        call_sync ECheckSauceRequirements (checkSauceRequirements world)
   else Q.ret tt) ;;;
  if negb (Config.runMainTests config) && negb (Config.runAppiumTests config)
  then Q.throw (Js.Error
         "No tests to run: both --skipAppiumTests and --skipMainTests are used")
  else
    c <- read cli ;;
    if negb (existsb (String.eqb c) ["cordova"; "phonegap"])
    then
      if negb (path_isAbsolute world c)
      then modify (set_cli (path_resolve world c))
      else Q.ret tt
    else Q.ret tt.

(** [setPermissions] *)
Definition setPermissions : M unit :=
  if isIos
  then
    if Config.getTccDb config
    then call_sync EUpdatePermissions (updatePermissions world)
    else Q.ret tt
  else Q.ret tt.

(** [injectReporters], [subcribeForEvents]: listeners are registered on
    the server. *)
Definition injectReporters : M unit := emit EInjectReporters.
Definition subcribeForEvents : M unit := emit ESubscribeForEvents.

(** [writeMedicJson] *)
Definition writeMedicJson : M unit :=
  call_sync EWriteMedicJson (writeFileSync world).

(** The loop of [maybeRunFileTransferServer] over the plugins. *)
Fixpoint maybeRunFileTransferServer_loop (plugins : list string) : M unit :=
  match plugins with
  | [] => Q.ret tt
  | plugin :: rest =>
      if (0 <=? Js.indexOf plugin "cordova-plugin-file-transfer")
         && negb (Config.getFileTransferServer config) && negb (Config.isCI config)
      then
        s <- read server ;;
        if s
        then
          name <- tempFolder_name ;;
          call_async (EStartFileTransferServer name)
            (startFileTransferServer world)
        else Q.throw (Js.TypeError
               "Cannot read property 'startFileTransferServer' of undefined")
      else maybeRunFileTransferServer_loop rest
  end.

Definition maybeRunFileTransferServer : M unit :=
  maybeRunFileTransferServer_loop (Config.getPlugins config).

(** [getCommandForStartingTests] *)
Definition getCommandForStartingTests : M string :=
  c <- read cli ;;
  let cmd := ([c; Config.getAction config; Config.getPlatformId config]
                ++ utilities.PARAMEDIC_COMMON_ARGS
                ++ [Config.getArgs config])%list in
  if isBrowser then Q.ret (Js.join " " cmd)
  else if String.eqb (Config.getAction config) "build"
          || (isWindows && (Js.indexOf (Config.getArgs config) "appx=8.1-phone" <? 0))
  then Q.ret (Js.join " " cmd)
  else
    _ <- tempFolder_name ;;
    t <- call_async EChooseTarget (chooseTarget world) ;;
    modify (set_targetObj (Some t)) ;;;
    Q.ret (Js.join " "
             (cmd ++ ["--target"; (quote ++ template (target t) ++ quote)%string]
                  ++ (if isIos then ["--emulator"] else []))%list).

(** [shouldWaitForTestResult] *)
Definition shouldWaitForTestResult : bool :=
  let action := Config.getAction config in
  (Js.indexOf action "run" =? 0) || (Js.indexOf action "emulate" =? 0).

(** Modelled from the spec: [execPromise] of [lib/utils/execWrapper.js],
    which is not among the sources. It runs the platform command line to
    completion, and the promise it returns is fulfilled when the command
    exits with code zero and rejected when it exits with another code
    (with a reason the spec does not state: [launch_failure]). *)
Definition execPromise (command : string) : M unit :=
  call_async (EExecPromise command)
    (match launch_exit_code world with
     | Some code =>
         if code =? 0 then Fulfilled tt
         else Rejected (launch_failure world)
     | None => Pending
     end).

(** [waitForConnection] and [waitForTests], raced in a new promise. *)
Definition waitForTestResult : M bool :=
  emit EWaitForConnection ;;;
  emit EWaitForTests ;;;
  Q.await (Channel.race (channel_events world)).

(** [runLocalTests] *)
Definition runLocalTests : M bool :=
  modify (set_runProcess false) ;;;
  if negb (Config.runMainTests config)
     && negb (String.eqb (Config.getPlatformId config) utilities.ANDROID)
  then Q.ret utilities.TEST_PASSED
  else
    Q.fin
      (maybeRunFileTransferServer ;;;
       command <- getCommandForStartingTests ;;
       setPermissions ;;;
       results <-
         Q.all2
           (if negb (String.eqb (Config.getPlatformId config) utilities.BROWSER)
            then execPromise command
            else emit (ECpExec command) ;;;
                 modify (set_runProcess (runProcess_alive world)))
           (if negb (Config.runMainTests config)
            then Q.ret utilities.TEST_PASSED
            else if shouldWaitForTestResult
            then waitForTestResult
            else Q.ret utilities.TEST_PASSED) ;;
       Q.ret (snd results))
      (p <- read runProcess ;;
       if p then emit EKillProcess else Q.ret tt).

(** [runAppiumTests(useSauce)] *)
Definition runAppiumTests (useSauce : bool) : M bool :=
  let platform := Config.getPlatformId config in
  if String.eqb (Config.getAction config) "build"
  then Q.ret utilities.TEST_PASSED
  else if negb (Config.runAppiumTests config)
  then Q.ret utilities.TEST_PASSED
  else if negb (String.eqb platform utilities.ANDROID)
          && negb (String.eqb platform utilities.IOS)
  then Q.ret utilities.TEST_PASSED
  else
    t <- read targetObj ;;
    if negb useSauce
       && match t with
          | None => true
          | Some o => negb (truthy (target o))
          end
    then Q.throw (Js.Error "Cannot determine local device name for Appium")
    else
      name <- tempFolder_name ;;
      c <- read cli ;;
      let options :=
        {| opt_platform := platform;
           opt_appPath := name;
           opt_appiumDeviceName := match t with
                                   | Some o => target o
                                   | None => None
                                   end;
           opt_udid := match t with
                       | Some o => simId o
                       | None => None
                       end;
           opt_sauce := useSauce;
           opt_cli := c |} in
      emit (ENewAppiumRunner options) ;;;
      if match appium_testPaths world with
         | Some paths => (length paths =? 0)%nat
         | None => false
         end
      then Q.ret utilities.TEST_PASSED
      else
        call_async EAppiumPrepareApp (prepareApp world) ;;;
        (if useSauce
         then call_async ESaucePackageApp (packageApp world) ;;;
              call_async ESauceUploadApp (uploadApp world)
         else Q.ret tt) ;;;
        call_async (EAppiumRunTests useSauce) (appium_runTests world).

(** [runTests] *)
Definition runTests : M bool :=
  if Config.shouldUseSauce config
  then
    isTestPassed <- call_async ERunSauceTests (runSauceTests world) ;;
    isAppiumTestPassed <- runAppiumTests true ;;
    Q.ret (Bool.eqb isTestPassed utilities.TEST_PASSED
           && Bool.eqb isAppiumTestPassed utilities.TEST_PASSED)
  else
    isTestPassed <- runLocalTests ;;
    isAppiumTestPassed <- runAppiumTests false ;;
    Q.ret (Bool.eqb isTestPassed utilities.TEST_PASSED
           && Bool.eqb isAppiumTestPassed utilities.TEST_PASSED).

(** [cleanUpProject] *)
Definition cleanUpProject : M unit :=
  emit ECleanUpProject ;;;
  s <- read server ;;
  (if s then emit EServerCleanUp else Q.ret tt) ;;;
  if Config.shouldCleanUpAfterRun config
  then
    name <- tempFolder_name ;;
    emit EPopd ;;;
    emit (ERm name)
  else Q.ret tt.

(** [killEmulatorProcess] *)
Definition killEmulatorProcess : M unit :=
  if Config.shouldCleanUpAfterRun config then emit EKill else Q.ret tt.

(** [collectDeviceLogs]. Modelled from the spec: [collectLogs] of
    [ParamedicLogCollector], which is not among the sources, is
    best-effort and propagates no failure. *)
Definition collectDeviceLogs : M unit :=
  name <- tempFolder_name ;;
  let outputDir := if truthy (Config.getOutputDir config)
                   then template (Config.getOutputDir config)
                   else name in
  let logMins := match Config.getLogMins config with
                 | Some m => if m =? 0 then utilities.DEFAULT_LOG_TIME else m
                 | None => utilities.DEFAULT_LOG_TIME
                 end in
  emit (ECollectLogs outputDir logMins).

(** [uninstallApp]: the call returns the promise of the uninstaller, or
    throws before it has one. *)
Definition uninstallApp : M (outcome unit) :=
  _ <- tempFolder_name ;;
  emit EUninstallApp ;;;
  Q.ret (uninstall world).

(** The phases of [run], up to [.timeout(...).catch(...)]. *)
Definition phases : M bool :=
  Q.catch_
    (Q.timeout
       ((name <- call_sync ECreateTempProject (createTempProject world) ;;
         modify (set_tempFolder (Some name)) ;;;
         emit (EPushd name) ;;;
         call_async EPrepareProjectToRunTests (prepareProjectToRunTests world)) ;;;
        (if Config.runMainTests config
         then
           let noListener := isBrowser && Config.shouldUseSauce config in
           call_async (EStartServer noListener) (startServer world)
         else Q.ret tt) ;;;
        (if Config.runMainTests config
         then
           modify (set_server true) ;;;
           injectReporters ;;;
           subcribeForEvents ;;;
           writeMedicJson
         else Q.ret tt) ;;;
        runTests)
       ("Timed out after waiting for " ++ Js.string_of_Z (Config.getTimeout config)
          ++ " ms."))
    (fun error =>
       emit (ELoggerError error) ;;;
       Q.throw (Js.wrap_error error)).

(** The callback of the first [.fin] of [run]. *)
Definition collectDataAndCleanUp : M unit :=
  emit ECollectDataAndCleanUp ;;;
  if Config.shouldUseSauce config
  then call_async EDisplaySauceDetails (displaySauceDetails world)
  else if negb (String.eqb (Config.getAction config) "build")
  then
    collectDeviceLogs ;;;
    p <- uninstallApp ;;
    Q.fin (Q.catch_ (Q.await p) (fun _ => Q.ret tt)) killEmulatorProcess
  else Q.ret tt.

(** What a call of [run] does: it throws, or it returns a promise. *)
Inductive run_result : Type :=
| RunThrows (e : Js.error)
| RunReturns (p : outcome bool).

(** [run] *)
Definition run_from (r : Runner) : run_result * Runner :=
  match checkConfig r with
  | (Fulfilled _, r1) =>
      let (p, r2) := Q.fin (Q.fin phases collectDataAndCleanUp) cleanUpProject r1 in
      (RunReturns p, r2)
  | (Rejected e, r1) => (RunThrows e, r1)
  | (Pending, r1) => (RunReturns Pending, r1)
  end.

(** [exports.run]: a new runner is made for the config and run. *)
Definition run : run_result * Runner := run_from new_runner.

End Run.

End Paramedic.

(* ================================================================== *)
(** ** Observations on a run: classes of effects, example runs *)

Module Effects.
Import Paramedic.

(** The two effects of the completion race. *)
Definition is_race (e : effect) : bool :=
  match e with
  | EWaitForConnection | EWaitForTests => true
  | _ => false
  end.

(** The entry of the first [.fin] callback of [run]. *)
Definition is_collectDataAndCleanUp (e : effect) : bool :=
  match e with
  | ECollectDataAndCleanUp => true
  | _ => false
  end.

(** The entry of [cleanUpProject], called by the second [.fin]. *)
Definition is_cleanUpProject (e : effect) : bool :=
  match e with
  | ECleanUpProject => true
  | _ => false
  end.

(** The launch command run to completion with [execPromise]. *)
Definition is_execPromise (e : effect) : bool :=
  match e with
  | EExecPromise _ => true
  | _ => false
  end.

(** The effects of the clean-up: of the two [.fin] callbacks of [run]. *)
Definition is_cleanup (e : effect) : bool :=
  match e with
  | ECollectDataAndCleanUp | EDisplaySauceDetails | ECollectLogs _ _
  | EUninstallApp | EKill | ECleanUpProject | EServerCleanUp | EPopd
  | ERm _ => true
  | _ => false
  end.

(** What the first callback does on the device, or for Sauce Labs. *)
Definition is_device_cleanup (e : effect) : bool :=
  match e with
  | EDisplaySauceDetails | ECollectLogs _ _ | EUninstallApp | EKill => true
  | _ => false
  end.

(** What [cleanUpProject] does. *)
Definition is_project_cleanup (e : effect) : bool :=
  match e with
  | EServerCleanUp | EPopd | ERm _ => true
  | _ => false
  end.

Definition count (p : effect -> bool) (l : list effect) : nat :=
  length (filter p l).

(** The runner after a chain: the log has grown by effects that satisfy
    [f], and a temp folder that was set is still set. *)
Definition grows (f : effect -> bool) (r r' : Runner) : Prop :=
  (exists l, log r' = (log r ++ l)%list /\ forallb f l = true)
  /\ (tempFolder r <> None -> tempFolder r' <> None).

(** A chain keeps [R] when the runner after it is related by [R] to the
    runner before it. *)
Definition keeps (R : Runner -> Runner -> Prop) {A} (m : M A) : Prop :=
  forall r, R r (snd (m r)).

(** Neither the entry of the first [.fin] callback nor of the second. *)
Definition not_entry (e : effect) : bool :=
  negb (is_collectDataAndCleanUp e || is_cleanUpProject e).

(** Not the launch command run to completion; not an effect of the race. *)
Definition not_exec (e : effect) : bool := negb (is_execPromise e).
Definition not_race (e : effect) : bool := negb (is_race e).
Definition has_exec (r : Runner) : bool := existsb is_execPromise (log r).






(** The result of the launch command, as [execPromise] reports it. *)
Definition launch_result (world : World) : outcome bool :=
  match launch_exit_code world with
  | Some code =>
      if code =? 0 then Fulfilled utilities.TEST_PASSED
      else Rejected (launch_failure world)
  | None => Pending
  end.

End Effects.

(** The main-test phase of [runTests]: the tests on Sauce Labs, or the
    local ones. *)
Definition mainTests (config : Config.t) (world : Paramedic.World)
  : Paramedic.M bool :=
  if Config.shouldUseSauce config
  then Paramedic.call_async Paramedic.ERunSauceTests
         (Paramedic.runSauceTests world)
  else Paramedic.runLocalTests config world.

(** Sessions to run the poller on. *)
Module PollerExamples.
Import wdHelper.

Definition no_cache : page := {| jasmineParamedicProxyCache := None |}.

Definition one_event : page :=
  {| jasmineParamedicProxyCache := Some (Js.Arr [Js.Str "specDone"]) |}.

(** Two windows; only the second one holds the event cache. *)
Definition two_windows : sim :=
  {| sim_windows := [("CDwindow-0", no_cache); ("CDwindow-1", one_event)];
     sim_current := "CDwindow-0";
     sim_context := "WEBVIEW_1";
     sim_reloads := [] |}.

(** One window whose page lost the cache; a reload brings it back. *)
Definition bad_gateway : sim :=
  {| sim_windows := [("CDwindow-0", no_cache)];
     sim_current := "CDwindow-0";
     sim_context := "WEBVIEW_1";
     sim_reloads := [one_event] |}.

End PollerExamples.

(** Runs to evaluate the coordinator on. *)
Module RunExamples.
Import Paramedic.

(** [--platform android], main tests and Appium tests, run locally. *)
Definition android_run : Config.t := {|
  Config.getPlatformId := "android";
  Config.getAction := "run";
  Config.getCli := "cordova";
  Config.getArgs := "";
  Config.getPlugins := ["cordova-plugin-device"];
  Config.getTimeout := 3600000;
  Config.getOutputDir := None;
  Config.getLogMins := None;
  Config.getFileTransferServer := false;
  Config.getTccDb := false;
  Config.isCI := false;
  Config.runMainTests := true;
  Config.runAppiumTests := true;
  Config.shouldUseSauce := false;
  Config.shouldCleanUpAfterRun := true
|}.

(** The same config with another platform, action and test selection. *)
Definition variant (platform action : string) (main appium : bool) : Config.t := {|
  Config.getPlatformId := platform;
  Config.getAction := action;
  Config.getCli := Config.getCli android_run;
  Config.getArgs := Config.getArgs android_run;
  Config.getPlugins := Config.getPlugins android_run;
  Config.getTimeout := Config.getTimeout android_run;
  Config.getOutputDir := Config.getOutputDir android_run;
  Config.getLogMins := Config.getLogMins android_run;
  Config.getFileTransferServer := Config.getFileTransferServer android_run;
  Config.getTccDb := Config.getTccDb android_run;
  Config.isCI := Config.isCI android_run;
  Config.runMainTests := main;
  Config.runAppiumTests := appium;
  Config.shouldUseSauce := Config.shouldUseSauce android_run;
  Config.shouldCleanUpAfterRun := Config.shouldCleanUpAfterRun android_run
|}.

(** [--justbuild] for the browser, and for Android. *)
Definition browser_build : Config.t := variant "browser" "build" true false.
Definition android_build : Config.t := variant "android" "build" true false.


(** A world in which the device connects, two specs fail, the launch
    command exits with [exit_code] (before the tests are over, when it
    was spawned) and the uninstall has the outcome [uninstalled]; the
    Appium tests pass. *)
Definition a_world (exit_code : Z) (uninstalled : outcome unit) : World := {|
  path_isAbsolute := fun _ => true;
  path_resolve := fun p => p;
  checkSauceRequirements := Returns tt;
  runSauceTests := Fulfilled true;
  displaySauceDetails := Fulfilled tt;
  packageApp := Fulfilled tt;
  uploadApp := Fulfilled tt;
  createTempProject := Returns "/tmp/tmp-1";
  prepareProjectToRunTests := Fulfilled tt;
  startServer := Fulfilled tt;
  startFileTransferServer := Fulfilled tt;
  writeFileSync := Returns tt;
  channel_events :=
    [Channel.JasmineDone {| Channel.specFailed := Js.Num 2 |};
     Channel.Disconnect];
  chooseTarget :=
    Fulfilled {| target := Some "emulator-5554"; simId := None |};
  updatePermissions := Returns tt;
  launch_exit_code := Some exit_code;
  launch_failure := Js.Error "the command failed";
  runProcess_alive := false;
  appium_testPaths := Some ["appium-tests/common/common.spec.js"];
  prepareApp := Fulfilled tt;
  appium_runTests := Fulfilled true;
  uninstall := uninstalled
|}.

(** A runner whose project is prepared and whose server is started. *)
Definition prepared : Runner :=
  {| cli := "cordova"; tempFolder := Some "/tmp/tmp-1"; server := true;
     targetObj := None; paramedicSauceLabs := false; runProcess := false;
     log := [] |}.

End RunExamples.

(* ================================================================== *)
(** ** Notions used by the further properties *)

(** The character [c] occurs in [s]. *)
Fixpoint mentions (c : ascii) (s : string) : bool :=
  match s with
  | EmptyString => false
  | String x rest => Ascii.eqb x c || mentions c rest
  end.

(** The lines, each one ended by a line feed. *)
Fixpoint unlines (lines : list string) : string :=
  match lines with
  | [] => ""
  | line :: rest => line ++ String Js.LF (unlines rest)
  end.

(** The first ".config.json" in [config] is its ending: the test of
    [getConfigPath] with [indexOf] and [length - 12]. *)
Definition first_suffix_is_ending (config : string) : Prop :=
  exists stem,
    config = (stem ++ ".config.json")%string
    /\ forall pre post,
         config = (pre ++ ".config.json" ++ post)%string ->
         (String.length stem <= String.length pre)%nat.

(** A line that [countAndroidDevices] counts. *)
Definition is_device_row (line : string) : bool :=
  negb (utilities.HEADING_LINE_PATTERN line)
  && utilities.DEVICE_ROW_PATTERN line.


(* ================================================================== *)
(** ** [lib/appium/helpers/appPatcher.js] *)

Module appPatcher.

(** [config.xml] as [ConfigParser] shows it to [permitAccess]: the
    [origin] attribute of each [access] element, in the order of the
    document ([None] when the element has none), and the number of times
    the file has been written. *)
Record config_xml : Type := {
  getAccesses : list (option string);
  written : nat
}.

(** [permitAccess(appPath, origin)], on the config of the app. *)
Definition permitAccess (origin : string) (config : config_xml) : config_xml :=
  let accessPresent :=
    fold_left
      (fun accessPresent access =>
         match access with
         | Some o => if String.eqb o origin then true else accessPresent
         | None => accessPresent
         end)
      (getAccesses config) false in
  if accessPresent then config
  else {| getAccesses := (getAccesses config ++ [Some origin])%list;
          written := S (written config) |}.

End appPatcher.

(* ================================================================== *)
(** ** Classes of commands of the poller *)

Module Commands.
Import wdHelper.

Definition is_read (c : command) : bool :=
  match c with
  | CExecuteReadCache => true
  | _ => false
  end.

Definition is_reload (c : command) : bool :=
  match c with
  | CGet _ => true
  | _ => false
  end.

Definition count (p : command -> bool) (l : list command) : nat :=
  length (filter p l).

(** The commands a poll may send, by platform and [skipBuster]: the
    window commands on no platform but iOS and the browser, the reload in
    the browser only, the commands of [bustAlert] only without
    [skipBuster]. *)
Definition allowed (platform : string) (skipBuster : bool) (c : command)
  : bool :=
  match c with
  | CWindowHandles | CWindow _ =>
      negb (String.eqb platform utilities.IOS
            || String.eqb platform utilities.BROWSER)
  | CGet _ => String.eqb platform utilities.BROWSER
  | CCurrentContext | CContext _ | CAcceptAlert | CClickAllowButton =>
      negb skipBuster
  | CSleep _ | CExecuteReadCache => true
  end.

(** A chain of the poller sends only commands that satisfy [p]. *)
Definition sends_only {S A : Type} (p : command -> bool)
  (m : Q.M (@session S) A) : Prop :=
  forall s, exists l,
    snd (snd (m s)) = (snd s ++ l)%list /\ forallb p l = true.

End Commands.

(* ================================================================== *)
(** ** Invariants of the completion race *)

Module Race.
Import Channel.

(** While the watchdog has not fired without a device, the race shows
    the fulfilment of [waitForTests] and nothing else. *)
Definition follows_tests (s : race_state) : Prop :=
  (forall e, connection s <> Rejected e)
  /\ outer s = match tests s with
               | Fulfilled passed => Fulfilled passed
               | _ => Pending
               end.

(** The timer of [waitForConnection] fires and no device has connected. *)
Definition no_device_at_deadline (ev : event) : bool :=
  match ev with
  | ConnectionTimer false => true
  | _ => false
  end.

(** Every rejection in the race carries the message of the watchdog. *)
Definition watchdog_message (s : race_state) : Prop :=
  (forall e, connection s = Rejected e -> e = Js.Error ERR_waitForConnection)
  /\ (forall e, outer s = Rejected e -> e = Js.Error ERR_waitForConnection).

End Race.

(* ================================================================== *)
(** ** The effects a configuration allows *)

Module Allowed.
Import Paramedic.

Definition is_loggerError (e : effect) : bool :=
  match e with
  | ELoggerError _ => true
  | _ => false
  end.

Definition is_startFileTransferServer (e : effect) : bool :=
  match e with
  | EStartFileTransferServer _ => true
  | _ => false
  end.

(** What is done on the machine of the run and on its devices: the
    launch, the race, the device logs, the uninstall. *)
Definition is_local (e : effect) : bool :=
  match e with
  | EStartFileTransferServer _ | EChooseTarget | EUpdatePermissions
  | EExecPromise _ | ECpExec _ | EWaitForConnection | EWaitForTests
  | EKillProcess | ECollectLogs _ _ | EUninstallApp | EKill => true
  | _ => false
  end.

(** What is asked of Sauce Labs. *)
Definition is_sauce (e : effect) : bool :=
  match e with
  | ECheckSauceRequirements | ERunSauceTests | ESaucePackageApp
  | ESauceUploadApp | EDisplaySauceDetails => true
  | EAppiumRunTests useSauce => useSauce
  | ENewAppiumRunner options => opt_sauce options
  | _ => false
  end.

(** What needs the local server of the main tests. *)
Definition is_server (e : effect) : bool :=
  match e with
  | EStartServer _ | EInjectReporters | ESubscribeForEvents
  | EWriteMedicJson | EStartFileTransferServer _ | EWaitForConnection
  | EWaitForTests | EServerCleanUp => true
  | _ => false
  end.

(** What needs the app on a device. *)
Definition is_device (e : effect) : bool :=
  match e with
  | EChooseTarget | ECollectLogs _ _ | EUninstallApp | EKill
  | ENewAppiumRunner _ | EAppiumPrepareApp | ESaucePackageApp
  | ESauceUploadApp | EAppiumRunTests _ => true
  | _ => false
  end.

Section Table.
Variable config : Config.t.
Variable world : World.

(** The folder is the temp project that [createTempProject] made. *)
Definition is_temp_project (dir : string) : bool :=
  match createTempProject world with
  | Returns name => String.eqb dir name
  | Throws _ => false
  end.

(** The condition of the loop of [maybeRunFileTransferServer], for some
    plugin. *)
Definition wants_file_transfer_server : bool :=
  existsb (fun plugin => 0 <=? Js.indexOf plugin "cordova-plugin-file-transfer")
    (Config.getPlugins config)
  && negb (Config.getFileTransferServer config)
  && negb (Config.isCI config).

Definition sauce : bool := Config.shouldUseSauce config.
Definition build : bool := String.eqb (Config.getAction config) "build".

(** The three checks at the head of [runAppiumTests]. *)
Definition appium : bool :=
  negb build
  && Config.runAppiumTests config
  && (String.eqb (Config.getPlatformId config) utilities.ANDROID
      || String.eqb (Config.getPlatformId config) utilities.IOS).

(** The calls a run with this configuration may make. *)
Definition allowed (e : effect) : bool :=
  match e with
  | ECheckSauceRequirements => sauce
  | ECreateTempProject => true
  | EPushd dir => is_temp_project dir
  | EPrepareProjectToRunTests => true
  | EStartServer noListener =>
      Config.runMainTests config
      && Bool.eqb noListener (isBrowser config && sauce)
  | EInjectReporters | ESubscribeForEvents | EWriteMedicJson =>
      Config.runMainTests config
  | ERunSauceTests => sauce
  | EStartFileTransferServer dir =>
      negb sauce && Config.runMainTests config
      && wants_file_transfer_server && is_temp_project dir
  | EChooseTarget =>
      negb sauce && negb (isBrowser config) && negb build
      && negb (isWindows config
               && (Js.indexOf (Config.getArgs config) "appx=8.1-phone" <? 0))
  | EUpdatePermissions =>
      negb sauce && isIos config && Config.getTccDb config
  | EExecPromise _ => negb sauce && negb (isBrowser config)
  | ECpExec _ => negb sauce && isBrowser config
  | EWaitForConnection | EWaitForTests =>
      negb sauce && Config.runMainTests config
      && shouldWaitForTestResult config
  | EKillProcess => negb sauce && isBrowser config
  | ENewAppiumRunner options =>
      appium
      && Bool.eqb (opt_sauce options) sauce
      && String.eqb (opt_platform options) (Config.getPlatformId config)
      && is_temp_project (opt_appPath options)
  | EAppiumPrepareApp => appium
  | ESaucePackageApp | ESauceUploadApp => appium && sauce
  | EAppiumRunTests useSauce => appium && Bool.eqb useSauce sauce
  | ELoggerError _ => true
  | ECollectDataAndCleanUp => true
  | EDisplaySauceDetails => sauce
  | ECollectLogs _ _ | EUninstallApp => negb sauce && negb build
  | EKill =>
      negb sauce && negb build && Config.shouldCleanUpAfterRun config
  | ECleanUpProject => true
  | EServerCleanUp => Config.runMainTests config
  | EPopd => Config.shouldCleanUpAfterRun config
  | ERm dir => Config.shouldCleanUpAfterRun config && is_temp_project dir
  end.

(** What holds of the fields of the runner throughout a run. *)
Definition invariant (r : Runner) : Prop :=
  (Config.runMainTests config = false -> server r = false)
  /\ (isBrowser config = false -> runProcess r = false)
  /\ (forall name, tempFolder r = Some name -> is_temp_project name = true).

(** From a runner with the invariant, a chain leads to a runner with the
    invariant, and logs allowed effects only. *)
Definition confined (r r' : Runner) : Prop :=
  invariant r ->
  invariant r'
  /\ exists l, log r' = (log r ++ l)%list /\ forallb allowed l = true.

End Table.

End Allowed.

(* ================================================================== *)
(** ** Further example runs *)

Module MoreExamples.
Import Paramedic.

(** [--shouldUseSauce] *)
Definition sauce_run : Config.t := {|
  Config.getPlatformId := "android";
  Config.getAction := "run";
  Config.getCli := "cordova";
  Config.getArgs := "";
  Config.getPlugins := ["cordova-plugin-file-transfer"];
  Config.getTimeout := 3600000;
  Config.getOutputDir := None;
  Config.getLogMins := None;
  Config.getFileTransferServer := false;
  Config.getTccDb := false;
  Config.isCI := false;
  Config.runMainTests := true;
  Config.runAppiumTests := true;
  Config.shouldUseSauce := true;
  Config.shouldCleanUpAfterRun := true
|}.

(** A local run for [platform] of a plugin that needs the file transfer
    server, with or without the main tests. *)
Definition file_transfer_run (platform : string) (main : bool) : Config.t := {|
  Config.getPlatformId := platform;
  Config.getAction := "run";
  Config.getCli := "./node_modules/.bin/cordova";
  Config.getArgs := "";
  Config.getPlugins :=
    ["cordova-plugin-file"; "cordova-plugin-file-transfer";
     "../cordova-plugin-file-transfer/tests"];
  Config.getTimeout := 3600000;
  Config.getOutputDir := None;
  Config.getLogMins := None;
  Config.getFileTransferServer := false;
  Config.getTccDb := true;
  Config.isCI := false;
  Config.runMainTests := main;
  Config.runAppiumTests := true;
  Config.shouldUseSauce := false;
  Config.shouldCleanUpAfterRun := true
|}.

(** The world of [RunExamples.a_world] with paths that are made absolute
    under the directory of the call. *)
Definition resolving_world : World := {|
  path_isAbsolute := fun p => String.prefix "/" p;
  path_resolve := fun p => ("/home/user/" ++ p)%string;
  checkSauceRequirements := Returns tt;
  runSauceTests := Fulfilled true;
  displaySauceDetails := Fulfilled tt;
  packageApp := Fulfilled tt;
  uploadApp := Fulfilled tt;
  createTempProject := Returns "/tmp/tmp-1";
  prepareProjectToRunTests := Fulfilled tt;
  startServer := Fulfilled tt;
  startFileTransferServer := Fulfilled tt;
  writeFileSync := Returns tt;
  channel_events :=
    [Channel.JasmineDone {| Channel.specFailed := Js.Num 0 |}];
  chooseTarget :=
    Fulfilled {| target := Some "emulator-5554"; simId := None |};
  updatePermissions := Returns tt;
  launch_exit_code := Some 1;
  launch_failure := Js.Error "the command failed";
  runProcess_alive := true;
  appium_testPaths := Some ["appium-tests/common/common.spec.js"];
  prepareApp := Fulfilled tt;
  appium_runTests := Fulfilled true;
  uninstall := Fulfilled tt
|}.



(** The world of [RunExamples.a_world] in which the temp project cannot
    be created. *)
Definition no_temp_project : World := {|
  path_isAbsolute := fun _ => true;
  path_resolve := fun p => p;
  checkSauceRequirements := Returns tt;
  runSauceTests := Fulfilled true;
  displaySauceDetails := Fulfilled tt;
  packageApp := Fulfilled tt;
  uploadApp := Fulfilled tt;
  createTempProject := Throws (Js.Error "ENOSPC: no space left on device");
  prepareProjectToRunTests := Fulfilled tt;
  startServer := Fulfilled tt;
  startFileTransferServer := Fulfilled tt;
  writeFileSync := Returns tt;
  channel_events :=
    [Channel.JasmineDone {| Channel.specFailed := Js.Num 0 |}];
  chooseTarget :=
    Fulfilled {| target := Some "emulator-5554"; simId := None |};
  updatePermissions := Returns tt;
  launch_exit_code := Some 0;
  launch_failure := Js.Error "the command failed";
  runProcess_alive := false;
  appium_testPaths := Some ["appium-tests/common/common.spec.js"];
  prepareApp := Fulfilled tt;
  appium_runTests := Fulfilled true;
  uninstall := Fulfilled tt
|}.

End MoreExamples.

(* ================================================================== *)
(** * Properties *)

(** ** The result listener and the disconnect listener *)

Section ChannelFacts.
Import Channel.

Lemma resolve_settled {A} (v : A) (p : outcome A) :
  is_settled p = true -> resolve v p = p.
Proof. now destruct p. Qed.

Lemma reject_settled {A} (e : Js.error) (p : outcome A) :
  is_settled p = true -> reject e p = p.
Proof. now destruct p. Qed.

Lemma waitForTests_on_settled (ev : event) (p : outcome bool) :
  is_settled p = true -> waitForTests_on ev p = p.
Proof.
  intros Hp. destruct ev as [data| |c|c]; simpl;
    try destruct c; simpl; auto using resolve_settled, reject_settled.
Qed.

Lemma waitForTests_fold_settled (evs : list event) (p : outcome bool) :
  is_settled p = true ->
  fold_left (fun q ev => waitForTests_on ev q) evs p = p.
Proof.
  induction evs as [|ev evs IH]; simpl; intros Hp; [reflexivity|].
  rewrite (waitForTests_on_settled ev p Hp). now apply IH.
Qed.

Lemma waitForTests_app (pre post : list event) :
  waitForTests (pre ++ post)
  = fold_left (fun q ev => waitForTests_on ev q) post (waitForTests pre).
Proof. unfold waitForTests. now rewrite fold_left_app. Qed.

Lemma race_on_settled (s : race_state) (ev : event) :
  is_settled (outer s) = true -> outer (race_on s ev) = outer s.
Proof.
  intros Ho. unfold race_on; simpl.
  destruct (connection s) as [u0|e0|], (tests s) as [b0|e1|]; simpl;
    repeat match goal with
    | |- context [match ?x with _ => _ end] => destruct x
    end;
    rewrite ?resolve_settled, ?reject_settled; auto;
    rewrite ?reject_settled; auto.
Qed.

Lemma race_fold_settled (evs : list event) (s : race_state) :
  is_settled (outer s) = true ->
  outer (fold_left race_on evs s) = outer s.
Proof.
  revert s. induction evs as [|ev evs IH]; simpl; intros s Hs; [reflexivity|].
  rewrite IH; [now apply race_on_settled|].
  now rewrite race_on_settled.
Qed.

Lemma race_tests (evs : list event) (s : race_state) :
  tests (fold_left race_on evs s)
  = fold_left (fun q ev => waitForTests_on ev q) evs (tests s).
Proof.
  revert s. induction evs as [|ev evs IH]; simpl; intros s; [reflexivity|].
  now rewrite IH.
Qed.

Lemma resolve_is_settled {A} (v : A) (p : outcome A) :
  is_settled (resolve v p) = true.
Proof. now destruct p. Qed.

(** Once [waitForTests] is fulfilled, the race has been settled. *)
Lemma race_on_tests_fulfilled (s : race_state) (ev : event) :
  (forall b, tests s = Fulfilled b -> is_settled (outer s) = true) ->
  forall b, tests (race_on s ev) = Fulfilled b ->
            is_settled (outer (race_on s ev)) = true.
Proof.
  intros Inv b Hb. destruct (tests s) as [b0|e0|] eqn:Et.
  - rewrite race_on_settled; eauto.
  - simpl in Hb. rewrite Et in Hb.
    rewrite waitForTests_on_settled in Hb by reflexivity. discriminate.
  - unfold race_on in *. simpl in *. rewrite Et in *. rewrite Hb.
    apply resolve_is_settled.
Qed.

Lemma race_tests_fulfilled (evs : list event) (s : race_state) :
  (forall b, tests s = Fulfilled b -> is_settled (outer s) = true) ->
  forall b, tests (fold_left race_on evs s) = Fulfilled b ->
            is_settled (outer (fold_left race_on evs s)) = true.
Proof.
  revert s. induction evs as [|ev evs IH]; simpl; intros s Inv b Hb.
  - eauto.
  - apply (IH (race_on s ev)) with (b := b); [|exact Hb].
    now apply race_on_tests_fulfilled.
Qed.

Lemma isTestPassed_iff (data : payload) :
  isTestPassed data = true <-> specFailed data = Js.Num 0.
Proof.
  unfold isTestPassed, Js.strict_eq_zero.
  destruct (specFailed data) as [| |b|z|s|l|f]; split; intros H;
    try discriminate.
  - apply Z.eqb_eq in H. now subst.
  - injection H as ->. reflexivity.
Qed.

End ChannelFacts.

(** C2. Whatever the [jasmineDone] payload, the listener of [waitForTests]
    resolves with [specFailed === 0]: delivered while the wait is pending,
    the payload settles it, and through it the race of [runLocalTests] if
    that is pending too, as passed exactly when [specFailed] is the number
    [0], and as failed for every [specFailed = N > 0]. *)
Theorem C2_jasmineDone_passed_iff_specFailed_zero :
  forall (pre post : list Channel.event) (data : Channel.payload),
    Channel.waitForTests pre = Pending ->
    Channel.waitForTests (pre ++ Channel.JasmineDone data :: post)
      = Fulfilled (Channel.isTestPassed data)
    /\ (Channel.race pre = Pending ->
        Channel.race (pre ++ Channel.JasmineDone data :: post)
        = Fulfilled (Channel.isTestPassed data))
    /\ (Channel.isTestPassed data = utilities.TEST_PASSED
        <-> Channel.specFailed data = Js.Num 0)
    /\ (forall N : Z, 0 < N -> Channel.specFailed data = Js.Num N ->
        Channel.isTestPassed data = utilities.TEST_FAILED).
Proof.
  intros pre post data Hpre. repeat split.
  - rewrite waitForTests_app, Hpre. simpl.
    now apply waitForTests_fold_settled.
  - intros Hrace. unfold Channel.race in *.
    rewrite fold_left_app. simpl.
    remember (fold_left Channel.race_on pre Channel.race_start) as s eqn:Es.
    assert (Ht : Channel.tests s = Pending).
    { subst s. rewrite race_tests. exact Hpre. }
    assert (Ho : Channel.outer (Channel.race_on s (Channel.JasmineDone data))
                 = Fulfilled (Channel.isTestPassed data)).
    { unfold Channel.race_on. simpl. rewrite Ht, Hrace. simpl.
      destruct (Channel.connection s); reflexivity. }
    rewrite race_fold_settled; [exact Ho|]. now rewrite Ho.
  - apply isTestPassed_iff.
  - apply isTestPassed_iff.
  - intros N HN HsN. unfold Channel.isTestPassed. rewrite HsN. simpl.
    apply Z.eqb_neq. lia.
Qed.

(** The witness of C2: a payload with no failed spec, delivered first. *)
Lemma C2_witness :
  Channel.waitForTests
    ([] ++ Channel.JasmineDone {| Channel.specFailed := Js.Num 0 |}
        :: [Channel.Disconnect])
  = Fulfilled true.
Proof.
  refine (proj1 (C2_jasmineDone_passed_iff_specFailed_zero []
                   [Channel.Disconnect]
                   {| Channel.specFailed := Js.Num 0 |} _)).
  reflexivity.
Defined.

(** C4. A [disconnect] delivered while [waitForTests] is still pending,
    so before any [jasmineDone], rejects the wait with the error
    "Device is disconnected before passing the tests", and a [jasmineDone]
    that follows does not change that. A [disconnect] delivered after the
    wait has been resolved as passed or failed leaves this result as it
    is, and leaves the race of [runLocalTests] as it is too. *)
Theorem C4_disconnect_before_or_after_jasmineDone :
  forall (pre post : list Channel.event),
    (Channel.waitForTests pre = Pending ->
     Channel.waitForTests (pre ++ Channel.Disconnect :: post)
     = Rejected (Js.Error "Device is disconnected before passing the tests"))
    /\ (forall passed : bool,
          Channel.waitForTests pre = Fulfilled passed ->
          Channel.waitForTests (pre ++ Channel.Disconnect :: post)
          = Fulfilled passed
          /\ Channel.waitForTests (pre ++ [Channel.Disconnect])
             = Channel.waitForTests pre
          /\ Channel.race (pre ++ Channel.Disconnect :: post)
             = Channel.race pre).
Proof.
  intros pre post. split.
  - intros Hpre. rewrite waitForTests_app, Hpre. simpl.
    now apply waitForTests_fold_settled.
  - intros passed Hpre. repeat split.
    + rewrite waitForTests_app, Hpre. simpl.
      now apply waitForTests_fold_settled.
    + rewrite waitForTests_app, Hpre. reflexivity.
    + unfold Channel.race. rewrite fold_left_app.
      apply race_fold_settled.
      apply race_tests_fulfilled with (b := passed).
      * intros b Hb. discriminate Hb.
      * rewrite race_tests. exact Hpre.
Qed.

(** The rejection of [waitForTests] is not forwarded to the race of
    [runLocalTests], which attaches a fulfilment handler only: a
    [disconnect] never settles the race. *)
Remark disconnect_leaves_race (pre : list Channel.event) :
  Channel.race (pre ++ [Channel.Disconnect]) = Channel.race pre.
Proof.
  unfold Channel.race. rewrite fold_left_app. simpl.
  destruct (fold_left Channel.race_on pre Channel.race_start)
    as [c t o].
  unfold Channel.race_on. simpl.
  destruct c, t; reflexivity.
Qed.

(** The witness of C4: a disconnect first, and a disconnect after a
    passing [jasmineDone]. *)
Lemma C4_witness :
  Channel.waitForTests
    ([] ++ Channel.Disconnect
        :: [Channel.JasmineDone {| Channel.specFailed := Js.Num 0 |}])
  = Rejected (Js.Error "Device is disconnected before passing the tests")
  /\ Channel.waitForTests
       ([Channel.JasmineDone {| Channel.specFailed := Js.Num 2 |}]
          ++ Channel.Disconnect :: [])
     = Fulfilled false.
Proof.
  split.
  - refine (proj1 (C4_disconnect_before_or_after_jasmineDone [] _) _).
    reflexivity.
  - refine (proj1 (proj2 (C4_disconnect_before_or_after_jasmineDone
                    [Channel.JasmineDone {| Channel.specFailed := Js.Num 2 |}]
                    []) false _)).
    reflexivity.
Defined.

(** ** The event poller *)

Section PollerFacts.
Import wdHelper Q.Notations.
Context {S : Type} (driver : Driver S).

(** One call of [pollForEvents], once the callbacks before the read and
    the read itself have succeeded. *)
Lemma pollForEvents_unfold (fuel : nat) (platform : string)
  (skipBuster : bool) (windowOffset : option nat) (retries : option Z)
  (s s0 s1 s2 : session) (result : wire) :
  dismiss_alert driver platform skipBuster s = (Fulfilled tt, s0) ->
  switch_window driver platform (default_windowOffset windowOffset) s0
    = (Fulfilled tt, s1) ->
  read_cache driver s1 = (Fulfilled result, s2) ->
  pollForEvents driver (Datatypes.S fuel) platform skipBuster windowOffset retries s
  = on_result driver (pollForEvents driver fuel platform skipBuster)
      platform (default_windowOffset windowOffset) (default_retries retries)
      result s2.
Proof.
  intros Hd Hs Hr. simpl. unfold Q.then_ at 1. rewrite Hd.
  unfold Q.then_ at 1. rewrite Hs.
  unfold Q.then_ at 1. rewrite Hr. reflexivity.
Qed.

Lemma on_result_not_array (self : option nat -> option Z -> Q.M session (list Js.value))
  (platform : string) (w : nat) (r : Z) (result : wire) :
  Js.is_array (parse_result result) = false ->
  on_result driver self platform w r result
  = if String.eqb platform utilities.BROWSER && (0 <? r)
    then call (CGet TEST_PAGE) (get driver TEST_PAGE) ;;;
         self (Some w) (Some (r - 1))
    else if negb (String.eqb platform utilities.ANDROID)
    then Q.throw (Js.Error (ERR_no_cache ++ Js.to_string (parse_result result)))
    else self (Some (w + 1)%nat) None.
Proof.
  unfold on_result. destruct (parse_result result); simpl;
    intros H; try discriminate; reflexivity.
Qed.

(** What [switch_window] does on Android, given the handles. *)
Lemma switch_window_android (w : nat) (s1 : session)
  (handles : list handle) (d2 : S) :
  windowHandles driver (fst s1) = (Fulfilled handles, d2) ->
  switch_window driver "android" w s1
  = if (length handles <=? w)%nat
    then (Rejected (Js.Error ERR_no_window),
          (d2, (snd s1 ++ [CWindowHandles])%list))
    else let (r, d3) := window driver (nth w handles "") d2 in
         (r, (d3, (snd s1 ++ [CWindowHandles; CWindow (nth w handles "")])%list)).
Proof.
  intros Hh. unfold switch_window, Q.then_, call. simpl. rewrite Hh.
  destruct (length handles <=? w)%nat; [reflexivity|]. simpl.
  destruct (window driver (nth w handles "") d2) as [r d3].
  rewrite <- app_assoc. simpl. destruct r; reflexivity.
Qed.

End PollerFacts.


(** C5, as it is written, fails on iOS: the platform is not the browser,
    the read returns [null], and the poll is rejected after this single
    read instead of being made again with [windowOffset + 1]. *)
Lemma C5_counterexample :
  let s : wdHelper.session := (PollerExamples.two_windows, []) in
  String.eqb "ios" utilities.BROWSER = false
  /\ wdHelper.read_cache wdHelper.sim_driver s
     = (Fulfilled wdHelper.WNull,
        (PollerExamples.two_windows, [wdHelper.CExecuteReadCache]))
  /\ wdHelper.pollForEvents wdHelper.sim_driver 3 "ios" true (Some 0%nat) None s
     = (Rejected (Js.Error
          "Cannot get the event cache: it doesn't exist in the app. Got this instead: null"),
        (PollerExamples.two_windows,
         [wdHelper.CSleep 0; wdHelper.CExecuteReadCache]))
  /\ wdHelper.pollForEvents wdHelper.sim_driver 3 "ios" true (Some 0%nat) None s
     <> wdHelper.pollForEvents wdHelper.sim_driver 2 "ios" true (Some 1%nat) None
          (PollerExamples.two_windows,
           [wdHelper.CSleep 0; wdHelper.CExecuteReadCache]).
Proof.
  cbv zeta. repeat split; try reflexivity.
  vm_compute. discriminate.
Qed.

(** C5, amended. On Android, a poll whose read returns [null] is made
    again with [windowOffset + 1] and the default [retries], whatever
    [windowOffset] is: the function has no cap of its own. On a platform
    that is neither the browser nor Android, the same poll is rejected
    with the error that embeds the payload. *)
Theorem C5_absent_cache_next_window_on_android :
  forall (S : Type) (driver : wdHelper.Driver S) (fuel : nat)
    (platform : string) (skipBuster : bool)
    (windowOffset : option nat) (retries : option Z)
    (s s0 s1 s2 : wdHelper.session),
    String.eqb platform utilities.BROWSER = false ->
    wdHelper.dismiss_alert driver platform skipBuster s = (Fulfilled tt, s0) ->
    wdHelper.switch_window driver platform
      (wdHelper.default_windowOffset windowOffset) s0 = (Fulfilled tt, s1) ->
    wdHelper.read_cache driver s1 = (Fulfilled wdHelper.WNull, s2) ->
    (platform = utilities.ANDROID ->
     wdHelper.pollForEvents driver (Datatypes.S fuel) platform skipBuster
       windowOffset retries s
     = wdHelper.pollForEvents driver fuel platform skipBuster
         (Some (wdHelper.default_windowOffset windowOffset + 1)%nat) None s2)
    /\ (platform <> utilities.ANDROID ->
        wdHelper.pollForEvents driver (Datatypes.S fuel) platform skipBuster
          windowOffset retries s
        = (Rejected (Js.Error
             "Cannot get the event cache: it doesn't exist in the app. Got this instead: null"),
           s2)).
Proof.
  intros S driver fuel platform skipBuster windowOffset retries s s0 s1 s2
    Hb Hd Hs Hr.
  rewrite (pollForEvents_unfold driver fuel platform skipBuster windowOffset
             retries s s0 s1 s2 wdHelper.WNull Hd Hs Hr).
  rewrite on_result_not_array by reflexivity.
  rewrite Hb. simpl. split.
  - intros ->. reflexivity.
  - intros Hne. apply String.eqb_neq in Hne. rewrite Hne. reflexivity.
Qed.

(** The witness of C5: Android, two windows, the cache in the second. *)
Lemma C5_witness :
  wdHelper.pollForEvents wdHelper.sim_driver 2 "android" true None None
    (PollerExamples.two_windows, [])
  = wdHelper.pollForEvents wdHelper.sim_driver 1 "android" true
      (Some 1%nat) None
      ({| wdHelper.sim_windows := wdHelper.sim_windows PollerExamples.two_windows;
          wdHelper.sim_current := "CDwindow-0";
          wdHelper.sim_context := "WEBVIEW_1";
          wdHelper.sim_reloads := [] |},
       [wdHelper.CSleep 0; wdHelper.CWindowHandles;
        wdHelper.CWindow "CDwindow-0"; wdHelper.CExecuteReadCache]).
Proof.
  refine (proj1 (C5_absent_cache_next_window_on_android _ wdHelper.sim_driver
                   1 "android" true None None
                   (PollerExamples.two_windows, []) _ _ _ _ _ _ _) _);
    vm_compute; reflexivity.
Defined.

(** C6. In the browser, a poll whose read brings back no array (the
    sentinel [null] in particular) reloads the test page and is made again
    with [retries - 1] and the same [windowOffset] while [retries > 0];
    with [retries = 0] it is rejected with the error that embeds what the
    read brought back. *)
Theorem C6_browser_absent_cache_reloads_then_fails :
  forall (S : Type) (driver : wdHelper.Driver S) (fuel : nat)
    (skipBuster : bool) (windowOffset : option nat) (retries : option Z)
    (s s1 s2 : wdHelper.session) (result : wdHelper.wire),
    wdHelper.dismiss_alert driver "browser" skipBuster s = (Fulfilled tt, s1) ->
    wdHelper.read_cache driver s1 = (Fulfilled result, s2) ->
    Js.is_array (wdHelper.parse_result result) = false ->
    (0 < wdHelper.default_retries retries ->
     forall d3 : S,
       wdHelper.get driver "http://localhost:8000/cdvtests/index.html" (fst s2)
         = (Fulfilled tt, d3) ->
       wdHelper.pollForEvents driver (Datatypes.S fuel) "browser" skipBuster
         windowOffset retries s
       = wdHelper.pollForEvents driver fuel "browser" skipBuster
           (Some (wdHelper.default_windowOffset windowOffset))
           (Some (wdHelper.default_retries retries - 1))
           (d3, (snd s2
                   ++ [wdHelper.CGet "http://localhost:8000/cdvtests/index.html"])%list))
    /\ (wdHelper.default_retries retries = 0 ->
        wdHelper.pollForEvents driver (Datatypes.S fuel) "browser" skipBuster
          windowOffset retries s
        = (Rejected (Js.Error
             ("Cannot get the event cache: it doesn't exist in the app. Got this instead: "
                ++ Js.to_string (wdHelper.parse_result result))),
           s2)).
Proof.
  intros S driver fuel skipBuster windowOffset retries s s1 s2 result
    Hd Hr Harr.
  assert (Hs : wdHelper.switch_window driver "browser"
                 (wdHelper.default_windowOffset windowOffset) s1
               = (Fulfilled tt, s1)) by reflexivity.
  rewrite (pollForEvents_unfold driver fuel "browser" skipBuster windowOffset
             retries s s1 s1 s2 result Hd Hs Hr).
  rewrite on_result_not_array by assumption.
  change (String.eqb "browser" utilities.BROWSER) with true.
  change (String.eqb "browser" utilities.ANDROID) with false.
  simpl andb. simpl negb. split.
  - intros Hpos d3 Hget. apply Z.ltb_lt in Hpos. rewrite Hpos.
    unfold Q.then_ at 1, wdHelper.call at 1, wdHelper.TEST_PAGE.
    cbv beta iota delta [andb]. rewrite Hget. reflexivity.
  - intros Hz. rewrite Hz. reflexivity.
Qed.

(** The witness of C6: the page has lost its cache and one retry is
    left; then none is left. *)
Lemma C6_witness :
  wdHelper.pollForEvents wdHelper.sim_driver 2 "browser" true None (Some 1)
    (PollerExamples.bad_gateway, [])
  = wdHelper.pollForEvents wdHelper.sim_driver 1 "browser" true
      (Some 0%nat) (Some (1 - 1))
      ({| wdHelper.sim_windows := [("CDwindow-0", PollerExamples.one_event)];
          wdHelper.sim_current := "CDwindow-0";
          wdHelper.sim_context := "WEBVIEW_1";
          wdHelper.sim_reloads := [] |},
       [wdHelper.CSleep 0; wdHelper.CExecuteReadCache;
        wdHelper.CGet "http://localhost:8000/cdvtests/index.html"])
  /\ wdHelper.pollForEvents wdHelper.sim_driver 1 "browser" true None (Some 0)
       (PollerExamples.bad_gateway, [])
     = (Rejected (Js.Error
          ("Cannot get the event cache: it doesn't exist in the app. Got this instead: "
             ++ Js.to_string Js.Null)),
        (PollerExamples.bad_gateway,
         [wdHelper.CSleep 0; wdHelper.CExecuteReadCache])).
Proof.
  split.
  - refine (proj1 (C6_browser_absent_cache_reloads_then_fails _
                     wdHelper.sim_driver 1 true None (Some 1)
                     (PollerExamples.bad_gateway, [])
                     (PollerExamples.bad_gateway, [wdHelper.CSleep 0])
                     (PollerExamples.bad_gateway,
                      [wdHelper.CSleep 0; wdHelper.CExecuteReadCache])
                     wdHelper.WNull _ _ _) _
                  {| wdHelper.sim_windows :=
                       [("CDwindow-0", PollerExamples.one_event)];
                     wdHelper.sim_current := "CDwindow-0";
                     wdHelper.sim_context := "WEBVIEW_1";
                     wdHelper.sim_reloads := [] |} _);
      vm_compute; reflexivity.
  - refine (proj2 (C6_browser_absent_cache_reloads_then_fails _
                     wdHelper.sim_driver 0 true None (Some 0)
                     (PollerExamples.bad_gateway, [])
                     (PollerExamples.bad_gateway, [wdHelper.CSleep 0])
                     (PollerExamples.bad_gateway,
                      [wdHelper.CSleep 0; wdHelper.CExecuteReadCache])
                     wdHelper.WNull _ _ _) _);
      vm_compute; reflexivity.
Defined.

(** C7. On Android the poll asks for the window handles before it reads
    the cache. If [windowOffset] is not an index into them, the poll is
    rejected with "Cannot find a window with the event cache." and
    nothing more is done: no read, no further offset. Otherwise the
    session is switched to the window at [windowOffset], and the read and
    what follows it run on the switched session. *)
Theorem C7_android_window_switch_or_error :
  forall (S : Type) (driver : wdHelper.Driver S) (fuel : nat)
    (skipBuster : bool) (windowOffset : option nat) (retries : option Z)
    (s s1 : wdHelper.session) (handles : list wdHelper.handle) (d2 : S),
    wdHelper.dismiss_alert driver "android" skipBuster s = (Fulfilled tt, s1) ->
    wdHelper.windowHandles driver (fst s1) = (Fulfilled handles, d2) ->
    ((length handles <= wdHelper.default_windowOffset windowOffset)%nat ->
     wdHelper.pollForEvents driver (Datatypes.S fuel) "android" skipBuster
       windowOffset retries s
     = (Rejected (Js.Error "Cannot find a window with the event cache."),
        (d2, (snd s1 ++ [wdHelper.CWindowHandles])%list)))
    /\ ((wdHelper.default_windowOffset windowOffset < length handles)%nat ->
        forall d3 : S,
          wdHelper.window driver
            (nth (wdHelper.default_windowOffset windowOffset) handles "") d2
          = (Fulfilled tt, d3) ->
          wdHelper.pollForEvents driver (Datatypes.S fuel) "android" skipBuster
            windowOffset retries s
          = Q.then_ (wdHelper.read_cache driver)
              (wdHelper.on_result driver
                 (wdHelper.pollForEvents driver fuel "android" skipBuster)
                 "android" (wdHelper.default_windowOffset windowOffset)
                 (wdHelper.default_retries retries))
              (d3,
               (snd s1
                  ++ [wdHelper.CWindowHandles;
                      wdHelper.CWindow
                        (nth (wdHelper.default_windowOffset windowOffset)
                           handles "")])%list)).
Proof.
  intros S driver fuel skipBuster windowOffset retries s s1 handles d2 Hd Hh.
  pose proof (switch_window_android driver
                (wdHelper.default_windowOffset windowOffset) s1 handles d2 Hh)
    as Hsw.
  split.
  - intros Hle. apply Nat.leb_le in Hle. rewrite Hle in Hsw.
    simpl. unfold Q.then_ at 1. rewrite Hd.
    unfold Q.then_ at 1. rewrite Hsw. reflexivity.
  - intros Hlt d3 Hw. apply Nat.leb_gt in Hlt. rewrite Hlt, Hw in Hsw.
    simpl. unfold Q.then_ at 1. rewrite Hd.
    unfold Q.then_ at 1. rewrite Hsw. reflexivity.
Qed.

(** The witness of C7: two windows, asked for the window at offset 2, and
    for the window at offset 1. *)
Lemma C7_witness :
  wdHelper.pollForEvents wdHelper.sim_driver 1 "android" true (Some 2%nat) None
    (PollerExamples.two_windows, [])
  = (Rejected (Js.Error "Cannot find a window with the event cache."),
     (PollerExamples.two_windows,
      [wdHelper.CSleep 0; wdHelper.CWindowHandles]))
  /\ wdHelper.pollForEvents wdHelper.sim_driver 1 "android" true (Some 1%nat) None
       (PollerExamples.two_windows, [])
     = (Fulfilled [Js.Str "specDone"],
        ({| wdHelper.sim_windows :=
              [("CDwindow-0", PollerExamples.no_cache);
               ("CDwindow-1",
                {| wdHelper.jasmineParamedicProxyCache := Some (Js.Arr []) |})];
            wdHelper.sim_current := "CDwindow-1";
            wdHelper.sim_context := "WEBVIEW_1";
            wdHelper.sim_reloads := [] |},
         [wdHelper.CSleep 0; wdHelper.CWindowHandles;
          wdHelper.CWindow "CDwindow-1"; wdHelper.CExecuteReadCache])).
Proof.
  split.
  - refine (proj1 (C7_android_window_switch_or_error _ wdHelper.sim_driver
                     0 true (Some 2%nat) None
                     (PollerExamples.two_windows, [])
                     (PollerExamples.two_windows, [wdHelper.CSleep 0])
                     ["CDwindow-0"; "CDwindow-1"]
                     PollerExamples.two_windows _ _) _);
      [reflexivity | reflexivity | simpl; lia].
  - etransitivity.
    + refine (proj2 (C7_android_window_switch_or_error _ wdHelper.sim_driver
                       0 true (Some 1%nat) None
                       (PollerExamples.two_windows, [])
                       (PollerExamples.two_windows, [wdHelper.CSleep 0])
                       ["CDwindow-0"; "CDwindow-1"]
                       PollerExamples.two_windows _ _) _
                {| wdHelper.sim_windows :=
                     wdHelper.sim_windows PollerExamples.two_windows;
                   wdHelper.sim_current := "CDwindow-1";
                   wdHelper.sim_context := "WEBVIEW_1";
                   wdHelper.sim_reloads := [] |} _);
        [reflexivity | reflexivity | simpl; lia | reflexivity].
    + vm_compute. reflexivity.
Defined.

(** ** The run coordinator *)

(** *** What a chain does to the runner

    A chain keeps a relation [R] between the runner before and after it
    when each of its steps does; the combinators of Q only compose
    steps. *)

Section Keeps.
Import Paramedic Effects.
Variable R : Runner -> Runner -> Prop.
Hypothesis R_refl : forall r, R r r.
Hypothesis R_trans : forall r1 r2 r3, R r1 r2 -> R r2 r3 -> R r1 r3.

Lemma keeps_ret {A} (a : A) : keeps R (Q.ret a).
Proof. intros r. apply R_refl. Qed.

Lemma keeps_throw {A} (e : Js.error) : keeps R (@Q.throw Runner A e).
Proof. intros r. apply R_refl. Qed.

Lemma keeps_await {A} (o : outcome A) : keeps R (Q.await o).
Proof. intros r. apply R_refl. Qed.

Lemma keeps_read {A} (f : Runner -> A) : keeps R (read f).
Proof. intros r. apply R_refl. Qed.

Lemma keeps_then {A B} (p : M A) (k : A -> M B) :
  keeps R p -> (forall a, keeps R (k a)) -> keeps R (Q.then_ p k).
Proof.
  intros Hp Hk r. unfold Q.then_. specialize (Hp r).
  destruct (p r) as [[a|e|] r1]; simpl in *; auto.
  eapply R_trans; [exact Hp|]. apply Hk.
Qed.

Lemma keeps_catch {A} (p : M A) (h : Js.error -> M A) :
  keeps R p -> (forall e, keeps R (h e)) -> keeps R (Q.catch_ p h).
Proof.
  intros Hp Hh r. unfold Q.catch_. specialize (Hp r).
  destruct (p r) as [[a|e|] r1]; simpl in *; auto.
  eapply R_trans; [exact Hp|]. apply Hh.
Qed.

Lemma keeps_fin {A B} (p : M A) (cb : M B) :
  keeps R p -> keeps R cb -> keeps R (Q.fin p cb).
Proof.
  intros Hp Hc r. unfold Q.fin. specialize (Hp r).
  destruct (p r) as [[a|e|] r1]; simpl in *; auto;
    specialize (Hc r1); destruct (cb r1) as [[b|e'|] r2]; simpl in *;
    eapply R_trans; eauto.
Qed.

Lemma keeps_timeout {A} (p : M A) (msg : string) :
  keeps R p -> keeps R (Q.timeout p msg).
Proof.
  intros Hp r. unfold Q.timeout. specialize (Hp r).
  destruct (p r) as [[a|e|] r1]; simpl in *; auto.
Qed.

Lemma keeps_all2 {A B} (a : M A) (b : M B) :
  keeps R a -> keeps R b -> keeps R (Q.all2 a b).
Proof.
  intros Ha Hb r. unfold Q.all2. specialize (Ha r).
  destruct (a r) as [ra r1]. specialize (Hb r1).
  destruct (b r1) as [rb r2]. simpl in *. eapply R_trans; eauto.
Qed.

Lemma keeps_emit (e : effect) :
  (forall r, R r (add_log e r)) -> keeps R (emit e).
Proof. intros H r. apply H. Qed.

Lemma keeps_modify (g : Runner -> Runner) :
  (forall r, R r (g r)) -> keeps R (modify g).
Proof. intros H r. apply H. Qed.

Lemma keeps_call_sync {A} (e : effect) (res : sync A) :
  (forall r, R r (add_log e r)) -> keeps R (call_sync e res).
Proof.
  intros H. unfold call_sync. apply keeps_then; [now apply keeps_emit|].
  intros _. destruct res; [apply keeps_ret | apply keeps_throw].
Qed.

Lemma keeps_call_async {A} (e : effect) (res : outcome A) :
  (forall r, R r (add_log e r)) -> keeps R (call_async e res).
Proof.
  intros H. unfold call_async. apply keeps_then; [now apply keeps_emit|].
  intros _. apply keeps_await.
Qed.

End Keeps.

Section Grows.
Import Paramedic Effects Q.Notations.
Variable f : effect -> bool.

Lemma grows_refl (r : Runner) : grows f r r.
Proof.
  split; [exists []; split; [now rewrite app_nil_r | reflexivity] | auto].
Qed.

Lemma grows_trans (r1 r2 r3 : Runner) :
  grows f r1 r2 -> grows f r2 r3 -> grows f r1 r3.
Proof.
  intros [[l1 [E1 F1]] T1] [[l2 [E2 F2]] T2]. split; [|auto].
  exists (l1 ++ l2)%list. split.
  - now rewrite E2, E1, app_assoc.
  - rewrite forallb_app, F1, F2. reflexivity.
Qed.

Lemma grows_add_log (e : effect) (r : Runner) :
  f e = true -> grows f r (add_log e r).
Proof.
  intros He. split; [|auto]. exists [e]. split; [reflexivity|].
  simpl. now rewrite He.
Qed.

Lemma grows_same_log (r r' : Runner) :
  log r' = log r -> (tempFolder r <> None -> tempFolder r' <> None) ->
  grows f r r'.
Proof.
  intros El Ht. split; [|exact Ht]. exists []. split;
    [now rewrite app_nil_r | reflexivity].
Qed.

End Grows.

(** Solves [keeps (grows f) m] for a chain [m] written with the
    combinators, given [f e = true] for the effects it emits. *)
Ltac grows_tac :=
  repeat first
    [ apply keeps_ret; apply grows_refl
    | apply keeps_throw; apply grows_refl
    | apply keeps_await; apply grows_refl
    | apply keeps_read; apply grows_refl
    | apply keeps_then; [apply grows_trans | | intros ?]
    | apply keeps_catch; [apply grows_trans | | intros ?]
    | apply keeps_fin; [apply grows_trans | | ]
    | apply keeps_timeout
    | apply keeps_all2; [apply grows_trans | | ]
    | apply keeps_call_sync; [apply grows_refl | apply grows_trans | intros ?; apply grows_add_log ]
    | apply keeps_call_async; [apply grows_refl | apply grows_trans | intros ?; apply grows_add_log ]
    | apply keeps_emit; intros ?; apply grows_add_log
    | apply keeps_modify; intros ?; apply grows_same_log;
        [reflexivity | simpl; first [tauto | discriminate]]
    | match goal with
      | |- Effects.keeps _ (if ?b then _ else _) => destruct b
      | |- Effects.keeps _ (match ?x with _ => _ end) => destruct x
      end ].

Section PhaseEffects.
Import Paramedic Effects Q.Notations.
Variable config : Config.t.
Variable world : World.
Variable f : effect -> bool.
Hypothesis f_phase :
  forall e, is_race e = false -> is_cleanup e = false ->
            is_execPromise e = false -> f e = true.

Lemma checkConfig_grows : keeps (grows f) (checkConfig config world).
Proof.
  unfold checkConfig. grows_tac; apply f_phase; reflexivity.
Qed.

Lemma tempFolder_name_grows : keeps (grows f) tempFolder_name.
Proof. unfold tempFolder_name. grows_tac. Qed.

Lemma setPermissions_grows : keeps (grows f) (setPermissions config world).
Proof. unfold setPermissions. grows_tac; apply f_phase; reflexivity. Qed.

Lemma maybeRunFileTransferServer_grows :
  keeps (grows f) (maybeRunFileTransferServer config world).
Proof.
  unfold maybeRunFileTransferServer.
  induction (Config.getPlugins config) as [|plugin rest IH]; simpl.
  - grows_tac.
  - destruct (_ && _ && _); [|exact IH].
    unfold tempFolder_name. grows_tac; apply f_phase; reflexivity.
Qed.

Lemma getCommandForStartingTests_grows :
  keeps (grows f) (getCommandForStartingTests config world).
Proof.
  unfold getCommandForStartingTests, tempFolder_name.
  grows_tac; apply f_phase; reflexivity.
Qed.

Lemma runAppiumTests_grows (useSauce : bool) :
  keeps (grows f) (Paramedic.runAppiumTests config world useSauce).
Proof.
  unfold Paramedic.runAppiumTests, tempFolder_name.
  grows_tac; apply f_phase; reflexivity.
Qed.

(** The launch command is only run to completion by [execPromise]. *)
Hypothesis f_exec : forall e, is_execPromise e = true -> f e = true.

Lemma execPromise_grows (command : string) :
  keeps (grows f) (execPromise world command).
Proof. unfold execPromise. grows_tac; apply f_exec; reflexivity. Qed.

(** The race emits its two effects, and is only started when
    [shouldWaitForTestResult] holds. *)
Hypothesis f_race :
  shouldWaitForTestResult config = true -> forall e, is_race e = true -> f e = true.

Lemma runLocalTests_grows : keeps (grows f) (runLocalTests config world).
Proof.
  unfold runLocalTests.
  apply keeps_then; [apply grows_trans | grows_tac | intros _].
  destruct (_ && _); [grows_tac|].
  apply keeps_fin; [apply grows_trans | | grows_tac; apply f_phase; reflexivity].
  apply keeps_then;
    [apply grows_trans | apply maybeRunFileTransferServer_grows | intros _].
  apply keeps_then;
    [apply grows_trans | apply getCommandForStartingTests_grows | intros command].
  apply keeps_then;
    [apply grows_trans | apply setPermissions_grows | intros _].
  apply keeps_then; [apply grows_trans | | intros results; grows_tac].
  apply keeps_all2; [apply grows_trans | | ].
  - destruct (negb _); [apply execPromise_grows|].
    grows_tac; apply f_phase; reflexivity.
  - destruct (negb _); [grows_tac|].
    destruct (shouldWaitForTestResult config) eqn:Hw; [|grows_tac].
    unfold waitForTestResult. grows_tac; apply f_race; reflexivity.
Qed.

Lemma runTests_grows : keeps (grows f) (runTests config world).
Proof.
  unfold runTests. destruct (Config.shouldUseSauce config).
  - apply keeps_then; [apply grows_trans | | intros m].
    + grows_tac; apply f_phase; reflexivity.
    + apply keeps_then;
        [apply grows_trans | apply runAppiumTests_grows | intros a].
      grows_tac.
  - apply keeps_then; [apply grows_trans | apply runLocalTests_grows | intros m].
    apply keeps_then;
      [apply grows_trans | apply runAppiumTests_grows | intros a].
    grows_tac.
Qed.

Lemma phases_grows : keeps (grows f) (phases config world).
Proof.
  unfold phases.
  apply keeps_catch;
    [apply grows_trans | | intros e; grows_tac; apply f_phase; reflexivity].
  apply keeps_timeout.
  apply keeps_then; [apply grows_trans | | intros _].
  { grows_tac; apply f_phase; reflexivity. }
  apply keeps_then; [apply grows_trans | | intros _].
  { grows_tac; apply f_phase; reflexivity. }
  apply keeps_then; [apply grows_trans | | intros _].
  { unfold injectReporters, subcribeForEvents, writeMedicJson.
    grows_tac; apply f_phase; reflexivity. }
  apply runTests_grows.
Qed.

End PhaseEffects.

(** *** The two test phases of [runTests] *)


Lemma runTests_mainTests (config : Config.t) (world : Paramedic.World)
  (r : Paramedic.Runner) :
  Paramedic.runTests config world r
  = Q.then_ (mainTests config world) (fun isTestPassed =>
      Q.then_ (Paramedic.runAppiumTests config world (Config.shouldUseSauce config))
        (fun isAppiumTestPassed =>
           Q.ret (Bool.eqb isTestPassed utilities.TEST_PASSED
                  && Bool.eqb isAppiumTestPassed utilities.TEST_PASSED))) r.
Proof.
  unfold Paramedic.runTests, mainTests.
  destruct (Config.shouldUseSauce config); reflexivity.
Qed.

(** C9. When the main-test phase and the Appium phase of [runTests] both
    end with a result, [runTests] ends with their conjunction: it passes
    exactly when both passed. *)
Theorem C9_runTests_is_and_of_both_phases :
  forall (config : Config.t) (world : Paramedic.World)
    (r r1 r2 : Paramedic.Runner) (isTestPassed isAppiumTestPassed : bool),
    mainTests config world r = (Fulfilled isTestPassed, r1) ->
    Paramedic.runAppiumTests config world (Config.shouldUseSauce config) r1
      = (Fulfilled isAppiumTestPassed, r2) ->
    Paramedic.runTests config world r
      = (Fulfilled (isTestPassed && isAppiumTestPassed), r2)
    /\ (isTestPassed && isAppiumTestPassed = utilities.TEST_PASSED
        <-> isTestPassed = utilities.TEST_PASSED
            /\ isAppiumTestPassed = utilities.TEST_PASSED).
Proof.
  intros config world r r1 r2 m a Hm Ha. split.
  - rewrite runTests_mainTests. unfold Q.then_ at 1. rewrite Hm.
    unfold Q.then_ at 1. rewrite Ha. unfold Q.ret.
    destruct m, a; reflexivity.
  - unfold utilities.TEST_PASSED. apply andb_true_iff.
Qed.

(** The witness of C9: two specs fail in the main tests, the Appium
    tests pass, and [runTests] fails. *)
Lemma C9_witness :
  fst (Paramedic.runTests RunExamples.android_run
         (RunExamples.a_world 0 (Fulfilled tt)) RunExamples.prepared)
  = Fulfilled (false && true).
Proof.
  refine (f_equal fst
            (proj1 (C9_runTests_is_and_of_both_phases RunExamples.android_run
                      (RunExamples.a_world 0 (Fulfilled tt))
                      RunExamples.prepared
                      (snd (mainTests RunExamples.android_run
                              (RunExamples.a_world 0 (Fulfilled tt))
                              RunExamples.prepared))
                      (snd (Paramedic.runTests RunExamples.android_run
                              (RunExamples.a_world 0 (Fulfilled tt))
                              RunExamples.prepared))
                      false true _ _)));
    vm_compute; reflexivity.
Defined.

(** C10. [runAppiumTests] resolves to [TEST_PASSED] without running
    anything when the action is "build", when the Appium tests are not
    configured to run, and when the platform is neither android nor ios.
    Past these three checks, a local run (not on Sauce Labs) without a
    resolved target device throws "Cannot determine local device name for
    Appium"; with a device, or on Sauce Labs, it resolves to
    [TEST_PASSED] when no Appium test file is found. A phase that is
    skipped this way leaves the result of [runTests] equal to the result
    of the main tests. *)
Theorem C10_skipped_appium_phase_passes :
  forall (config : Config.t) (world : Paramedic.World) (useSauce : bool)
    (r : Paramedic.Runner),
    ((Config.getAction config = "build"
      \/ Config.runAppiumTests config = false
      \/ (Config.getPlatformId config <> utilities.ANDROID
          /\ Config.getPlatformId config <> utilities.IOS)) ->
     Paramedic.runAppiumTests config world useSauce r
     = (Fulfilled utilities.TEST_PASSED, r))
    /\ (Config.getAction config <> "build" ->
        Config.runAppiumTests config = true ->
        (Config.getPlatformId config = utilities.ANDROID
         \/ Config.getPlatformId config = utilities.IOS) ->
        (useSauce = false ->
         (Paramedic.targetObj r = None
          \/ exists o, Paramedic.targetObj r = Some o
                       /\ Paramedic.truthy (Paramedic.target o) = false) ->
         Paramedic.runAppiumTests config world useSauce r
         = (Rejected (Js.Error "Cannot determine local device name for Appium"),
            r))
        /\ ((useSauce = true
             \/ exists o, Paramedic.targetObj r = Some o
                          /\ Paramedic.truthy (Paramedic.target o) = true) ->
            Paramedic.tempFolder r <> None ->
            Paramedic.appium_testPaths world = Some [] ->
            fst (Paramedic.runAppiumTests config world useSauce r)
            = Fulfilled utilities.TEST_PASSED))
    /\ (forall (r0 : Paramedic.Runner) (isTestPassed : bool),
          mainTests config world r0 = (Fulfilled isTestPassed, r) ->
          fst (Paramedic.runAppiumTests config world
                 (Config.shouldUseSauce config) r)
          = Fulfilled utilities.TEST_PASSED ->
          fst (Paramedic.runTests config world r0) = Fulfilled isTestPassed).
Proof.
  intros config world useSauce r. split; [|split].
  - intros H. unfold Paramedic.runAppiumTests.
    destruct (String.eqb_spec (Config.getAction config) "build") as [Eb|Nb];
      [reflexivity|].
    destruct (Config.runAppiumTests config) eqn:Ea; [|reflexivity].
    destruct (String.eqb_spec (Config.getPlatformId config) utilities.ANDROID)
      as [Eand|Nand];
      destruct (String.eqb_spec (Config.getPlatformId config) utilities.IOS)
        as [Eios|Nios]; simpl; try reflexivity;
      destruct H as [H|[H|[H1 H2]]]; congruence.
  - intros Nb Ea Hplat.
    assert (Hpre : forall (k : Paramedic.M bool),
               (if String.eqb (Config.getAction config) "build"
                then Q.ret utilities.TEST_PASSED
                else if negb (Config.runAppiumTests config)
                then Q.ret utilities.TEST_PASSED
                else if negb (String.eqb (Config.getPlatformId config)
                                utilities.ANDROID)
                        && negb (String.eqb (Config.getPlatformId config)
                                   utilities.IOS)
                then Q.ret utilities.TEST_PASSED
                else k) = k).
    { intros k. apply String.eqb_neq in Nb. rewrite Nb, Ea. simpl.
      destruct Hplat as [-> | ->]; reflexivity. }
    unfold Paramedic.runAppiumTests. rewrite Hpre. split.
    + intros -> Ht. unfold Q.then_ at 1, Paramedic.read. simpl.
      destruct Ht as [-> | [o [-> Ho]]]; [reflexivity|].
      rewrite Ho. reflexivity.
    + intros Ht Hf Hp. unfold Q.then_ at 1, Paramedic.read.
      assert (Hguard :
                negb useSauce
                && match Paramedic.targetObj r with
                   | Some o => negb (Paramedic.truthy (Paramedic.target o))
                   | None => true
                   end = false).
      { destruct Ht as [-> | [o [-> Ho]]]; [reflexivity|].
        rewrite Ho. now rewrite andb_false_r. }
      rewrite Hguard. unfold Paramedic.tempFolder_name, Q.then_,
        Paramedic.read, Paramedic.emit. simpl.
      destruct (Paramedic.tempFolder r) as [name|]; [|congruence].
      simpl. rewrite Hp. reflexivity.
  - intros r0 m Hm Ha. rewrite runTests_mainTests.
    unfold Q.then_ at 1. rewrite Hm. unfold Q.then_ at 1.
    destruct (Paramedic.runAppiumTests config world
                (Config.shouldUseSauce config) r) as [[a| |] r2];
      simpl in Ha; try discriminate.
    injection Ha as ->. simpl. now destruct m.
Qed.

(** The witness of C10: a build; a local run without a target; a run on
    Sauce Labs without test files. *)
Lemma C10_witness :
  Paramedic.runAppiumTests RunExamples.android_build
    (RunExamples.a_world 0 (Fulfilled tt)) false RunExamples.prepared
  = (Fulfilled true, RunExamples.prepared)
  /\ Paramedic.runAppiumTests RunExamples.android_run
       (RunExamples.a_world 0 (Fulfilled tt)) false RunExamples.prepared
     = (Rejected (Js.Error "Cannot determine local device name for Appium"),
        RunExamples.prepared).
Proof.
  split.
  - refine (proj1 (C10_skipped_appium_phase_passes RunExamples.android_build
                     (RunExamples.a_world 0 (Fulfilled tt)) false
                     RunExamples.prepared) _).
    left. reflexivity.
  - refine (proj1 (proj1 (proj2 (C10_skipped_appium_phase_passes
                     RunExamples.android_run
                     (RunExamples.a_world 0 (Fulfilled tt)) false
                     RunExamples.prepared)) _ _ _) _ _).
    + vm_compute. discriminate.
    + reflexivity.
    + left. reflexivity.
    + reflexivity.
    + left. reflexivity.
Defined.

(** *** The clean-up of [run] *)

Section CleanUpFacts.
Import Paramedic Effects Q.Notations.
Variable config : Config.t.
Variable world : World.


Lemma emit_then_log {A} (f : effect -> bool) (e : effect) (m : M A) :
  keeps (grows f) m ->
  forall r,
    exists l,
      log (snd (Q.then_ (emit e) (fun _ => m) r)) = (log r ++ e :: l)%list
      /\ forallb f l = true
      /\ (tempFolder r <> None ->
          tempFolder (snd (Q.then_ (emit e) (fun _ => m) r)) <> None).
Proof.
  intros Hm r. unfold Q.then_, emit. simpl.
  destruct (Hm (add_log e r)) as [[l [El Fl]] Ht].
  exists l. repeat split; auto.
  rewrite El. simpl. now rewrite <- app_assoc.
Qed.

Lemma collectDataAndCleanUp_log (f : effect -> bool) :
  (forall e, is_device_cleanup e = true -> f e = true) ->
  forall r,
    exists l,
      log (snd (collectDataAndCleanUp config world r))
      = (log r ++ ECollectDataAndCleanUp :: l)%list
      /\ forallb f l = true
      /\ (tempFolder r <> None ->
          tempFolder (snd (collectDataAndCleanUp config world r)) <> None).
Proof.
  intros Hf. unfold collectDataAndCleanUp. apply emit_then_log.
  unfold collectDeviceLogs, uninstallApp, killEmulatorProcess, tempFolder_name.
  grows_tac; apply Hf; reflexivity.
Qed.

Lemma cleanUpProject_log (f : effect -> bool) :
  (forall e, is_project_cleanup e = true -> f e = true) ->
  forall r,
    exists l,
      log (snd (cleanUpProject config r))
      = (log r ++ ECleanUpProject :: l)%list
      /\ forallb f l = true
      /\ (tempFolder r <> None ->
          tempFolder (snd (cleanUpProject config r)) <> None).
Proof.
  intros Hf. unfold cleanUpProject. apply emit_then_log.
  unfold tempFolder_name. grows_tac; apply Hf; reflexivity.
Qed.

(** [cleanUpProject] is synchronous: it returns or throws. *)
Lemma cleanUpProject_settles (r : Runner) :
  fst (cleanUpProject config r) <> Pending.
Proof.
  unfold cleanUpProject, tempFolder_name, Q.then_, emit, read. simpl.
  destruct (server r); simpl;
    destruct (Config.shouldCleanUpAfterRun config); simpl;
    try destruct (tempFolder r); simpl; discriminate.
Qed.

(** With a temp folder, [cleanUpProject] returns. *)
Lemma cleanUpProject_returns (r : Runner) :
  tempFolder r <> None -> fst (cleanUpProject config r) = Fulfilled tt.
Proof.
  intros Ht.
  unfold cleanUpProject, tempFolder_name, Q.then_, emit, read. simpl.
  destruct (server r); simpl;
    destruct (Config.shouldCleanUpAfterRun config); simpl;
    try (destruct (tempFolder r); [|congruence]); reflexivity.
Qed.

(** The first callback settles when the promise it waits for does. *)
Lemma collectDataAndCleanUp_settles (r : Runner) :
  displaySauceDetails world <> Pending ->
  uninstall world <> Pending ->
  fst (collectDataAndCleanUp config world r) <> Pending.
Proof.
  intros Hd Hu.
  unfold collectDataAndCleanUp, collectDeviceLogs, uninstallApp,
    killEmulatorProcess, tempFolder_name, call_async, Q.then_, Q.fin,
    Q.catch_, Q.await, emit, read.
  simpl.
  destruct (Config.shouldUseSauce config); simpl.
  - destruct (displaySauceDetails world); simpl; congruence.
  - destruct (negb _); simpl; [|discriminate].
    destruct (tempFolder r) eqn:Et; simpl; rewrite ?Et; simpl;
      [|discriminate].
    destruct (uninstall world); simpl; try congruence;
      destruct (Config.shouldCleanUpAfterRun config); simpl; discriminate.
Qed.


End CleanUpFacts.

Section CountFacts.
Import Paramedic Effects.

Lemma count_app (p : effect -> bool) (l1 l2 : list effect) :
  count p (l1 ++ l2) = (count p l1 + count p l2)%nat.
Proof. unfold count. now rewrite filter_app, length_app. Qed.

Lemma count_none (p f : effect -> bool) (l : list effect) :
  (forall e, f e = true -> p e = false) ->
  forallb f l = true -> count p l = 0%nat.
Proof.
  intros Hfp. unfold count. induction l as [|e l IH]; simpl; [reflexivity|].
  intros H. apply andb_true_iff in H as [He Hl].
  rewrite (Hfp e He). now apply IH.
Qed.

Lemma is_settled_not_pending {A} (o : outcome A) :
  is_settled o = true -> o <> Pending.
Proof. destruct o; simpl; congruence. Qed.

Lemma not_entry_phase (e : effect) :
  is_race e = false -> is_cleanup e = false -> is_execPromise e = false ->
  not_entry e = true.
Proof. destruct e; cbv; intros; congruence. Qed.

Lemma not_entry_exec (e : effect) :
  is_execPromise e = true -> not_entry e = true.
Proof. destruct e; cbv; intros; congruence. Qed.

Lemma not_entry_race (e : effect) : is_race e = true -> not_entry e = true.
Proof. destruct e; cbv; intros; congruence. Qed.

End CountFacts.

Import Paramedic Effects.

(** *** The temp project during the phases *)

Section TempProjectFacts.
Import Q.Notations.
Variable config : Config.t.
Variable world : World.
Variable name : string.






End TempProjectFacts.


Section TempProjectOfTheRun.
Import Q.Notations.
Variable config : Config.t.
Variable world : World.
Variable name : string.




End TempProjectOfTheRun.




(** C8. The clean-up of a local run that is not a build fails as a whole
    when the temp project could not be created: both callbacks read
    [this.tempFolder.name] while [tempFolder] is still [null], the first
    one before the device logs are collected, so that no uninstall is
    attempted and no emulator killed, and [cleanUpProject] before
    anything is deleted; the promise of [run] is rejected with the
    [TypeError] of the clean-up in place of the wrapped error of the
    phases. *)
Theorem C8_cleanup_without_temp_project :
  run RunExamples.android_run MoreExamples.no_temp_project
  = (RunReturns
       (Rejected (Js.TypeError "Cannot read property 'name' of null")),
     {| cli := "cordova"; tempFolder := None; server := false;
        targetObj := None; paramedicSauceLabs := false; runProcess := false;
        log := [ECreateTempProject;
                ELoggerError (Js.Error "ENOSPC: no space left on device");
                ECollectDataAndCleanUp;
                ECleanUpProject] |})
  /\ fst (phases RunExamples.android_run MoreExamples.no_temp_project
            (new_runner RunExamples.android_run))
     = Rejected (Js.wrap_error (Js.Error "ENOSPC: no space left on device")).
Proof. split; reflexivity. Qed.

(** *** A build: no race, and the result of the launch *)

Section IndexOfFacts.

Lemma indexOf_from_eq (s pat : string) (i : Z) :
  Js.indexOf_from i s pat
  = if String.prefix pat s then i
    else match s with
         | EmptyString => -1
         | String _ s' => Js.indexOf_from (i + 1) s' pat
         end.
Proof. destruct s; reflexivity. Qed.

Lemma indexOf_from_range (s pat : string) (i : Z) :
  Js.indexOf_from i s pat = -1 \/ i <= Js.indexOf_from i s pat.
Proof.
  revert i. induction s as [|c s IH]; intros i; rewrite indexOf_from_eq.
  - destruct (String.prefix pat ""); [right; lia | left; reflexivity].
  - destruct (String.prefix pat (String c s)); [right; lia|].
    destruct (IH (i + 1)) as [H|H]; [left; exact H | right; lia].
Qed.

(** [s.indexOf(pat) === 0] says that [s] starts with [pat]. *)
Lemma indexOf_zero_iff (s pat : string) :
  (Js.indexOf s pat =? 0) = String.prefix pat s.
Proof.
  unfold Js.indexOf. rewrite indexOf_from_eq.
  destruct (String.prefix pat s); [reflexivity|].
  destruct s as [|c s]; [reflexivity|].
  destruct (indexOf_from_range s pat (0 + 1)) as [H|H].
  - rewrite H. reflexivity.
  - apply Z.eqb_neq. lia.
Qed.

End IndexOfFacts.

Section BuildFacts.
Import Paramedic Effects Q.Notations.
Variable config : Config.t.
Variable world : World.


Lemma grows_not_exec (r r' : Runner) :
  grows not_exec r r' -> has_exec r' = has_exec r.
Proof.
  intros [[l [El Fl]] _]. unfold has_exec. rewrite El, existsb_app.
  assert (H : existsb is_execPromise l = false).
  { clear El. induction l as [|e l IH]; simpl in *; [reflexivity|].
    apply andb_true_iff in Fl as [He Hl]. unfold not_exec in He.
    apply negb_true_iff in He. rewrite He. now apply IH. }
  rewrite H. apply orb_false_r.
Qed.

Lemma has_exec_add_log (e : effect) (r : Runner) :
  is_execPromise e = false -> has_exec (add_log e r) = has_exec r.
Proof.
  intros He. unfold has_exec. simpl. rewrite existsb_app. simpl.
  rewrite He. now rewrite !orb_false_r.
Qed.

(** A chain whose first step is quiet only reaches [execPromise] when
    this step is fulfilled. *)
Lemma then_reaches {A B} (p : M A) (k : A -> M B) (r : Runner) :
  keeps (grows not_exec) p ->
  has_exec r = false ->
  has_exec (snd (Q.then_ p k r)) = true ->
  exists a r1,
    p r = (Fulfilled a, r1)
    /\ has_exec r1 = false
    /\ (tempFolder r <> None -> tempFolder r1 <> None)
    /\ Q.then_ p k r = k a r1.
Proof.
  intros Hp Hr H. pose proof (Hp r) as Hg.
  pose proof (grows_not_exec _ _ Hg) as He. destruct Hg as [_ Ht].
  unfold Q.then_ in *. destruct (p r) as [[a|e|] r1]; simpl in *;
    try congruence.
  exists a, r1. repeat split; auto. congruence.
Qed.


Lemma launch_result_passed :
  launch_result world = Fulfilled utilities.TEST_PASSED
  <-> launch_exit_code world = Some 0.
Proof.
  unfold launch_result. destruct (launch_exit_code world) as [code|].
  - destruct (Z.eqb_spec code 0) as [->|Hne]; split; intros H;
      try reflexivity; try discriminate.
    injection H as ->. congruence.
  - split; discriminate.
Qed.

Hypothesis build : Config.getAction config = "build".

Lemma build_shouldWaitForTestResult : shouldWaitForTestResult config = false.
Proof. unfold shouldWaitForTestResult. rewrite build. reflexivity. Qed.

Lemma build_runAppiumTests (useSauce : bool) (r : Runner) :
  Paramedic.runAppiumTests config world useSauce r
  = (Fulfilled utilities.TEST_PASSED, r).
Proof. unfold Paramedic.runAppiumTests. rewrite build. reflexivity. Qed.

Lemma not_exec_phase (e : effect) :
  is_race e = false -> is_cleanup e = false -> is_execPromise e = false ->
  not_exec e = true.
Proof. destruct e; cbv; intros; congruence. Qed.

(** In a build, [runLocalTests] that has run the launch command to
    completion ends with its result. *)
Lemma build_runLocalTests (r : Runner) :
  has_exec r = false ->
  has_exec (snd (runLocalTests config world r)) = true ->
  fst (runLocalTests config world r) = launch_result world.
Proof.
  intros Hr H. unfold runLocalTests in *.
  unfold Q.then_ at 1 in H. unfold Q.then_ at 1.
  unfold modify in *. cbv beta iota in *.
  set (r' := set_runProcess false r) in *.
  assert (Hr' : has_exec r' = false) by exact Hr.
  destruct (negb (Config.runMainTests config)
            && negb (String.eqb (Config.getPlatformId config) utilities.ANDROID))
    eqn:Hskip.
  { simpl in H. congruence. }
  (* the callback of [.fin] is quiet and returns *)
  match type of H with
  | has_exec (snd (Q.fin ?inner ?cb r')) = true =>
      assert (Hfin : fst (Q.fin inner cb r') = fst (inner r')
                     /\ has_exec (snd (Q.fin inner cb r'))
                        = has_exec (snd (inner r')));
      [ | destruct Hfin as [Hfst Hsnd]; rewrite Hfst; rewrite Hsnd in H;
          clear Hfst Hsnd ]
  end.
  { unfold Q.fin.
    match goal with
    | |- context [match ?x with _ => _ end] => destruct x as [[res|e|] r1]
    end; simpl; try (split; reflexivity);
      unfold Q.then_, read, emit; simpl;
      destruct (runProcess r1); simpl; split;
      rewrite ?has_exec_add_log by reflexivity; reflexivity. }
  (* the steps before the launch *)
  destruct (then_reaches _ _ r' (maybeRunFileTransferServer_grows config world
                                   not_exec not_exec_phase) Hr' H)
    as [u1 [r1 [E1 [Hr1 [_ Ek1]]]]].
  rewrite Ek1 in *. clear Ek1.
  destruct (then_reaches _ _ r1 (getCommandForStartingTests_grows config world
                                   not_exec not_exec_phase) Hr1 H)
    as [command [r2 [E2 [Hr2 [_ Ek2]]]]].
  rewrite Ek2 in *. clear Ek2.
  destruct (then_reaches _ _ r2 (setPermissions_grows config world
                                   not_exec not_exec_phase) Hr2 H)
    as [u3 [r3 [E3 [Hr3 [_ Ek3]]]]].
  rewrite Ek3 in *. clear Ek3.
  rewrite build_shouldWaitForTestResult in *.
  assert (HT : (if negb (Config.runMainTests config)
                then Q.ret utilities.TEST_PASSED
                else Q.ret utilities.TEST_PASSED)
               = (@Q.ret Runner bool utilities.TEST_PASSED)).
  { destruct (negb (Config.runMainTests config)); reflexivity. }
  rewrite HT in *. clear HT.
  destruct (negb (String.eqb (Config.getPlatformId config) utilities.BROWSER)).
  - unfold Q.then_, Q.all2, execPromise, call_async, Q.then_, Q.await,
      Q.ret, emit, launch_result. simpl.
    destruct (launch_exit_code world) as [code|]; simpl; [|reflexivity].
    destruct (code =? 0); reflexivity.
  - exfalso. revert H.
    unfold Q.then_, Q.all2, Q.ret, emit, modify. simpl.
    change (has_exec (set_runProcess (runProcess_alive world)
                        (add_log (ECpExec command) r3)))
      with (has_exec (add_log (ECpExec command) r3)).
    rewrite has_exec_add_log by reflexivity. rewrite Hr3. discriminate.
Qed.

Lemma launch_result_fulfilled (passed : bool) :
  launch_result world = Fulfilled passed -> passed = utilities.TEST_PASSED.
Proof.
  unfold launch_result. destruct (launch_exit_code world) as [code|];
    [destruct (code =? 0)|]; intros H; try discriminate.
  now injection H.
Qed.

Hypothesis local : Config.shouldUseSauce config = false.

Lemma build_runTests (r : Runner) :
  has_exec r = false ->
  has_exec (snd (runTests config world r)) = true ->
  fst (runTests config world r) = launch_result world.
Proof.
  intros Hr H. unfold runTests in *. rewrite local in *.
  unfold Q.then_ in *.
  pose proof (build_runLocalTests r Hr) as HL.
  destruct (runLocalTests config world r) as [[m|e|] r4]; simpl in *.
  - rewrite build_runAppiumTests in *. simpl in *.
    specialize (HL H). rewrite <- HL.
    rewrite (launch_result_fulfilled m (eq_sym HL)). reflexivity.
  - now apply HL.
  - now apply HL.
Qed.

(** In a build, the phases that have run the launch command to
    completion pass exactly when it exits with code zero, and they leave
    a temp folder behind. *)
Lemma build_phases (r : Runner) :
  has_exec r = false ->
  has_exec (snd (phases config world r)) = true ->
  (fst (phases config world r) = Fulfilled utilities.TEST_PASSED
   <-> launch_exit_code world = Some 0)
  /\ tempFolder (snd (phases config world r)) <> None.
Proof.
  intros Hr H. unfold phases in *.
  unfold Q.catch_, Q.timeout in *.
  match type of H with
  | context [match ?b r with _ => _ end] => set (body := b) in *
  end.
  assert (Hb : has_exec (snd (body r)) = true).
  { destruct (body r) as [[b|e|] rb]; simpl in *; auto;
      unfold Q.then_, emit, Q.throw in H; simpl in H;
      rewrite has_exec_add_log in H by reflexivity; exact H. }
  assert (Hres : fst (body r) = launch_result world
                 /\ tempFolder (snd (body r)) <> None).
  { subst body.
    match type of Hb with
    | has_exec (snd (Q.then_ ?A _ r)) = true =>
        assert (HA : keeps (grows not_exec) A)
          by (grows_tac; apply not_exec_phase; reflexivity);
        assert (HtA : forall u ra, A r = (Fulfilled u, ra) ->
                                   tempFolder ra <> None)
    end.
    { intros u ra. unfold call_sync, call_async, Q.then_, Q.await, emit,
        modify, Q.ret, Q.throw. simpl.
      destruct (createTempProject world) as [name|e]; simpl;
        [|discriminate].
      destruct (prepareProjectToRunTests world); simpl; intros E;
        try discriminate.
      injection E as _ <-. simpl. discriminate. }
    destruct (then_reaches _ _ r HA Hr Hb) as [u1 [r1 [E1 [Hr1 [_ Ek1]]]]].
    rewrite Ek1 in *. clear Ek1. specialize (HtA u1 r1 E1).
    match type of Hb with
    | has_exec (snd (Q.then_ ?B _ r1)) = true =>
        assert (HB : keeps (grows not_exec) B)
          by (grows_tac; apply not_exec_phase; reflexivity)
    end.
    destruct (then_reaches _ _ r1 HB Hr1 Hb) as [u2 [r2 [E2 [Hr2 [Ht2 Ek2]]]]].
    rewrite Ek2 in *. clear Ek2.
    match type of Hb with
    | has_exec (snd (Q.then_ ?C _ r2)) = true =>
        assert (HC : keeps (grows not_exec) C)
          by (unfold injectReporters, subcribeForEvents, writeMedicJson;
              grows_tac; apply not_exec_phase; reflexivity)
    end.
    destruct (then_reaches _ _ r2 HC Hr2 Hb) as [u3 [r3 [E3 [Hr3 [Ht3 Ek3]]]]].
    rewrite Ek3 in *. clear Ek3.
    split; [now apply build_runTests|].
    apply (runTests_grows config world (fun _ => true)); auto. }
  destruct Hres as [Hfst Htmp].
  destruct (body r) as [[b|e|] rb]; simpl in *.
  - rewrite Hfst. split; [apply launch_result_passed | exact Htmp].
  - split; [|exact Htmp]. rewrite <- launch_result_passed, <- Hfst.
    split; discriminate.
  - split; [|exact Htmp]. rewrite <- launch_result_passed, <- Hfst.
    split; discriminate.
Qed.

End BuildFacts.

Section RunFacts.
Import Paramedic Effects Q.Notations.
Variable config : Config.t.
Variable world : World.

Lemma collectDataAndCleanUp_grows (f : effect -> bool) :
  (forall e, is_cleanup e = true -> f e = true) ->
  keeps (grows f) (collectDataAndCleanUp config world).
Proof.
  intros Hf.
  unfold collectDataAndCleanUp, collectDeviceLogs, uninstallApp,
    killEmulatorProcess, tempFolder_name.
  grows_tac; apply Hf; reflexivity.
Qed.

Lemma cleanUpProject_grows (f : effect -> bool) :
  (forall e, is_cleanup e = true -> f e = true) ->
  keeps (grows f) (cleanUpProject config).
Proof.
  intros Hf. unfold cleanUpProject, tempFolder_name.
  grows_tac; apply Hf; reflexivity.
Qed.

Lemma fin_grows {A B} (f : effect -> bool) (p : M A) (cb : M B) (r : Runner) :
  keeps (grows f) cb -> grows f (snd (p r)) (snd (Q.fin p cb r)).
Proof.
  intros Hc. unfold Q.fin. destruct (p r) as [[a|e|] r1]; simpl;
    try apply grows_refl;
    specialize (Hc r1); destruct (cb r1) as [[b|e'|] r2]; exact Hc.
Qed.

(** The whole of [run] only adds to the log what its parts add. *)
Lemma run_grows (f : effect -> bool) :
  (forall e, is_race e = false -> f e = true) ->
  (shouldWaitForTestResult config = true ->
   forall e, is_race e = true -> f e = true) ->
  grows f (new_runner config) (snd (run config world)).
Proof.
  intros Hf Hrace. unfold run, run_from.
  pose proof (checkConfig_grows config world f
                ltac:(intros e H _ _; now apply Hf) (new_runner config)) as H0.
  destruct (checkConfig config world (new_runner config)) as [[u|e|] r0];
    simpl in *; auto.
  assert (Hk : keeps (grows f)
                 (Q.fin (Q.fin (phases config world)
                           (collectDataAndCleanUp config world))
                    (cleanUpProject config))).
  { apply keeps_fin; [apply grows_trans | | ].
    - apply keeps_fin; [apply grows_trans | | ].
      + apply phases_grows; auto.
        intros e He; apply Hf; destruct e; cbv in He |- *; congruence.
      + apply collectDataAndCleanUp_grows.
        intros e He; apply Hf; destruct e; cbv in He |- *; congruence.
    - apply cleanUpProject_grows.
      intros e He; apply Hf; destruct e; cbv in He |- *; congruence. }
  specialize (Hk r0).
  destruct (Q.fin _ _ r0) as [p r2]. simpl in *.
  eapply grows_trans; eauto.
Qed.

End RunFacts.

(** C3, as it is written, fails for a build for the browser: the launch
    command is spawned with [cp.exec] and not awaited, and the run passes
    although the command has exited with code 1. *)
Lemma C3_counterexample :
  Config.getAction RunExamples.browser_build = "build"
  /\ launch_exit_code (RunExamples.a_world 1 (Fulfilled tt)) = Some 1
  /\ fst (run RunExamples.browser_build (RunExamples.a_world 1 (Fulfilled tt)))
     = RunReturns (Fulfilled utilities.TEST_PASSED)
  /\ ~ (fst (run RunExamples.browser_build
               (RunExamples.a_world 1 (Fulfilled tt)))
        = RunReturns (Fulfilled utilities.TEST_PASSED)
        <-> launch_exit_code (RunExamples.a_world 1 (Fulfilled tt)) = Some 0).
Proof.
  repeat split; try reflexivity.
  intros [H _]. specialize (H eq_refl). discriminate H.
Qed.

(** C3, amended. [shouldWaitForTestResult] is false exactly when the
    action starts with neither "run" nor "emulate". In a run with the
    action "build" it is false and the completion race is never started.
    When such a run, not on Sauce Labs, runs the launch command to
    completion (with [execPromise], so not for the browser, where the
    command is only spawned), its result is passed if and only if the
    launch command exits with code zero. *)
Theorem C3_build_never_races :
  forall (config : Config.t) (world : World),
    (shouldWaitForTestResult config = false
     <-> String.prefix "run" (Config.getAction config) = false
         /\ String.prefix "emulate" (Config.getAction config) = false)
    /\ (Config.getAction config = "build" ->
        shouldWaitForTestResult config = false
        /\ count is_race (log (snd (run config world))) = 0%nat
        /\ (Config.shouldUseSauce config = false ->
            has_exec (snd (run config world)) = true ->
            (fst (run config world)
             = RunReturns (Fulfilled utilities.TEST_PASSED)
             <-> launch_exit_code world = Some 0))).
Proof.
  intros config world. split; [|intros Hbuild; split; [|split]].
  - unfold shouldWaitForTestResult. rewrite !indexOf_zero_iff.
    apply orb_false_iff.
  - now apply build_shouldWaitForTestResult.
  - destruct (run_grows config world not_race) as [[l [El Fl]] _].
    + intros e He. unfold not_race. now rewrite He.
    + rewrite (build_shouldWaitForTestResult config Hbuild). discriminate.
    + rewrite El. simpl.
      apply (count_none is_race not_race); [|exact Fl].
      intros e He. unfold not_race in He. now apply negb_true_iff in He.
  - intros Hlocal Hexec.
    unfold run, run_from in *.
    pose proof (checkConfig_grows config world not_exec not_exec_phase
                  (new_runner config)) as H0.
    apply grows_not_exec in H0.
    destruct (checkConfig config world (new_runner config)) as [[u|e|] r0];
      simpl in *; try (rewrite H0 in Hexec; discriminate).
    change (has_exec (new_runner config)) with false in H0.
    destruct (Q.fin (Q.fin (phases config world)
                       (collectDataAndCleanUp config world))
                (cleanUpProject config) r0) as [p r2] eqn:Efin.
    simpl in *.
    (* the clean-up is quiet: the launch is in the log of the phases *)
    assert (H1 : has_exec (snd (phases config world r0)) = true).
    { rewrite <- Hexec.
      replace r2 with (snd (Q.fin (Q.fin (phases config world)
                                     (collectDataAndCleanUp config world))
                              (cleanUpProject config) r0))
        by now rewrite Efin.
      symmetry. etransitivity.
      - apply grows_not_exec. apply fin_grows.
        apply cleanUpProject_grows.
        intros e He; destruct e; cbv in He |- *; congruence.
      - apply grows_not_exec. apply fin_grows.
        apply collectDataAndCleanUp_grows.
        intros e He; destruct e; cbv in He |- *; congruence. }
    destruct (build_phases config world Hbuild Hlocal r0 H0 H1)
      as [Hiff Htmp].
    rewrite <- Hiff.
    (* the clean-up of a local build returns *)
    revert Efin. unfold Q.fin.
    destruct (phases config world r0) as [chain r1]. simpl in *.
    unfold collectDataAndCleanUp. rewrite Hlocal, Hbuild.
    unfold Q.then_, emit, Q.ret. simpl.
    pose proof (cleanUpProject_returns config
                  (add_log ECollectDataAndCleanUp r1) Htmp) as Hk.
    destruct chain as [b|e|]; simpl;
      destruct (cleanUpProject config (add_log ECollectDataAndCleanUp r1))
        as [o2 r2'];
      simpl in Hk; subst o2; intros E; injection E as <- <-;
      split; intros H; try discriminate; congruence.
Qed.

(** The witness of C3: a build for Android whose command exits with
    code zero. *)
Lemma C3_witness :
  shouldWaitForTestResult RunExamples.android_build = false
  /\ count is_race
       (log (snd (run RunExamples.android_build
                    (RunExamples.a_world 0 (Fulfilled tt))))) = 0%nat
  /\ (fst (run RunExamples.android_build (RunExamples.a_world 0 (Fulfilled tt)))
      = RunReturns (Fulfilled utilities.TEST_PASSED)
      <-> launch_exit_code (RunExamples.a_world 0 (Fulfilled tt)) = Some 0).
Proof.
  destruct (proj2 (C3_build_never_races RunExamples.android_build
                     (RunExamples.a_world 0 (Fulfilled tt))) eq_refl)
    as [H1 [H2 H3]].
  split; [exact H1|]. split; [exact H2|].
  apply H3; reflexivity.
Defined.

(* ================================================================== *)
(** * Further properties of the code *)

(** ** Strings and [indexOf] *)

Section StringFacts.

Lemma append_nil_r (s : string) : (s ++ "")%string = s.
Proof. induction s as [|c s IH]; simpl; congruence. Qed.

Lemma append_assoc (a b c : string) :
  ((a ++ b) ++ c)%string = (a ++ (b ++ c))%string.
Proof. induction a as [|x a IH]; simpl; congruence. Qed.

Lemma length_append (a b : string) :
  String.length (a ++ b) = (String.length a + String.length b)%nat.
Proof. induction a as [|x a IH]; simpl; congruence. Qed.

Lemma length_zero (s : string) : String.length s = 0%nat -> s = "".
Proof. destruct s; simpl; [reflexivity | discriminate]. Qed.

Lemma prefix_eq (p s : string) :
  String.prefix p s
  = match p, s with
    | EmptyString, _ => true
    | String _ _, EmptyString => false
    | String a p', String b s' => if Ascii.ascii_dec a b then String.prefix p' s' else false
    end.
Proof. destruct p, s; reflexivity. Qed.

(** [prefix p s]: [s] starts with [p]. *)
Lemma prefix_iff (p s : string) :
  String.prefix p s = true <-> exists post, s = (p ++ post)%string.
Proof.
  revert s. induction p as [|a p IH]; intros s; rewrite prefix_eq.
  - split; [intros _; now exists s | reflexivity].
  - destruct s as [|b s].
    + split; [discriminate | intros [post H]; discriminate].
    + destruct (Ascii.ascii_dec a b) as [->|Hne].
      * rewrite IH. split; intros [post H]; exists post.
        -- simpl. now rewrite H.
        -- simpl in H. now injection H.
      * split; [discriminate|]. intros [post H]. simpl in H.
        injection H as H1 _. congruence.
Qed.

(** [indexOf] finds an occurrence: the pattern stands at the index it
    returns. *)
Lemma indexOf_from_found (s pat : string) (i k : Z) :
  Js.indexOf_from i s pat = k -> k <> -1 -> 0 <= i ->
  exists pre post,
    s = (pre ++ pat ++ post)%string
    /\ k = i + Z.of_nat (String.length pre).
Proof.
  revert i. induction s as [|c s IH]; intros i; rewrite indexOf_from_eq.
  - destruct (String.prefix pat "") eqn:Ep.
    + intros <- _ _. apply prefix_iff in Ep as [post Hp].
      exists "", post. simpl. split; [exact Hp | lia].
    + intros <- H. congruence.
  - destruct (String.prefix pat (String c s)) eqn:Ep.
    + intros <- _ _. apply prefix_iff in Ep as [post Hp].
      exists "", post. simpl. split; [exact Hp | lia].
    + intros Hk Hne Hi.
      destruct (IH (i + 1) Hk Hne ltac:(lia)) as [pre [post [Hs Hl]]].
      exists (String c pre), post. simpl. split; [now rewrite Hs | lia].
Qed.

(** [indexOf] misses no occurrence. *)
Lemma indexOf_from_complete (pre pat post : string) (i : Z) :
  0 <= i -> Js.indexOf_from i (pre ++ pat ++ post) pat <> -1.
Proof.
  revert i. induction pre as [|c pre IH]; intros i Hi;
    rewrite indexOf_from_eq.
  - simpl append.
    assert (Hp : String.prefix pat (pat ++ post) = true)
      by (apply prefix_iff; now exists post).
    rewrite Hp. lia.
  - simpl append.
    destruct (String.prefix pat (String c (pre ++ pat ++ post))); [lia|].
    apply IH. lia.
Qed.

(** [indexOf] returns the first occurrence. *)
Lemma indexOf_from_first (pre pat post : string) (i : Z) :
  Js.indexOf_from i (pre ++ pat ++ post) pat
  <= i + Z.of_nat (String.length pre).
Proof.
  revert i. induction pre as [|c pre IH]; intros i;
    rewrite indexOf_from_eq.
  - simpl append.
    assert (Hp : String.prefix pat (pat ++ post) = true)
      by (apply prefix_iff; now exists post).
    rewrite Hp. simpl. lia.
  - simpl append.
    destruct (String.prefix pat (String c (pre ++ pat ++ post)));
      [simpl String.length; lia|].
    specialize (IH (i + 1)). simpl String.length. lia.
Qed.

End StringFacts.

(** ** [lib/utils/utilities.js] *)

(** X1. [contains(collection, item)] on a string is true exactly when
    [item] occurs in [collection]: some text, then [item], then some
    text. *)
Theorem contains_iff_occurs :
  forall collection item : string,
    utilities.contains collection item = true
    <-> exists pre post, collection = (pre ++ item ++ post)%string.
Proof.
  intros collection item. unfold utilities.contains, Js.indexOf.
  rewrite negb_true_iff, Z.eqb_neq. split.
  - intros Hne.
    destruct (indexOf_from_found collection item 0 _ eq_refl Hne ltac:(lia))
      as [pre [post [Hs _]]].
    now exists pre, post.
  - intros [pre [post ->]]. apply indexOf_from_complete. lia.
Qed.

Section ConfigPathFacts.
Variable path_resolve : string -> string.
Variable path_join_conf : string -> string.
Variable existsSync : string -> bool.

(** The name searched in [conf] ends with ".config.json". *)
Lemma conf_name_suffix (config : string) :
  exists stem, utilities.conf_name config = (stem ++ ".config.json")%string.
Proof.
  unfold utilities.conf_name.
  destruct (Z.eqb_spec (Js.indexOf config ".config.json") (-1)) as [E|Hne];
    simpl; [now exists config|].
  destruct (Z.eqb_spec (Js.indexOf config ".config.json")
              (Z.of_nat (String.length config) - 12)) as [E|Hne2]; simpl;
    [|now exists config].
  destruct (indexOf_from_found config ".config.json" 0 _ eq_refl Hne
              ltac:(lia)) as [pre [post [Hs Hk]]].
  fold (Js.indexOf config ".config.json") in Hk.
  assert (Hl : String.length post = 0%nat).
  { rewrite Hs in E at 2. rewrite !length_append in E. simpl in E. lia. }
  apply length_zero in Hl. subst post. exists pre. now rewrite Hs.
Qed.

(** The name searched in [conf] is the given name exactly when the
    first ".config.json" in it is its ending, and the given name with
    ".config.json" appended otherwise. *)
Lemma conf_name_cases (config : string) :
  (first_suffix_is_ending config -> utilities.conf_name config = config)
  /\ (~ first_suffix_is_ending config ->
      utilities.conf_name config = (config ++ ".config.json")%string).
Proof.
  unfold utilities.conf_name.
  destruct (Z.eqb_spec (Js.indexOf config ".config.json") (-1)) as [E|Hne];
    simpl.
  - split; [|reflexivity]. intros [stem [Hs _]]. exfalso.
    apply (indexOf_from_complete stem ".config.json" "" 0); [lia|].
    rewrite append_nil_r, <- Hs. exact E.
  - destruct (indexOf_from_found config ".config.json" 0 _ eq_refl Hne
                ltac:(lia)) as [pre [post [Hs Hk]]].
    fold (Js.indexOf config ".config.json") in Hk.
    destruct (Z.eqb_spec (Js.indexOf config ".config.json")
                (Z.of_nat (String.length config) - 12)) as [E|Hne2]; simpl.
    + split; [reflexivity|]. intros Hnot. exfalso. apply Hnot.
      assert (Hl : String.length post = 0%nat).
      { rewrite Hs in E at 2. rewrite !length_append in E. simpl in E. lia. }
      apply length_zero in Hl. subst post. rewrite append_nil_r in Hs.
      exists pre. split; [exact Hs|].
      intros pre' post' Hs'.
      pose proof (indexOf_from_first pre' ".config.json" post' 0) as Hf.
      rewrite <- Hs' in Hf. fold (Js.indexOf config ".config.json") in Hf.
      lia.
    + split; [|reflexivity]. intros [stem [Hstem Hmin]]. exfalso.
      apply Hne2.
      pose proof (Hmin pre post Hs) as H1.
      pose proof (indexOf_from_first stem ".config.json" "" 0) as H2.
      rewrite append_nil_r, <- Hstem in H2.
      fold (Js.indexOf config ".config.json") in H2.
      rewrite Hstem at 2. rewrite length_append. simpl. lia.
Qed.

End ConfigPathFacts.

(** X2. [getConfigPath] answers [false] for no config. For a config it
    returns the resolved path when that exists; otherwise it looks into
    the [conf] directory, for the given name when the first
    ".config.json" in the name is its ending, and for the name with
    ".config.json" appended otherwise (also when the name ends with
    ".config.json" but holds it earlier too); it returns that path when
    it exists, and throws "Can't find the specified config." when it
    does not. *)
Theorem getConfigPath_lookup :
  forall (path_resolve path_join_conf : string -> string)
    (existsSync : string -> bool) (config : string),
    utilities.getConfigPath path_resolve path_join_conf existsSync None
      = utilities.NoConfig
    /\ utilities.getConfigPath path_resolve path_join_conf existsSync (Some "")
       = utilities.NoConfig
    /\ (config <> "" ->
        (existsSync (path_resolve config) = true ->
         utilities.getConfigPath path_resolve path_join_conf existsSync
           (Some config)
         = utilities.ConfigAt (path_resolve config))
        /\ (existsSync (path_resolve config) = false ->
            exists name,
              (first_suffix_is_ending config -> name = config)
              /\ (~ first_suffix_is_ending config ->
                  name = (config ++ ".config.json")%string)
              /\ (exists stem, name = (stem ++ ".config.json")%string)
              /\ utilities.getConfigPath path_resolve path_join_conf existsSync
                   (Some config)
                 = if existsSync (path_join_conf name)
                   then utilities.ConfigAt (path_join_conf name)
                   else utilities.ConfigError
                          (Js.Error "Can't find the specified config."))).
Proof.
  intros path_resolve path_join_conf existsSync config.
  split; [reflexivity|]. split; [reflexivity|].
  intros Hne. apply String.eqb_neq in Hne.
  unfold utilities.getConfigPath. rewrite Hne. split.
  - intros ->. reflexivity.
  - intros ->.
    destruct (conf_name_cases config) as [Hsame Happ].
    exists (utilities.conf_name config).
    repeat split; try assumption. apply conf_name_suffix.
Qed.

(** The witness of X2: "pr.config.json.config.json" ends with the suffix
    but holds it earlier too, and is looked up with the suffix appended
    once more. *)
Lemma getConfigPath_lookup_witness :
  exists name,
    (first_suffix_is_ending "pr.config.json.config.json" ->
     name = "pr.config.json.config.json")
    /\ (~ first_suffix_is_ending "pr.config.json.config.json" ->
        name = ("pr.config.json.config.json" ++ ".config.json")%string)
    /\ (exists stem, name = (stem ++ ".config.json")%string)
    /\ utilities.getConfigPath (fun p => p) (fun p => p)
         (String.eqb "pr.config.json.config.json.config.json")
         (Some "pr.config.json.config.json")
       = if String.eqb "pr.config.json.config.json.config.json" name
         then utilities.ConfigAt name
         else utilities.ConfigError (Js.Error "Can't find the specified config.").
Proof.
  refine (proj2 (proj2 (proj2
            (getConfigPath_lookup (fun p => p) (fun p => p)
               (String.eqb "pr.config.json.config.json.config.json")
               "pr.config.json.config.json")) _) _).
  - discriminate.
  - reflexivity.
Defined.

Section SplitFacts.

Lemma split_not_nil (sep : ascii) (s : string) : Js.split sep s <> [].
Proof.
  induction s as [|c s IH]; simpl; [discriminate|].
  destruct (Ascii.eqb c sep); [discriminate|].
  destruct (Js.split sep s); [congruence | discriminate].
Qed.

Lemma split_line (sep : ascii) (line rest : string) :
  mentions sep line = false ->
  Js.split sep (line ++ String sep rest) = line :: Js.split sep rest.
Proof.
  induction line as [|c line IH]; simpl; intros H.
  - now rewrite Ascii.eqb_refl.
  - apply orb_false_iff in H as [Hc Hl]. rewrite Hc, (IH Hl). reflexivity.
Qed.

Lemma split_unlines (lines : list string) (rest : string) :
  Forall (fun line => mentions Js.LF line = false) lines ->
  Js.split Js.LF (unlines lines ++ rest)
  = (lines ++ Js.split Js.LF rest)%list.
Proof.
  induction 1 as [|line lines Hl _ IH]; simpl; [reflexivity|].
  rewrite append_assoc. simpl. rewrite (split_line _ _ _ Hl), IH.
  reflexivity.
Qed.

(** The loop of [countAndroidDevices] counts the lines that are device
    rows. *)
Lemma count_loop (lines : list string) (numDevices : Z) :
  fold_left
    (fun numDevices line =>
       if negb (utilities.HEADING_LINE_PATTERN line)
          && utilities.DEVICE_ROW_PATTERN line
       then numDevices + 1
       else numDevices) lines numDevices
  = numDevices + Z.of_nat (length (filter is_device_row lines)).
Proof.
  revert numDevices. induction lines as [|line lines IH]; intros n; simpl.
  - lia.
  - rewrite IH. unfold is_device_row at 2.
    destruct (negb _ && _); simpl length; lia.
Qed.

End SplitFacts.

(** X3. On the output of [adb devices], the heading "List of devices
    attached", one line per device and an empty line,
    [countAndroidDevices] is the number of rows that name an emulator, a
    device or a host: the heading is not counted although it contains
    "device", nor are the empty lines. *)
Theorem countAndroidDevices_adb_output :
  forall rows : list string,
    Forall (fun row => mentions Js.LF row = false
                       /\ utilities.HEADING_LINE_PATTERN row = false
                       /\ utilities.DEVICE_ROW_PATTERN row = true) rows ->
    utilities.countAndroidDevices
      (unlines ("List of devices attached" :: rows) ++ String Js.LF "")
    = Z.of_nat (length rows).
Proof.
  intros rows Hrows. unfold utilities.countAndroidDevices.
  rewrite split_unlines.
  - rewrite count_loop. simpl filter.
    change (is_device_row "List of devices attached") with false.
    cbv iota. rewrite filter_app. simpl.
    rewrite length_app. simpl.
    assert (Hf : filter is_device_row rows = rows).
    { clear -Hrows. induction Hrows as [|row rows [_ [Hh Hd]] _ IH];
        simpl; [reflexivity|].
      unfold is_device_row at 1. rewrite Hh, Hd. simpl. now rewrite IH. }
    rewrite Hf. lia.
  - constructor; [reflexivity|].
    eapply Forall_impl; [|exact Hrows]. intros row [H _]. exact H.
Qed.

(** The witness of X3: one emulator and one device. *)
Lemma countAndroidDevices_adb_output_witness :
  utilities.countAndroidDevices
    (unlines ["List of devices attached";
              "emulator-5554   device";
              "0123456789ABCDEF        device"] ++ String Js.LF "")
  = Z.of_nat 2.
Proof.
  apply (countAndroidDevices_adb_output
           ["emulator-5554   device"; "0123456789ABCDEF        device"]).
  repeat constructor.
Defined.

(** ** [lib/appium/helpers/appPatcher.js] *)

Section PermitAccessFacts.
Import appPatcher.

Lemma accessPresent_iff (origin : string) (accesses : list (option string))
  (present : bool) :
  fold_left
    (fun accessPresent access =>
       match access with
       | Some o => if String.eqb o origin then true else accessPresent
       | None => accessPresent
       end) accesses present = true
  <-> present = true \/ In (Some origin) accesses.
Proof.
  revert present. induction accesses as [|a l IH]; intros present; simpl.
  - tauto.
  - rewrite IH. destruct a as [o|].
    + destruct (String.eqb_spec o origin) as [->|Hne].
      * split; auto.
      * split; [intros [H|H]; auto|].
        intros [H|[H|H]]; auto. congruence.
    + split; [intros [H|H]; auto|].
      intros [H|[H|H]]; auto. discriminate.
Qed.

End PermitAccessFacts.

(** X4. [permitAccess] makes the origin present and is idempotent: the
    rule is appended, and the file written, only when no [access] element
    has this origin yet; the existing elements are kept in their order,
    and a second call changes nothing and writes nothing. *)
Theorem permitAccess_adds_once :
  forall (origin : string) (config : appPatcher.config_xml),
    In (Some origin) (appPatcher.getAccesses (appPatcher.permitAccess origin config))
    /\ appPatcher.permitAccess origin (appPatcher.permitAccess origin config)
       = appPatcher.permitAccess origin config
    /\ (In (Some origin) (appPatcher.getAccesses config) ->
        appPatcher.permitAccess origin config = config)
    /\ (~ In (Some origin) (appPatcher.getAccesses config) ->
        appPatcher.getAccesses (appPatcher.permitAccess origin config)
        = (appPatcher.getAccesses config ++ [Some origin])%list
        /\ appPatcher.written (appPatcher.permitAccess origin config)
           = S (appPatcher.written config)).
Proof.
  intros origin config.
  assert (Hin : In (Some origin) (appPatcher.getAccesses config) ->
                appPatcher.permitAccess origin config = config).
  { intros H. unfold appPatcher.permitAccess.
    destruct (fold_left _ _ _) eqn:E; [reflexivity|].
    assert (E' : fold_left
                   (fun accessPresent access =>
                      match access with
                      | Some o => if String.eqb o origin then true
                                  else accessPresent
                      | None => accessPresent
                      end) (appPatcher.getAccesses config) false = true)
      by (apply accessPresent_iff; now right).
    congruence. }
  assert (Hout : ~ In (Some origin) (appPatcher.getAccesses config) ->
                 appPatcher.permitAccess origin config
                 = {| appPatcher.getAccesses :=
                        (appPatcher.getAccesses config ++ [Some origin])%list;
                      appPatcher.written := S (appPatcher.written config) |}).
  { intros H. unfold appPatcher.permitAccess.
    destruct (fold_left _ _ _) eqn:E; [|reflexivity].
    apply accessPresent_iff in E as [E|E]; [discriminate | contradiction]. }
  assert (Hafter : In (Some origin)
                     (appPatcher.getAccesses
                        (appPatcher.permitAccess origin config))).
  { destruct (in_dec (fun a b : option string =>
                        ltac:(decide equality; apply string_dec))
                (Some origin) (appPatcher.getAccesses config)) as [H|H].
    - now rewrite (Hin H).
    - rewrite (Hout H). simpl. apply in_or_app. right. now left. }
  split; [exact Hafter|]. split; [|split].
  - unfold appPatcher.permitAccess at 1.
    destruct (fold_left _ _ _) eqn:E; [reflexivity|].
    assert (E' : fold_left
                   (fun accessPresent access =>
                      match access with
                      | Some o => if String.eqb o origin then true
                                  else accessPresent
                      | None => accessPresent
                      end)
                   (appPatcher.getAccesses
                      (appPatcher.permitAccess origin config)) false = true)
      by (apply accessPresent_iff; now right).
    congruence.
  - exact Hin.
  - intros H. rewrite (Hout H). split; reflexivity.
Qed.

(** The witness of X4: a new origin is appended and the file written. *)
Lemma permitAccess_adds_once_witness :
  appPatcher.getAccesses
    (appPatcher.permitAccess "*"
       {| appPatcher.getAccesses := [None; Some "https://cordova.apache.org"];
          appPatcher.written := 0 |})
  = [None; Some "https://cordova.apache.org"; Some "*"]
  /\ appPatcher.written
       (appPatcher.permitAccess "*"
          {| appPatcher.getAccesses := [None; Some "https://cordova.apache.org"];
             appPatcher.written := 0 |})
     = 1%nat.
Proof.
  apply (proj2 (proj2 (proj2
           (permitAccess_adds_once "*"
              {| appPatcher.getAccesses :=
                   [None; Some "https://cordova.apache.org"];
                 appPatcher.written := 0 |})))).
  simpl. intros [H|[H|[]]]; discriminate H.
Defined.

(** ** The completion race of [runLocalTests] *)

Section RaceFacts.
Import Channel Race.

Lemma race_on_follows_tests (s : race_state) (ev : event) :
  ev <> ConnectionTimer false ->
  follows_tests s -> follows_tests (race_on s ev).
Proof.
  intros Hev [Hc Ho]. unfold follows_tests, race_on. simpl.
  destruct ev as [data| |[|]|c]; try congruence; simpl;
    destruct (connection s) as [u|e|] eqn:Ec;
    try (exfalso; now apply (Hc e));
    destruct (tests s) as [b|e|] eqn:Et; simpl;
    try destruct c; simpl; rewrite ?Ho;
    (split; [intros e'; discriminate | reflexivity]).
Qed.

Lemma race_follows_tests (evs : list event) (s : race_state) :
  ~ In (ConnectionTimer false) evs ->
  follows_tests s -> follows_tests (fold_left race_on evs s).
Proof.
  revert s. induction evs as [|ev evs IH]; simpl; intros s Hin Hs; auto.
  apply IH; [tauto|]. apply race_on_follows_tests; [|exact Hs].
  intros ->. tauto.
Qed.

End RaceFacts.

(** X5. The first signal that settles the race wins: whatever the
    channel and the timers deliver afterwards, the race keeps its
    outcome. *)
Theorem race_first_signal_wins :
  forall pre post : list Channel.event,
    is_settled (Channel.race pre) = true ->
    Channel.race (pre ++ post) = Channel.race pre.
Proof.
  intros pre post H. unfold Channel.race in *. rewrite fold_left_app.
  now apply race_fold_settled.
Qed.

(** The witness of X5: results, then a disconnect and both timers. *)
Lemma race_first_signal_wins_witness :
  Channel.race
    ([Channel.JasmineDone {| Channel.specFailed := Js.Num 0 |}]
       ++ [Channel.Disconnect; Channel.ConnectionTimer false;
           Channel.TestsTimer false])
  = Channel.race [Channel.JasmineDone {| Channel.specFailed := Js.Num 0 |}].
Proof.
  apply (race_first_signal_wins
           [Channel.JasmineDone {| Channel.specFailed := Js.Num 0 |}]).
  reflexivity.
Defined.

(** X6. Unless the connection watchdog fires while no device is
    connected, the race is fulfilled exactly when [waitForTests] is, with
    the same result, and stays pending otherwise: a rejection of
    [waitForTests] (a disconnect before the results, its own timer) never
    settles the race, and results that arrive after it are ignored. *)
Theorem race_without_watchdog :
  forall evs : list Channel.event,
    ~ In (Channel.ConnectionTimer false) evs ->
    Channel.race evs
    = match Channel.waitForTests evs with
      | Fulfilled passed => Fulfilled passed
      | _ => Pending
      end.
Proof.
  intros evs Hin. unfold Channel.race, Channel.waitForTests.
  destruct (race_follows_tests evs Channel.race_start Hin) as [_ Ho].
  - split; [intros e; discriminate | reflexivity].
  - rewrite Ho, race_tests. reflexivity.
Qed.

(** The witness of X6: the device disconnects, reconnects and reports
    results; the race is still pending. *)
Lemma race_without_watchdog_witness :
  Channel.race
    [Channel.Disconnect;
     Channel.JasmineDone {| Channel.specFailed := Js.Num 0 |};
     Channel.ConnectionTimer true]
  = Pending.
Proof.
  refine (race_without_watchdog
            [Channel.Disconnect;
             Channel.JasmineDone {| Channel.specFailed := Js.Num 0 |};
             Channel.ConnectionTimer true] _).
  simpl. intros [H|[H|[H|H]]]; try discriminate H. exact H.
Defined.

Section WatchdogFacts.
Import Channel Race.

Lemma no_device_not_in (evs : list event) :
  existsb no_device_at_deadline evs = false ->
  ~ In (ConnectionTimer false) evs.
Proof.
  induction evs as [|ev evs IH]; simpl; [tauto|].
  intros H. apply orb_false_iff in H as [H1 H2].
  intros [->|Hin]; [discriminate | now apply IH].
Qed.

Lemma no_device_in (evs : list event) :
  existsb no_device_at_deadline evs = true ->
  In (ConnectionTimer false) evs.
Proof.
  intros H. apply existsb_exists in H as [ev [Hin Hev]].
  destruct ev as [d| |[|]|c]; try discriminate. exact Hin.
Qed.

Lemma race_on_watchdog_message (s : race_state) (ev : event) :
  watchdog_message s -> watchdog_message (race_on s ev).
Proof.
  intros [Hc Ho]. unfold watchdog_message, race_on. simpl.
  destruct ev as [data| |[|]|c]; simpl;
    destruct (connection s) as [u|e0|] eqn:Ec;
    destruct (tests s) as [b|e1|] eqn:Et;
    destruct (outer s) as [b'|e2|] eqn:Eo; simpl;
    try destruct c; simpl;
    (split; intros e He; try discriminate;
     try (injection He as <-); auto).
Qed.

Lemma race_watchdog_message (evs : list event) (s : race_state) :
  watchdog_message s -> watchdog_message (fold_left race_on evs s).
Proof.
  revert s. induction evs as [|ev evs IH]; simpl; auto.
  intros s Hs. apply IH. now apply race_on_watchdog_message.
Qed.

End WatchdogFacts.

(** X7. The race is rejected only by the connection watchdog: a
    rejected race carries the message of [waitForConnection], and the
    timer of [waitForConnection] has fired while no device was connected.
    A watchdog that fires first, on a pending race, rejects it; a watchdog
    that fires while a device is connected never changes the race. *)
Theorem race_rejected_only_by_watchdog :
  forall (pre post : list Channel.event),
    (forall e, Channel.race pre = Rejected e ->
       e = Js.Error
             "waitForConnection: Seems like device not connected to local server in 540 secs"
       /\ In (Channel.ConnectionTimer false) pre)
    /\ (Channel.waitForConnection pre = Pending ->
        Channel.race pre = Pending ->
        Channel.race (pre ++ Channel.ConnectionTimer false :: post)
        = Rejected (Js.Error
            "waitForConnection: Seems like device not connected to local server in 540 secs"))
    /\ Channel.race (pre ++ [Channel.ConnectionTimer true])
       = Channel.race pre.
Proof.
  intros pre post. split; [|split].
  - intros e He. split.
    + destruct (race_watchdog_message pre Channel.race_start) as [_ Ho].
      * split; intros e' H; discriminate.
      * apply (Ho e He).
    + destruct (existsb Race.no_device_at_deadline pre) eqn:Ex.
      * now apply no_device_in.
      * apply no_device_not_in in Ex.
        destruct (race_follows_tests pre Channel.race_start Ex) as [_ Ho'];
          [split; [intros e0; discriminate | reflexivity]|].
        unfold Channel.race in He. rewrite Ho' in He.
        destruct (Channel.tests _); discriminate.
  - intros Hc Ho. unfold Channel.race, Channel.waitForConnection in *.
    rewrite fold_left_app. simpl.
    assert (Hconn : forall evs s,
               Channel.connection (fold_left Channel.race_on evs s)
               = fold_left (fun p ev => Channel.waitForConnection_on ev p)
                   evs (Channel.connection s)).
    { induction evs as [|ev evs IH]; simpl; intros s; [reflexivity|].
      now rewrite IH. }
    specialize (Hconn pre Channel.race_start). simpl in Hconn.
    rewrite Hc in Hconn.
    remember (fold_left Channel.race_on pre Channel.race_start) as s.
    rewrite race_fold_settled.
    + unfold Channel.race_on. simpl. rewrite Hconn, Ho. simpl.
      destruct (Channel.tests s); reflexivity.
    + unfold Channel.race_on. simpl. rewrite Hconn, Ho. simpl.
      destruct (Channel.tests s); reflexivity.
  - unfold Channel.race. rewrite fold_left_app. simpl.
    destruct (fold_left Channel.race_on pre Channel.race_start) as [c t o].
    unfold Channel.race_on. simpl. destruct c, t; reflexivity.
Qed.

(** The witness of X7: no device at the deadline. *)
Lemma race_rejected_only_by_watchdog_witness :
  Channel.race ([] ++ Channel.ConnectionTimer false :: [Channel.Disconnect])
  = Rejected (Js.Error
      "waitForConnection: Seems like device not connected to local server in 540 secs").
Proof.
  apply (proj1 (proj2 (race_rejected_only_by_watchdog [] [Channel.Disconnect])));
    reflexivity.
Defined.


(** ** More on the event poller *)

(** X8. A batch is returned as it is, on every platform: when the read
    brings back an array, were it empty, the poll is fulfilled with its
    elements and does nothing more (no reload, no other window, no
    error). *)
Theorem pollForEvents_returns_the_batch :
  forall (S : Type) (driver : wdHelper.Driver S) (fuel : nat)
    (platform : string) (skipBuster : bool)
    (windowOffset : option nat) (retries : option Z)
    (s s0 s1 s2 : wdHelper.session) (events : list Js.value),
    wdHelper.dismiss_alert driver platform skipBuster s = (Fulfilled tt, s0) ->
    wdHelper.switch_window driver platform
      (wdHelper.default_windowOffset windowOffset) s0 = (Fulfilled tt, s1) ->
    wdHelper.read_cache driver s1
      = (Fulfilled (wdHelper.WJson (Js.Arr events)), s2) ->
    wdHelper.pollForEvents driver (Datatypes.S fuel) platform skipBuster
      windowOffset retries s
    = (Fulfilled events, s2).
Proof.
  intros S driver fuel platform skipBuster windowOffset retries
    s s0 s1 s2 events Hd Hs Hr.
  rewrite (pollForEvents_unfold driver fuel platform skipBuster windowOffset
             retries s s0 s1 s2 _ Hd Hs Hr).
  reflexivity.
Qed.

(** The witness of X8: an empty cache on iOS. *)
Lemma pollForEvents_returns_the_batch_witness :
  wdHelper.pollForEvents wdHelper.sim_driver 1 "ios" true None None
    ({| wdHelper.sim_windows :=
          [("CDwindow-0",
            {| wdHelper.jasmineParamedicProxyCache := Some (Js.Arr []) |})];
        wdHelper.sim_current := "CDwindow-0";
        wdHelper.sim_context := "WEBVIEW_1";
        wdHelper.sim_reloads := [] |}, [])
  = (Fulfilled [],
     ({| wdHelper.sim_windows :=
           [("CDwindow-0",
             {| wdHelper.jasmineParamedicProxyCache := Some (Js.Arr []) |})];
         wdHelper.sim_current := "CDwindow-0";
         wdHelper.sim_context := "WEBVIEW_1";
         wdHelper.sim_reloads := [] |},
      [wdHelper.CSleep 0; wdHelper.CExecuteReadCache])).
Proof.
  refine (pollForEvents_returns_the_batch _ wdHelper.sim_driver 0 "ios" true
            None None _ (_, [wdHelper.CSleep 0]) (_, [wdHelper.CSleep 0])
            _ [] _ _ _); reflexivity.
Defined.

Section SearchFacts.
Import wdHelper Commands Q.Notations.
Context {S : Type} (driver : Driver S).

Lemma count_snoc (p : command -> bool) (l : list command) (c : command) :
  count p (l ++ [c]) = (count p l + (if p c then 1 else 0))%nat.
Proof.
  unfold count. rewrite filter_app, length_app. simpl.
  destruct (p c); reflexivity.
Qed.

Lemma dismiss_alert_skipped (platform : string) (s : session) :
  dismiss_alert driver platform true s
  = (Fulfilled tt, (fst s, (snd s ++ [CSleep 0])%list)).
Proof. reflexivity. Qed.

End SearchFacts.

(** X9. The window search on Android ends. With [skipBuster], if the
    session keeps reporting the same window handles and no window holds
    the event cache (every read brings back [null]), a poll that starts
    at [windowOffset] reads each remaining window once and is then
    rejected with "Cannot find a window with the event cache.". *)
Theorem pollForEvents_android_search_ends :
  forall (S : Type) (driver : wdHelper.Driver S)
    (handles : list wdHelper.handle),
    (forall d, exists d',
        wdHelper.windowHandles driver d = (Fulfilled handles, d')) ->
    (forall h d, exists d', wdHelper.window driver h d = (Fulfilled tt, d')) ->
    (forall d, exists d',
        wdHelper.execute driver wdHelper.read_cache_script d
        = (Fulfilled wdHelper.WNull, d')) ->
    forall (remaining windowOffset fuel : nat) (retries : option Z)
      (s : wdHelper.session),
      remaining = (length handles - windowOffset)%nat ->
      (remaining < fuel)%nat ->
      exists s',
        wdHelper.pollForEvents driver fuel "android" true
          (Some windowOffset) retries s
        = (Rejected (Js.Error "Cannot find a window with the event cache."),
           s')
        /\ Commands.count Commands.is_read (snd s')
           = (Commands.count Commands.is_read (snd s) + remaining)%nat.
Proof.
  intros S driver handles Hh Hw He.
  induction remaining as [|k IH];
    intros w fuel retries s Hk Hfuel;
    (destruct fuel as [|fuel]; [lia|]).
  - (* no window left *)
    destruct (Hh (fst s)) as [d2 Hd2].
    pose proof (switch_window_android driver w
                  (fst s, (snd s ++ [wdHelper.CSleep 0])%list)
                  handles d2 Hd2) as Hsw.
    assert (Hle : (length handles <=? w)%nat = true)
      by (apply Nat.leb_le; lia).
    rewrite Hle in Hsw.
    eexists. split.
    + simpl. unfold Q.then_ at 1. rewrite dismiss_alert_skipped.
      unfold Q.then_ at 1. simpl wdHelper.default_windowOffset.
      rewrite Hsw. reflexivity.
    + simpl. rewrite !count_snoc. simpl. lia.
  - (* one more window to read *)
    destruct (Hh (fst s)) as [d2 Hd2].
    pose proof (switch_window_android driver w
                  (fst s, (snd s ++ [wdHelper.CSleep 0])%list)
                  handles d2 Hd2) as Hsw.
    assert (Hgt : (length handles <=? w)%nat = false)
      by (apply Nat.leb_gt; lia).
    rewrite Hgt in Hsw.
    destruct (Hw (nth w handles "") d2) as [d3 Hd3]. rewrite Hd3 in Hsw.
    destruct (He d3) as [d4 Hd4].
    set (s1 := (d3, ((snd s ++ [wdHelper.CSleep 0])
                       ++ [wdHelper.CWindowHandles;
                           wdHelper.CWindow (nth w handles "")])%list)) in *.
    assert (Hr : wdHelper.read_cache driver s1
                 = (Fulfilled wdHelper.WNull,
                    (d4, (snd s1 ++ [wdHelper.CExecuteReadCache])%list))).
    { unfold wdHelper.read_cache, wdHelper.call. simpl fst. rewrite Hd4.
      reflexivity. }
    rewrite (pollForEvents_unfold driver fuel "android" true (Some w)
               retries s _ s1 _ wdHelper.WNull
               (dismiss_alert_skipped driver "android" s) Hsw Hr).
    rewrite on_result_not_array by reflexivity.
    change (String.eqb "android" utilities.BROWSER) with false.
    change (String.eqb "android" utilities.ANDROID) with true.
    simpl andb. simpl negb. cbv iota.
    simpl wdHelper.default_windowOffset.
    destruct (IH (w + 1)%nat fuel None
                (d4, (snd s1 ++ [wdHelper.CExecuteReadCache])%list)
                ltac:(lia) ltac:(lia)) as [s' [Hp Hc]].
    exists s'. split; [exact Hp|].
    rewrite Hc. subst s1. simpl snd.
    rewrite !count_snoc.
    change ([wdHelper.CWindowHandles; wdHelper.CWindow (nth w handles "")])
      with ([wdHelper.CWindowHandles]
              ++ [wdHelper.CWindow (nth w handles "")])%list.
    rewrite app_assoc, !count_snoc. simpl. lia.
Qed.

(** The witness of X9: two windows without a cache, searched from the
    first. *)
Lemma pollForEvents_android_search_ends_witness :
  exists s',
    wdHelper.pollForEvents
      {| wdHelper.currentContext := fun d : unit => (Fulfilled "WEBVIEW_1", d);
         wdHelper.context := fun _ d => (Fulfilled tt, d);
         wdHelper.acceptAlert := fun d => (Fulfilled tt, d);
         wdHelper.clickAllowButton := fun d => (Fulfilled tt, d);
         wdHelper.windowHandles :=
           fun d => (Fulfilled ["CDwindow-0"; "CDwindow-1"], d);
         wdHelper.window := fun _ d => (Fulfilled tt, d);
         wdHelper.execute := fun _ d => (Fulfilled wdHelper.WNull, d);
         wdHelper.get := fun _ d => (Fulfilled tt, d) |}
      3 "android" true (Some 0%nat) None (tt, [])
    = (Rejected (Js.Error "Cannot find a window with the event cache."), s')
    /\ Commands.count Commands.is_read (snd s')
       = (Commands.count Commands.is_read (@nil wdHelper.command) + 2)%nat.
Proof.
  refine (pollForEvents_android_search_ends unit _
            ["CDwindow-0"; "CDwindow-1"] _ _ _ 2 0 3 None (tt, [])
            eq_refl _).
  - intros d. now exists d.
  - intros h d. now exists d.
  - intros d. now exists d.
  - lia.
Defined.


(** X10. The retries in the browser end. With [skipBuster], if the page
    never gets its event cache back (every read brings back [null]) and
    every reload succeeds, a poll with [retries = k] reloads the test page
    [k] times, reads [k + 1] times and is then rejected with the error
    that shows [null]; with no [retries] given, [k] is 2. *)
Theorem pollForEvents_browser_retries_end :
  forall (S : Type) (driver : wdHelper.Driver S),
    (forall d, exists d',
        wdHelper.execute driver wdHelper.read_cache_script d
        = (Fulfilled wdHelper.WNull, d')) ->
    (forall d, exists d',
        wdHelper.get driver "http://localhost:8000/cdvtests/index.html" d
        = (Fulfilled tt, d')) ->
    forall (k fuel : nat) (windowOffset : option nat) (retries : option Z)
      (s : wdHelper.session),
      wdHelper.default_retries retries = Z.of_nat k ->
      (k < fuel)%nat ->
      exists s',
        wdHelper.pollForEvents driver fuel "browser" true windowOffset
          retries s
        = (Rejected (Js.Error
             "Cannot get the event cache: it doesn't exist in the app. Got this instead: null"),
           s')
        /\ Commands.count Commands.is_reload (snd s')
           = (Commands.count Commands.is_reload (snd s) + k)%nat
        /\ Commands.count Commands.is_read (snd s')
           = (Commands.count Commands.is_read (snd s) + k + 1)%nat.
Proof.
  intros S driver He Hg.
  induction k as [|k IH]; intros fuel w retries s Hk Hfuel;
    (destruct fuel as [|fuel]; [lia|]);
    destruct (He (fst s)) as [d1 Hd1];
    set (s0 := (fst s, (snd s ++ [wdHelper.CSleep 0])%list));
    assert (Hs : wdHelper.switch_window driver "browser"
                   (wdHelper.default_windowOffset w) s0 = (Fulfilled tt, s0))
      by reflexivity;
    assert (Hr : wdHelper.read_cache driver s0
                 = (Fulfilled wdHelper.WNull,
                    (d1, (snd s0 ++ [wdHelper.CExecuteReadCache])%list)))
      by (unfold wdHelper.read_cache, wdHelper.call; simpl fst;
          rewrite Hd1; reflexivity);
    rewrite (pollForEvents_unfold driver fuel "browser" true w retries
               s s0 s0 _ wdHelper.WNull
               (dismiss_alert_skipped driver "browser" s) Hs Hr);
    rewrite on_result_not_array by reflexivity;
    change (String.eqb "browser" utilities.BROWSER) with true;
    change (String.eqb "browser" utilities.ANDROID) with false;
    rewrite Hk.
  - (* no retry left *)
    simpl. eexists. split; [reflexivity|].
    subst s0. simpl. rewrite !count_snoc. simpl. lia.
  - (* one reload, and the poll again *)
    assert (Hpos : (0 <? Z.of_nat (Datatypes.S k)) = true)
      by (apply Z.ltb_lt; lia).
    rewrite Hpos. cbv beta iota delta [andb].
    destruct (Hg d1) as [d2 Hd2].
    unfold Q.then_ at 1, wdHelper.call at 1, wdHelper.TEST_PAGE.
    cbv beta. simpl fst. rewrite Hd2. simpl snd.
    destruct (IH fuel (Some (wdHelper.default_windowOffset w))
                (Some (Z.of_nat (Datatypes.S k) - 1))
                (d2, ((snd s0 ++ [wdHelper.CExecuteReadCache])
                        ++ [wdHelper.CGet
                              "http://localhost:8000/cdvtests/index.html"])%list)
                ltac:(unfold wdHelper.default_retries; lia) ltac:(lia))
      as [s' [Hp [Hc1 Hc2]]].
    exists s'. split; [exact Hp|].
    rewrite Hc1, Hc2. subst s0. simpl snd. rewrite !count_snoc. simpl.
    split; lia.
Qed.

(** The witness of X10: the default of two retries. *)
Lemma pollForEvents_browser_retries_end_witness :
  exists s',
    wdHelper.pollForEvents
      {| wdHelper.currentContext := fun d : unit => (Fulfilled "WEBVIEW_1", d);
         wdHelper.context := fun _ d => (Fulfilled tt, d);
         wdHelper.acceptAlert := fun d => (Fulfilled tt, d);
         wdHelper.clickAllowButton := fun d => (Fulfilled tt, d);
         wdHelper.windowHandles := fun d => (Fulfilled ["CDwindow-0"], d);
         wdHelper.window := fun _ d => (Fulfilled tt, d);
         wdHelper.execute := fun _ d => (Fulfilled wdHelper.WNull, d);
         wdHelper.get := fun _ d => (Fulfilled tt, d) |}
      3 "browser" true None None (tt, [])
    = (Rejected (Js.Error
         "Cannot get the event cache: it doesn't exist in the app. Got this instead: null"),
       s')
    /\ Commands.count Commands.is_reload (snd s')
       = (Commands.count Commands.is_reload (@nil wdHelper.command) + 2)%nat
    /\ Commands.count Commands.is_read (snd s')
       = (Commands.count Commands.is_read (@nil wdHelper.command) + 2 + 1)%nat.
Proof.
  refine (pollForEvents_browser_retries_end unit _ _ _ 2 3 None None (tt, [])
            eq_refl _).
  - intros d. now exists d.
  - intros d. now exists d.
  - lia.
Defined.

Section SendsFacts.
Import wdHelper Commands Q.Notations.
Context {S : Type} (driver : Driver S).
Variable p : command -> bool.

Lemma sends_ret {A} (a : A) : sends_only p (@Q.ret (@session S) A a).
Proof. intros s. exists []. now rewrite app_nil_r. Qed.

Lemma sends_throw {A} (e : Js.error) : sends_only p (@Q.throw (@session S) A e).
Proof. intros s. exists []. now rewrite app_nil_r. Qed.

Lemma sends_never {A} : sends_only p (@Q.never (@session S) A).
Proof. intros s. exists []. now rewrite app_nil_r. Qed.

Lemma sends_call {A} (c : command) (op : S -> outcome A * S) :
  p c = true -> sends_only p (call c op).
Proof.
  intros Hc s. exists [c]. unfold call. destruct (op (fst s)) as [r d].
  simpl. now rewrite Hc.
Qed.

Lemma sends_then {A B} (m : Q.M (@session S) A) (k : A -> Q.M (@session S) B) :
  sends_only p m -> (forall a, sends_only p (k a)) ->
  sends_only p (Q.then_ m k).
Proof.
  intros Hm Hk s. unfold Q.then_. destruct (Hm s) as [l [El Fl]].
  destruct (m s) as [[a|e|] s1]; simpl in *; try (exists l; now split).
  destruct (Hk a s1) as [l2 [El2 Fl2]].
  exists (l ++ l2)%list. rewrite El2, El, app_assoc, forallb_app, Fl, Fl2.
  now split.
Qed.

Lemma sends_then2 {A B} (m : Q.M (@session S) A)
  (k : A -> Q.M (@session S) B) (h : Js.error -> Q.M (@session S) B) :
  sends_only p m -> (forall a, sends_only p (k a)) ->
  (forall e, sends_only p (h e)) ->
  sends_only p (Q.then2 m k h).
Proof.
  intros Hm Hk Hh s. unfold Q.then2. destruct (Hm s) as [l [El Fl]].
  destruct (m s) as [[a|e|] s1]; simpl in *; try (exists l; now split).
  - destruct (Hk a s1) as [l2 [El2 Fl2]].
    exists (l ++ l2)%list. rewrite El2, El, app_assoc, forallb_app, Fl, Fl2.
    now split.
  - destruct (Hh e s1) as [l2 [El2 Fl2]].
    exists (l ++ l2)%list. rewrite El2, El, app_assoc, forallb_app, Fl, Fl2.
    now split.
Qed.

Lemma sends_catch {A} (m : Q.M (@session S) A)
  (h : Js.error -> Q.M (@session S) A) :
  sends_only p m -> (forall e, sends_only p (h e)) ->
  sends_only p (Q.catch_ m h).
Proof.
  intros Hm Hh s. unfold Q.catch_. destruct (Hm s) as [l [El Fl]].
  destruct (m s) as [[a|e|] s1]; simpl in *; try (exists l; now split).
  destruct (Hh e s1) as [l2 [El2 Fl2]].
  exists (l ++ l2)%list. rewrite El2, El, app_assoc, forallb_app, Fl, Fl2.
  now split.
Qed.

End SendsFacts.

(** X11. What a poll never sends: on iOS and in the browser it never
    asks for the window handles nor switches the window; outside the
    browser it never reloads the test page; with [skipBuster] it sends
    none of the commands of [bustAlert] (no context is read or switched,
    no alert accepted, no button clicked). This holds for every session,
    whatever it answers, and through all the polls a poll starts. *)
Theorem pollForEvents_sends_only_allowed :
  forall (S : Type) (driver : wdHelper.Driver S) (fuel : nat)
    (platform : string) (skipBuster : bool)
    (windowOffset : option nat) (retries : option Z)
    (s : wdHelper.session),
  exists sent,
    snd (snd (wdHelper.pollForEvents driver fuel platform skipBuster
                windowOffset retries s))
    = (snd s ++ sent)%list
    /\ forallb (Commands.allowed platform skipBuster) sent = true.
Proof.
  intros S driver fuel platform skipBuster.
  change (forall windowOffset retries,
             Commands.sends_only (Commands.allowed platform skipBuster)
               (wdHelper.pollForEvents driver fuel platform skipBuster
                  windowOffset retries)).
  induction fuel as [|fuel IH]; intros w r; simpl.
  - apply sends_never.
  - apply sends_then; [|intros _].
    { unfold wdHelper.dismiss_alert.
      apply sends_then; [now apply sends_call | intros _].
      destruct skipBuster; [apply sends_ret|].
      unfold wdHelper.bustAlert.
      apply sends_then; [now apply sends_call | intros ctx].
      apply sends_then; [now apply sends_call | intros _].
      apply sends_then; [|intros _].
      - destruct (String.eqb platform "ios").
        + apply sends_then2; [now apply sends_call | |];
            intros; apply sends_ret.
        + apply sends_catch; [now apply sends_call|].
          intros; apply sends_ret.
      - destruct (negb (String.eqb ctx "NATIVE_APP")); [|apply sends_ret].
        destruct (negb (String.eqb ctx "")); [|apply sends_ret].
        now apply sends_call. }
    apply sends_then; [|intros _].
    { unfold wdHelper.switch_window.
      destruct (String.eqb platform utilities.IOS
                || String.eqb platform utilities.BROWSER) eqn:Ep;
        [apply sends_ret|].
      apply sends_then; [apply sends_call; simpl; now rewrite Ep|].
      intros handles. destruct (_ <=? _)%nat; [apply sends_throw|].
      apply sends_call. simpl. now rewrite Ep. }
    apply sends_then; [now apply sends_call | intros result].
    unfold wdHelper.on_result.
    destruct (wdHelper.parse_result result); try apply sends_ret;
      (destruct (String.eqb platform utilities.BROWSER) eqn:Eb; simpl;
       [ destruct (0 <? wdHelper.default_retries r);
         [ apply sends_then;
           [apply sends_call; simpl; now rewrite Eb | intros _; apply IH]
         | ]
       | ];
       (destruct (negb (String.eqb platform utilities.ANDROID));
        [apply sends_throw | apply IH])).
Qed.


(** X12. [bustAlert] does not fail for want of an alert, and it puts the
    session back into the context it found: when the current context can
    be read and the native context entered, the outcome of accepting the
    alert (iOS) or of clicking the "ALLOW" button (elsewhere) is ignored,
    and the previous context, unless it was the native one, is entered
    again as the last command. *)
Theorem bustAlert_restores_the_context :
  forall (S : Type) (driver : wdHelper.Driver S) (platform : string)
    (s : wdHelper.session) (ctx : string) (d1 d2 d3 d4 : S)
    (alert : outcome unit),
    wdHelper.currentContext driver (fst s) = (Fulfilled ctx, d1) ->
    wdHelper.context driver "NATIVE_APP" d1 = (Fulfilled tt, d2) ->
    (if String.eqb platform "ios"
     then wdHelper.acceptAlert driver d2
     else wdHelper.clickAllowButton driver d2) = (alert, d3) ->
    is_settled alert = true ->
    wdHelper.context driver ctx d3 = (Fulfilled tt, d4) ->
    wdHelper.bustAlert driver platform s
    = if negb (String.eqb ctx "NATIVE_APP") && negb (String.eqb ctx "")
      then (Fulfilled tt,
            (d4, (snd s ++ [wdHelper.CCurrentContext;
                            wdHelper.CContext "NATIVE_APP";
                            if String.eqb platform "ios"
                            then wdHelper.CAcceptAlert
                            else wdHelper.CClickAllowButton;
                            wdHelper.CContext ctx])%list))
      else (Fulfilled tt,
            (d3, (snd s ++ [wdHelper.CCurrentContext;
                            wdHelper.CContext "NATIVE_APP";
                            if String.eqb platform "ios"
                            then wdHelper.CAcceptAlert
                            else wdHelper.CClickAllowButton])%list)).
Proof.
  intros S driver platform s ctx d1 d2 d3 d4 alert Hc Hn Ha Hs Hr.
  unfold wdHelper.bustAlert.
  unfold Q.then_ at 1, wdHelper.call at 1. rewrite Hc.
  unfold Q.then_ at 1, wdHelper.call at 1. simpl fst. rewrite Hn.
  unfold Q.then_ at 1.
  destruct (String.eqb platform "ios").
  - unfold Q.then2, wdHelper.call at 1. simpl fst. rewrite Ha.
    destruct alert as [u|e|]; [ | | discriminate ]; simpl;
      destruct (negb (String.eqb ctx "NATIVE_APP")); simpl;
      try destruct (negb (String.eqb ctx "")); simpl;
      unfold wdHelper.call, Q.ret; simpl; rewrite ?Hr;
      repeat (rewrite <- app_assoc; simpl); reflexivity.
  - unfold Q.catch_, wdHelper.call at 1. simpl fst. rewrite Ha.
    destruct alert as [u|e|]; [ | | discriminate ]; simpl;
      destruct (negb (String.eqb ctx "NATIVE_APP")); simpl;
      try destruct (negb (String.eqb ctx "")); simpl;
      unfold wdHelper.call, Q.ret; simpl; rewrite ?Hr;
      repeat (rewrite <- app_assoc; simpl); reflexivity.
Qed.

(** The witness of X12: no alert is shown in the simulated session. *)
Lemma bustAlert_restores_the_context_witness :
  wdHelper.bustAlert wdHelper.sim_driver "android"
    (PollerExamples.two_windows, [])
  = (Fulfilled tt,
     (PollerExamples.two_windows,
      [wdHelper.CCurrentContext; wdHelper.CContext "NATIVE_APP";
       wdHelper.CClickAllowButton; wdHelper.CContext "WEBVIEW_1"])).
Proof.
  refine (bustAlert_restores_the_context _ wdHelper.sim_driver "android"
            (PollerExamples.two_windows, []) "WEBVIEW_1"
            PollerExamples.two_windows
            {| wdHelper.sim_windows :=
                 wdHelper.sim_windows PollerExamples.two_windows;
               wdHelper.sim_current := "CDwindow-0";
               wdHelper.sim_context := "NATIVE_APP";
               wdHelper.sim_reloads := [] |}
            {| wdHelper.sim_windows :=
                 wdHelper.sim_windows PollerExamples.two_windows;
               wdHelper.sim_current := "CDwindow-0";
               wdHelper.sim_context := "NATIVE_APP";
               wdHelper.sim_reloads := [] |}
            PollerExamples.two_windows
            (Rejected (Js.Error "no such element")) _ _ _ _ _);
    reflexivity.
Defined.

(** ** [getWebviewContext] *)

Section WebviewFacts.
Import wdHelper Q.Notations.

Lemma first_webview_app (l1 l2 : list string) :
  Forall (fun c => (0 <=? Js.indexOf c "WEBVIEW") = false) l1 ->
  first_webview (l1 ++ l2) = first_webview l2.
Proof.
  induction 1 as [|c l Hc _ IH]; simpl; [reflexivity|]. now rewrite Hc.
Qed.

Lemma first_webview_none (l : list string) :
  Forall (fun c => (0 <=? Js.indexOf c "WEBVIEW") = false) l ->
  first_webview l = None.
Proof.
  intros H. rewrite <- (app_nil_r l). now rewrite first_webview_app.
Qed.

End WebviewFacts.

(** X13. [getWebviewContext] takes the last webview: when the session
    lists its contexts and some contain "WEBVIEW", the one of them that
    comes last in the list is returned, after this single query. *)
Theorem getWebviewContext_takes_the_last_webview :
  forall (S : Type) (contexts : S -> outcome (list string) * S)
    (retries : option Z) (s : wdHelper.webview_session) (d : S)
    (before after : list string) (ctx : string),
    contexts (fst s) = (Fulfilled (before ++ ctx :: after)%list, d) ->
    utilities.contains ctx "WEBVIEW" = true ->
    Forall (fun c => utilities.contains c "WEBVIEW" = false) after ->
    wdHelper.getWebviewContext contexts retries s
    = (Fulfilled ctx,
       (d, (snd s ++ [wdHelper.WSleep 5000; wdHelper.WContexts])%list)).
Proof.
  intros S contexts retries s d before after ctx Hc Hctx Hafter.
  assert (Hno : forall c, utilities.contains c "WEBVIEW" = false ->
                          (0 <=? Js.indexOf c "WEBVIEW") = false).
  { intros c H. unfold utilities.contains in H.
    apply negb_false_iff, Z.eqb_eq in H. now rewrite H. }
  assert (Hyes : (0 <=? Js.indexOf ctx "WEBVIEW") = true).
  { unfold utilities.contains in Hctx.
    apply negb_true_iff, Z.eqb_neq in Hctx. apply Z.leb_le.
    destruct (indexOf_from_range ctx "WEBVIEW" 0) as [H|H];
      unfold Js.indexOf in *; [congruence | exact H]. }
  assert (Hfirst : wdHelper.first_webview (rev (before ++ ctx :: after))
                   = Some ctx).
  { rewrite rev_app_distr. simpl. rewrite <- app_assoc.
    rewrite first_webview_app.
    - simpl. now rewrite Hyes.
    - apply Forall_rev. eapply Forall_impl; [|exact Hafter].
      intros c. apply Hno. }
  unfold wdHelper.getWebviewContext.
  destruct (Z.to_nat _) as [|depth]; simpl;
    unfold Q.then_, wdHelper.webview_call; simpl; rewrite Hc;
    cbv beta iota; rewrite Hfirst; unfold Q.ret;
    rewrite <- app_assoc; reflexivity.
Qed.

(** The witness of X13: the last of two webviews. *)
Lemma getWebviewContext_takes_the_last_webview_witness :
  wdHelper.getWebviewContext
    (fun d : unit =>
       (Fulfilled ["NATIVE_APP"; "WEBVIEW_1"; "WEBVIEW_2"; "CHROMIUM"], d))
    None (tt, [])
  = (Fulfilled "WEBVIEW_2",
     (tt, [wdHelper.WSleep 5000; wdHelper.WContexts])).
Proof.
  refine (getWebviewContext_takes_the_last_webview unit _ None (tt, []) tt
            ["NATIVE_APP"; "WEBVIEW_1"] ["CHROMIUM"] "WEBVIEW_2" _ _ _).
  - reflexivity.
  - reflexivity.
  - repeat constructor.
Defined.

(** X14. [getWebviewContext] gives up. If the session never lists a
    context that contains "WEBVIEW", the function throws the string
    "Couldn't get webview context." after [retries + 1] queries of the
    contexts (after one query when [retries] is not positive, after three
    when no [retries] is given). *)
Theorem getWebviewContext_gives_up :
  forall (S : Type) (contexts : S -> outcome (list string) * S),
    (forall d, exists ctxs d',
        contexts d = (Fulfilled ctxs, d')
        /\ Forall (fun c => utilities.contains c "WEBVIEW" = false) ctxs) ->
    forall (retries : option Z) (s : wdHelper.webview_session),
    exists s',
      wdHelper.getWebviewContext contexts retries s
      = (Rejected (wdHelper.thrown_string "Couldn't get webview context."), s')
      /\ length (filter (fun c => match c with
                                  | wdHelper.WContexts => true
                                  | _ => false
                                  end) (snd s'))
         = (length (filter (fun c => match c with
                                     | wdHelper.WContexts => true
                                     | _ => false
                                     end) (snd s))
            + Z.to_nat (match retries with
                        | None => 2
                        | Some r => r
                        end) + 1)%nat.
Proof.
  intros S contexts Hno retries s. unfold wdHelper.getWebviewContext.
  set (r := match retries with None => 2 | Some r => r end).
  clearbody r. clear retries.
  remember (Z.to_nat r) as depth eqn:Hdepth.
  revert r s Hdepth. induction depth as [|depth IH]; intros r s Hdepth;
    destruct (Hno (fst s)) as [ctxs [d' [Hc Hall]]];
    assert (Hfirst : wdHelper.first_webview (rev ctxs) = None)
      by (apply first_webview_none, Forall_rev;
          eapply Forall_impl; [|exact Hall];
          intros c H; unfold utilities.contains in H;
          apply negb_false_iff, Z.eqb_eq in H; now rewrite H);
    simpl; unfold Q.then_ at 1, wdHelper.webview_call at 1; cbv beta iota;
    unfold Q.then_ at 1, wdHelper.webview_call at 1; simpl fst; rewrite Hc;
    cbv beta iota; rewrite Hfirst;
    unfold Q.then_ at 1, wdHelper.webview_call at 1; cbv beta iota.
  - assert (Hr : (0 <? r) = false) by (apply Z.ltb_ge; lia).
    rewrite Hr. eexists. split; [reflexivity|].
    simpl. rewrite !filter_app, !length_app. simpl. lia.
  - assert (Hr : (0 <? r) = true) by (apply Z.ltb_lt; lia).
    rewrite Hr.
    destruct (IH (r - 1)
                (d', (((snd s ++ [wdHelper.WSleep wdHelper.WEBVIEW_WAIT_TIMEOUT])
                         ++ [wdHelper.WContexts])
                        ++ [wdHelper.WSleep 1000])%list)
                ltac:(lia)) as [s' [Hp Hn]].
    exists s'. split; [exact Hp|].
    rewrite Hn. simpl snd. rewrite !filter_app, !length_app. simpl. lia.
Qed.

(** The witness of X14: only the native context, and the default
    [retries]. *)
Lemma getWebviewContext_gives_up_witness :
  exists s',
    wdHelper.getWebviewContext
      (fun d : unit => (Fulfilled ["NATIVE_APP"], d)) None (tt, [])
    = (Rejected (wdHelper.thrown_string "Couldn't get webview context."), s')
    /\ length (filter (fun c => match c with
                                | wdHelper.WContexts => true
                                | _ => false
                                end) (snd s'))
       = (0 + Z.to_nat 2 + 1)%nat.
Proof.
  refine (getWebviewContext_gives_up unit
            (fun d : unit => (Fulfilled ["NATIVE_APP"], d)) _ None (tt, [])).
  intros d. exists ["NATIVE_APP"], d. split; [reflexivity|].
  repeat constructor.
Defined.


(** ** The effects of a run, by configuration *)

Section KeepsMore.
Import Paramedic Effects Q.Notations.
Variable R : Runner -> Runner -> Prop.
Hypothesis R_refl : forall r, R r r.
Hypothesis R_trans : forall r1 r2 r3, R r1 r2 -> R r2 r3 -> R r1 r3.

(** What follows a read of the runner is run on the value read. *)
Lemma keeps_read_then {A B} (g : Runner -> A) (k : A -> M B) :
  (forall r, R r (snd (k (g r) r))) -> keeps R (Q.then_ (read g) k).
Proof. intros H r. unfold Q.then_, read. simpl. apply H. Qed.

(** What follows a call that returns is run on the value returned. *)
Lemma keeps_call_sync_then {A B} (e : effect) (res : sync A) (k : A -> M B) :
  (forall r, R r (add_log e r)) ->
  (forall a, res = Returns a -> keeps R (k a)) ->
  keeps R (Q.then_ (call_sync e res) k).
Proof.
  intros He Hk r. unfold Q.then_, call_sync, emit. simpl.
  destruct res as [a|err]; simpl.
  - eapply R_trans; [apply He|]. now apply Hk.
  - apply He.
Qed.

End KeepsMore.

Section ConfinedFacts.
Import Paramedic Effects Allowed Q.Notations.
Variable config : Config.t.
Variable world : World.

#[local] Abbreviation confined := (Allowed.confined config world).
#[local] Abbreviation invariant := (Allowed.invariant config world).
#[local] Abbreviation allowed := (Allowed.allowed config world).

Lemma confined_refl (r : Runner) : confined r r.
Proof.
  intros H. split; [exact H|]. exists []. now rewrite app_nil_r.
Qed.

Lemma confined_trans (r1 r2 r3 : Runner) :
  confined r1 r2 -> confined r2 r3 -> confined r1 r3.
Proof.
  intros H12 H23 H1. destruct (H12 H1) as [H2 [l1 [E1 F1]]].
  destruct (H23 H2) as [H3 [l2 [E2 F2]]]. split; [exact H3|].
  exists (l1 ++ l2)%list. split.
  - now rewrite E2, E1, app_assoc.
  - now rewrite forallb_app, F1, F2.
Qed.

Lemma confined_add_log (e : effect) (r : Runner) :
  allowed e = true -> confined r (add_log e r).
Proof.
  intros He H. split; [exact H|]. exists [e]. split; [reflexivity|].
  simpl. now rewrite He.
Qed.

Lemma confined_same_log (r r' : Runner) :
  log r' = log r -> (invariant r -> invariant r') -> confined r r'.
Proof.
  intros El Hi H. split; [auto|]. exists []. now rewrite app_nil_r.
Qed.

(** [this.tempFolder.name] is the temp project. *)
Lemma confined_tempFolder_name {B} (k : string -> M B) :
  (forall name, is_temp_project world name = true -> keeps confined (k name)) ->
  keeps confined (Q.then_ tempFolder_name k).
Proof.
  intros Hk r Hi. unfold tempFolder_name, Q.then_, read. simpl.
  destruct (tempFolder r) as [name|] eqn:Et; simpl.
  - apply Hk; [|exact Hi]. destruct Hi as [_ [_ Ht]]. now apply Ht.
  - now apply confined_refl.
Qed.

(** [this.server] is unset when the main tests are skipped. *)
Lemma confined_server {B} (k : bool -> M B) :
  (forall s, (Config.runMainTests config = false -> s = false) ->
             keeps confined (k s)) ->
  keeps confined (Q.then_ (read server) k).
Proof.
  intros Hk r Hi. unfold Q.then_, read. simpl.
  apply Hk; [|exact Hi]. now destruct Hi as [Hs _].
Qed.

(** No process is left to kill unless the platform is the browser. *)
Lemma confined_runProcess {B} (k : bool -> M B) :
  (forall p, (isBrowser config = false -> p = false) ->
             keeps confined (k p)) ->
  keeps confined (Q.then_ (read runProcess) k).
Proof.
  intros Hk r Hi. unfold Q.then_, read. simpl.
  apply Hk; [|exact Hi]. now destruct Hi as [_ [Hp _]].
Qed.

End ConfinedFacts.

(** Solves [keeps (confined config world) m] for a chain [m] written
    with the combinators, up to [allowed e = true] for the effects it
    emits and the invariant at the changes of the runner. *)
Ltac confined_tac :=
  repeat first
    [ apply keeps_ret; apply confined_refl
    | apply keeps_throw; apply confined_refl
    | apply keeps_await; apply confined_refl
    | apply keeps_read; apply confined_refl
    | apply confined_tempFolder_name; intros ? ?
    | apply keeps_call_sync;
        [apply confined_refl | apply confined_trans
        | intros ?; apply confined_add_log ]
    | apply keeps_call_async;
        [apply confined_refl | apply confined_trans
        | intros ?; apply confined_add_log ]
    | apply keeps_then; [apply confined_trans | | intros ?]
    | apply keeps_catch; [apply confined_trans | | intros ?]
    | apply keeps_fin; [apply confined_trans | | ]
    | apply keeps_timeout
    | apply keeps_all2; [apply confined_trans | | ]
    | apply keeps_emit; intros ?; apply confined_add_log
    | apply keeps_modify; intros ?; apply confined_same_log;
        [reflexivity | unfold Allowed.invariant; simpl; intros ? ] ].

Section RunConfined.
Import Paramedic Effects Allowed Q.Notations.
Variable config : Config.t.
Variable world : World.

#[local] Abbreviation confined := (Allowed.confined config world).
#[local] Abbreviation invariant := (Allowed.invariant config world).
#[local] Abbreviation allowed := (Allowed.allowed config world).

Lemma checkConfig_confined : keeps confined (checkConfig config world).
Proof.
  unfold checkConfig.
  apply keeps_then; [apply confined_trans | | intros _].
  - destruct (Config.shouldUseSauce config) eqn:Hs; confined_tac;
      [assumption | unfold Allowed.allowed, sauce; now rewrite Hs].
  - destruct (_ && _); confined_tac.
    destruct (negb (existsb _ _)); confined_tac.
    destruct (negb _); confined_tac. assumption.
Qed.

Lemma maybeRunFileTransferServer_loop_confined (plugins : list string) :
  Config.shouldUseSauce config = false ->
  (forall plugin, In plugin plugins -> In plugin (Config.getPlugins config)) ->
  keeps confined (maybeRunFileTransferServer_loop config world plugins).
Proof.
  intros Hs. induction plugins as [|plugin rest IH]; intros Hin; simpl.
  - confined_tac.
  - destruct (_ && _ && _) eqn:Hc.
    + apply confined_server. intros s Hserver.
      destruct s; confined_tac.
      unfold Allowed.allowed, sauce, wants_file_transfer_server.
      apply andb_true_iff in Hc as [Hc Hci].
      apply andb_true_iff in Hc as [Hc Hf].
      assert (Hex : existsb
                (fun plugin => 0 <=? Js.indexOf plugin "cordova-plugin-file-transfer")
                (Config.getPlugins config) = true).
      { apply existsb_exists. exists plugin. split; [|exact Hc].
        apply Hin. now left. }
      rewrite Hs, Hex, Hf, Hci, H. simpl.
      destruct (Config.runMainTests config); [reflexivity|].
      now discriminate Hserver.
    + apply IH. intros p Hp. apply Hin. now right.
Qed.

Lemma getCommandForStartingTests_confined :
  Config.shouldUseSauce config = false ->
  keeps confined (getCommandForStartingTests config world).
Proof.
  intros Hs. unfold getCommandForStartingTests.
  apply keeps_then; [apply confined_trans | confined_tac | intros c].
  destruct (isBrowser config) eqn:Hb; [confined_tac|].
  destruct (String.eqb (Config.getAction config) "build") eqn:Ha;
    [confined_tac|].
  destruct (isWindows config && _) eqn:Hw; simpl orb; cbv iota;
    confined_tac.
  - unfold Allowed.allowed, sauce, build. now rewrite Hs, Hb, Ha, Hw.
  - assumption.
Qed.

Lemma setPermissions_confined :
  Config.shouldUseSauce config = false ->
  keeps confined (setPermissions config world).
Proof.
  intros Hs. unfold setPermissions.
  destruct (isIos config) eqn:Hi; [|confined_tac].
  destruct (Config.getTccDb config) eqn:Ht; confined_tac.
  unfold Allowed.allowed, sauce. now rewrite Hs, Hi, Ht.
Qed.

Lemma runLocalTests_confined :
  Config.shouldUseSauce config = false ->
  keeps confined (runLocalTests config world).
Proof.
  intros Hs. unfold runLocalTests.
  apply keeps_then; [apply confined_trans | | intros _].
  { confined_tac. destruct H as [H1 [H2 H3]]. repeat split; auto. }
  destruct (_ && _); [confined_tac|].
  apply keeps_fin; [apply confined_trans | | ].
  - apply keeps_then; [apply confined_trans | | intros _].
    { apply maybeRunFileTransferServer_loop_confined; auto. }
    apply keeps_then;
      [apply confined_trans | now apply getCommandForStartingTests_confined
      | intros command].
    apply keeps_then;
      [apply confined_trans | now apply setPermissions_confined | intros _].
    apply keeps_then; [apply confined_trans | | intros results; confined_tac].
    apply keeps_all2; [apply confined_trans | | ].
    + fold (isBrowser config).
      destruct (isBrowser config) eqn:Hb; simpl negb; cbv iota.
      * confined_tac.
        -- unfold Allowed.allowed, sauce. now rewrite Hs, Hb.
        -- destruct H as [H1 [H2 H3]]. repeat split; auto.
           intros Hb'. congruence.
      * unfold execPromise. confined_tac.
        unfold Allowed.allowed, sauce. now rewrite Hs, Hb.
    + destruct (Config.runMainTests config) eqn:Hm; simpl negb; cbv iota;
        [|confined_tac].
      destruct (shouldWaitForTestResult config) eqn:Hw; [|confined_tac].
      unfold waitForTestResult. confined_tac;
        unfold Allowed.allowed, sauce; now rewrite Hs, Hm, Hw.
  - apply confined_runProcess. intros p Hp.
    destruct p; confined_tac.
    unfold Allowed.allowed, sauce. rewrite Hs.
    destruct (isBrowser config); [reflexivity|]. now discriminate Hp.
Qed.

Lemma runAppiumTests_confined (useSauce : bool) :
  useSauce = Config.shouldUseSauce config ->
  keeps confined (Paramedic.runAppiumTests config world useSauce).
Proof.
  intros Hs. unfold Paramedic.runAppiumTests. cbv zeta.
  destruct (String.eqb (Config.getAction config) "build") eqn:Ha;
    [confined_tac|].
  destruct (negb (Config.runAppiumTests config)) eqn:Hr; [confined_tac|].
  destruct (negb (String.eqb (Config.getPlatformId config) utilities.ANDROID)
            && negb (String.eqb (Config.getPlatformId config) utilities.IOS))
    eqn:Hp; [confined_tac|].
  assert (Happ : appium config = true).
  { unfold appium, build. rewrite Ha.
    apply negb_false_iff in Hr. rewrite Hr. simpl.
    destruct (String.eqb _ utilities.ANDROID); [reflexivity|].
    destruct (String.eqb _ utilities.IOS); [reflexivity|discriminate]. }
  clear Hp Hr.
  apply keeps_then; [apply confined_trans | confined_tac | intros t].
  destruct (_ && _); [confined_tac|].
  apply confined_tempFolder_name. intros name Hname.
  apply keeps_then; [apply confined_trans | confined_tac | intros c].
  apply keeps_then; [apply confined_trans | | intros _].
  { confined_tac. unfold Allowed.allowed, sauce. simpl.
    rewrite Happ, Hs, Bool.eqb_reflx, String.eqb_refl, Hname. reflexivity. }
  match goal with
  | |- keeps _ (if ?b then _ else _) => destruct b
  end; [confined_tac|].
  apply keeps_then; [apply confined_trans | | intros _].
  { confined_tac. unfold Allowed.allowed. exact Happ. }
  apply keeps_then; [apply confined_trans | | intros _].
  { destruct useSauce; confined_tac;
      unfold Allowed.allowed, sauce; now rewrite Happ, <- Hs. }
  confined_tac. unfold Allowed.allowed, sauce.
  now rewrite Happ, Hs, Bool.eqb_reflx.
Qed.

Lemma runTests_confined : keeps confined (runTests config world).
Proof.
  unfold runTests. destruct (Config.shouldUseSauce config) eqn:Hs.
  - apply keeps_then; [apply confined_trans | | intros m].
    + confined_tac. unfold Allowed.allowed, sauce. exact Hs.
    + apply keeps_then;
        [apply confined_trans | now apply runAppiumTests_confined | intros a].
      confined_tac.
  - apply keeps_then;
      [apply confined_trans | now apply runLocalTests_confined | intros m].
    apply keeps_then;
      [apply confined_trans | now apply runAppiumTests_confined | intros a].
    confined_tac.
Qed.

Lemma phases_confined : keeps confined (phases config world).
Proof.
  unfold phases.
  apply keeps_catch;
    [apply confined_trans | | intros e; confined_tac; reflexivity].
  apply keeps_timeout.
  apply keeps_then; [apply confined_trans | | intros _].
  { apply keeps_call_sync_then;
      [apply confined_trans | intros r; now apply confined_add_log |].
    intros name Hname.
    assert (Ht : is_temp_project world name = true)
      by (unfold is_temp_project; rewrite Hname; apply String.eqb_refl).
    confined_tac.
    - destruct H as [H1 [H2 H3]]. repeat split; auto.
      intros n Hn. injection Hn as <-. exact Ht.
    - exact Ht.
    - reflexivity. }
  apply keeps_then; [apply confined_trans | | intros _].
  { destruct (Config.runMainTests config) eqn:Hm; confined_tac.
    unfold Allowed.allowed. now rewrite Hm, Bool.eqb_reflx. }
  apply keeps_then; [apply confined_trans | | intros _].
  { unfold injectReporters, subcribeForEvents, writeMedicJson.
    destruct (Config.runMainTests config) eqn:Hm; confined_tac;
      try (unfold Allowed.allowed; exact Hm).
    destruct H as [H1 [H2 H3]]. repeat split; auto. congruence. }
  apply runTests_confined.
Qed.

Lemma collectDataAndCleanUp_confined :
  keeps confined (collectDataAndCleanUp config world).
Proof.
  unfold collectDataAndCleanUp.
  apply keeps_then; [apply confined_trans | confined_tac; reflexivity | intros _].
  destruct (Config.shouldUseSauce config) eqn:Hs.
  { confined_tac. unfold Allowed.allowed, sauce. exact Hs. }
  destruct (String.eqb (Config.getAction config) "build") eqn:Ha;
    simpl negb; cbv iota; [confined_tac|].
  unfold collectDeviceLogs, uninstallApp, killEmulatorProcess.
  destruct (Config.shouldCleanUpAfterRun config) eqn:Hc; confined_tac;
    unfold Allowed.allowed, sauce, build; now rewrite Hs, Ha, ?Hc.
Qed.

Lemma cleanUpProject_confined : keeps confined (cleanUpProject config).
Proof.
  unfold cleanUpProject.
  apply keeps_then; [apply confined_trans | confined_tac; reflexivity | intros _].
  apply confined_server. intros s Hserver.
  apply keeps_then; [apply confined_trans | | intros _].
  { destruct s; confined_tac. unfold Allowed.allowed.
    destruct (Config.runMainTests config); [reflexivity|].
    now discriminate Hserver. }
  destruct (Config.shouldCleanUpAfterRun config) eqn:Hc; confined_tac.
  - unfold Allowed.allowed. exact Hc.
  - unfold Allowed.allowed. now rewrite Hc, H.
Qed.

(** Every call a run makes is one its configuration allows. *)
Lemma run_allowed :
  forallb allowed (log (snd (run config world))) = true.
Proof.
  assert (Hi : invariant (new_runner config)).
  { repeat split; try reflexivity. intros name H. discriminate H. }
  assert (Hrun : confined (new_runner config) (snd (run config world))).
  { unfold run, run_from.
    pose proof (checkConfig_confined (new_runner config)) as H0.
    destruct (checkConfig config world (new_runner config)) as [[u|e|] r0];
      simpl in *; auto.
    assert (Hk : keeps confined
                   (Q.fin (Q.fin (phases config world)
                             (collectDataAndCleanUp config world))
                      (cleanUpProject config))).
    { apply keeps_fin; [apply confined_trans | | ].
      - apply keeps_fin; [apply confined_trans | | ].
        + apply phases_confined.
        + apply collectDataAndCleanUp_confined.
      - apply cleanUpProject_confined. }
    specialize (Hk r0). destruct (Q.fin _ _ r0) as [p r2]. simpl in *.
    eapply confined_trans; eauto. }
  destruct (Hrun Hi) as [_ [l [El Fl]]]. rewrite El. exact Fl.
Qed.

End RunConfined.


Section RunTableFacts.
Import Paramedic Effects Allowed.
Variable config : Config.t.
Variable world : World.

Lemma run_allowed_in (e : effect) :
  In e (log (snd (run config world))) -> Allowed.allowed config world e = true.
Proof.
  intros He. pose proof (run_allowed config world) as H.
  rewrite forallb_forall in H. now apply H.
Qed.

Lemma is_temp_project_eq (dir : string) :
  is_temp_project world dir = true -> createTempProject world = Returns dir.
Proof.
  unfold is_temp_project. destruct (createTempProject world) as [name|err];
    [|discriminate].
  intros H. apply String.eqb_eq in H. now subst.
Qed.

End RunTableFacts.

(** X15. A run on Sauce Labs does nothing on the machine of the run and
    its devices: it starts no file transfer server, chooses no target,
    sets no permissions, launches no command, waits for no connection and
    no results of its own, and at the end collects no device logs,
    uninstalls no app and kills no emulator. *)
Theorem sauce_run_is_not_local :
  forall (config : Config.t) (world : Paramedic.World),
    Config.shouldUseSauce config = true ->
    forallb (fun e => negb (Allowed.is_local e))
      (Paramedic.log (snd (Paramedic.run config world))) = true.
Proof.
  intros config world Hs. apply forallb_forall. intros e He.
  apply run_allowed_in in He.
  destruct e; try reflexivity; simpl in He;
    unfold Allowed.sauce in He; rewrite Hs in He; discriminate He.
Qed.

(** The witness of X15. *)
Lemma sauce_run_is_not_local_witness :
  forallb (fun e => negb (Allowed.is_local e))
    (Paramedic.log
       (snd (Paramedic.run MoreExamples.sauce_run
               (RunExamples.a_world 0 (Fulfilled tt))))) = true.
Proof.
  apply (sauce_run_is_not_local MoreExamples.sauce_run
           (RunExamples.a_world 0 (Fulfilled tt))).
  reflexivity.
Defined.

(** X16. A local run asks nothing of Sauce Labs: no requirements are
    checked, no tests are run there, no app is packaged or uploaded, no
    details are fetched, and an Appium runner, if one is made, is a local
    one. *)
Theorem local_run_is_not_on_sauce :
  forall (config : Config.t) (world : Paramedic.World),
    Config.shouldUseSauce config = false ->
    forallb (fun e => negb (Allowed.is_sauce e))
      (Paramedic.log (snd (Paramedic.run config world))) = true.
Proof.
  intros config world Hs. apply forallb_forall. intros e He.
  apply run_allowed_in in He.
  destruct e; try reflexivity; simpl in He; simpl;
    unfold Allowed.sauce in He; rewrite Hs in He;
    rewrite ?andb_false_r in He; try discriminate He.
  - apply andb_true_iff in He as [He _]. apply andb_true_iff in He as [He _].
    apply andb_true_iff in He as [_ He].
    destruct (Paramedic.opt_sauce options); [discriminate He | reflexivity].
  - apply andb_true_iff in He as [_ He].
    destruct useSauce; [discriminate He | reflexivity].
Qed.

(** The witness of X16. *)
Lemma local_run_is_not_on_sauce_witness :
  forallb (fun e => negb (Allowed.is_sauce e))
    (Paramedic.log
       (snd (Paramedic.run RunExamples.android_run
               (RunExamples.a_world 0 (Fulfilled tt))))) = true.
Proof.
  apply (local_run_is_not_on_sauce RunExamples.android_run
           (RunExamples.a_world 0 (Fulfilled tt))).
  reflexivity.
Defined.

(** X17. With the main tests skipped a run never uses the local server:
    none is started, no reporter is injected, no listener subscribed, no
    [medic.json] written, no file transfer server started, no connection
    and no results are waited for, and no server is cleaned up. *)
Theorem skipped_main_tests_use_no_server :
  forall (config : Config.t) (world : Paramedic.World),
    Config.runMainTests config = false ->
    forallb (fun e => negb (Allowed.is_server e))
      (Paramedic.log (snd (Paramedic.run config world))) = true.
Proof.
  intros config world Hm. apply forallb_forall. intros e He.
  apply run_allowed_in in He.
  destruct e; try reflexivity; simpl in He;
    rewrite Hm in He; rewrite ?andb_false_r in He; discriminate He.
Qed.

(** The witness of X17: the Appium tests only. *)
Lemma skipped_main_tests_use_no_server_witness :
  forallb (fun e => negb (Allowed.is_server e))
    (Paramedic.log
       (snd (Paramedic.run (RunExamples.variant "android" "run" false true)
               (RunExamples.a_world 0 (Fulfilled tt))))) = true.
Proof.
  apply (skipped_main_tests_use_no_server
           (RunExamples.variant "android" "run" false true)
           (RunExamples.a_world 0 (Fulfilled tt))).
  reflexivity.
Defined.

(** X18. A run removes nothing but its own temp project: a folder is
    removed only when the config asks to clean up after the run, and it
    is the folder that [createTempProject] returned to this run. *)
Theorem run_removes_only_its_temp_project :
  forall (config : Config.t) (world : Paramedic.World) (dir : string),
    In (Paramedic.ERm dir) (Paramedic.log (snd (Paramedic.run config world))) ->
    Config.shouldCleanUpAfterRun config = true
    /\ Paramedic.createTempProject world = Paramedic.Returns dir.
Proof.
  intros config world dir He. apply run_allowed_in in He. simpl in He.
  apply andb_true_iff in He as [Hc Ht]. split; [exact Hc|].
  now apply is_temp_project_eq.
Qed.

(** The witness of X18. *)
Lemma run_removes_only_its_temp_project_witness :
  Config.shouldCleanUpAfterRun RunExamples.android_run = true
  /\ Paramedic.createTempProject (RunExamples.a_world 0 (Fulfilled tt))
     = Paramedic.Returns "/tmp/tmp-1".
Proof.
  apply (run_removes_only_its_temp_project RunExamples.android_run
           (RunExamples.a_world 0 (Fulfilled tt)) "/tmp/tmp-1").
  vm_compute. repeat (first [left; reflexivity | right]).
Defined.

(** X19. The launch depends on the platform. A command that is spawned
    and left running, and the kill of its process at the end of the local
    tests, occur for the browser only; a command run to completion and
    the choice of a target occur for no browser run; the permissions are
    updated for iOS only, and only with a TCC database. *)
Theorem launch_steps_by_platform :
  forall (config : Config.t) (world : Paramedic.World) (e : Paramedic.effect),
    In e (Paramedic.log (snd (Paramedic.run config world))) ->
    match e with
    | Paramedic.ECpExec _ | Paramedic.EKillProcess =>
        Config.getPlatformId config = "browser"
    | Paramedic.EExecPromise _ | Paramedic.EChooseTarget =>
        Config.getPlatformId config <> "browser"
    | Paramedic.EUpdatePermissions =>
        Config.getPlatformId config = "ios" /\ Config.getTccDb config = true
    | _ => True
    end.
Proof.
  intros config world e He. apply run_allowed_in in He.
  destruct e; try exact I; simpl in He;
    unfold Paramedic.isBrowser, Paramedic.isIos, utilities.BROWSER,
      utilities.IOS in He.
  - apply andb_true_iff in He as [He _]. apply andb_true_iff in He as [He _].
    apply andb_true_iff in He as [_ He]. apply negb_true_iff in He.
    now apply String.eqb_neq.
  - apply andb_true_iff in He as [He Ht]. apply andb_true_iff in He as [_ He].
    split; [now apply String.eqb_eq | exact Ht].
  - apply andb_true_iff in He as [_ He]. apply negb_true_iff in He.
    now apply String.eqb_neq.
  - apply andb_true_iff in He as [_ He]. now apply String.eqb_eq.
  - apply andb_true_iff in He as [_ He]. now apply String.eqb_eq.
Qed.

(** The witness of X19: the permissions of a run for iOS. *)
Lemma launch_steps_by_platform_witness :
  Config.getPlatformId (MoreExamples.file_transfer_run "ios" true) = "ios"
  /\ Config.getTccDb (MoreExamples.file_transfer_run "ios" true) = true.
Proof.
  apply (launch_steps_by_platform (MoreExamples.file_transfer_run "ios" true)
           MoreExamples.resolving_world Paramedic.EUpdatePermissions).
  vm_compute. repeat (first [left; reflexivity | right]).
Defined.

(** X20. A build needs no device: with the action [build] a run chooses
    no target, makes no Appium runner, prepares, packages and uploads no
    app, runs no Appium tests, and at the end collects no device logs,
    uninstalls no app and kills no emulator. *)
Theorem build_needs_no_device :
  forall (config : Config.t) (world : Paramedic.World),
    Config.getAction config = "build" ->
    forallb (fun e => negb (Allowed.is_device e))
      (Paramedic.log (snd (Paramedic.run config world))) = true.
Proof.
  intros config world Ha. apply forallb_forall. intros e He.
  apply run_allowed_in in He.
  destruct e; try reflexivity; simpl in He;
    unfold Allowed.appium, Allowed.build in He; rewrite Ha in He;
    simpl in He; rewrite ?andb_false_r in He; discriminate He.
Qed.

(** The witness of X20. *)
Lemma build_needs_no_device_witness :
  forallb (fun e => negb (Allowed.is_device e))
    (Paramedic.log
       (snd (Paramedic.run RunExamples.android_build
               (RunExamples.a_world 0 (Fulfilled tt))))) = true.
Proof.
  apply (build_needs_no_device RunExamples.android_build
           (RunExamples.a_world 0 (Fulfilled tt))).
  reflexivity.
Defined.

(** X21. An Appium runner is made for the app of this run: only when the
    Appium tests are not skipped, the action is not [build] and the
    platform is Android or iOS, and its options carry the platform of the
    config, the temp project as the path of the app, and the choice of
    Sauce Labs of the config. *)
Theorem appium_runner_is_for_this_run :
  forall (config : Config.t) (world : Paramedic.World)
    (options : Paramedic.AppiumOptions),
    In (Paramedic.ENewAppiumRunner options)
      (Paramedic.log (snd (Paramedic.run config world))) ->
    Config.runAppiumTests config = true
    /\ Config.getAction config <> "build"
    /\ (Config.getPlatformId config = "android"
        \/ Config.getPlatformId config = "ios")
    /\ Paramedic.opt_platform options = Config.getPlatformId config
    /\ Paramedic.createTempProject world
       = Paramedic.Returns (Paramedic.opt_appPath options)
    /\ Paramedic.opt_sauce options = Config.shouldUseSauce config.
Proof.
  intros config world options He. apply run_allowed_in in He. simpl in He.
  apply andb_true_iff in He as [He Ht]. apply andb_true_iff in He as [He Hp].
  apply andb_true_iff in He as [Ha Hs]. unfold Allowed.appium in Ha.
  apply andb_true_iff in Ha as [Ha Hpl]. apply andb_true_iff in Ha as [Hb Hr].
  repeat split.
  - exact Hr.
  - unfold Allowed.build in Hb. apply negb_true_iff in Hb.
    now apply String.eqb_neq.
  - apply orb_true_iff in Hpl as [H|H]; apply String.eqb_eq in H; tauto.
  - now apply String.eqb_eq.
  - now apply is_temp_project_eq.
  - now apply Bool.eqb_prop.
Qed.

(** The witness of X21. *)
Lemma appium_runner_is_for_this_run_witness :
  Config.runAppiumTests RunExamples.android_run = true
  /\ Config.getAction RunExamples.android_run <> "build"
  /\ (Config.getPlatformId RunExamples.android_run = "android"
      \/ Config.getPlatformId RunExamples.android_run = "ios")
  /\ "android" = Config.getPlatformId RunExamples.android_run
  /\ Paramedic.createTempProject (RunExamples.a_world 0 (Fulfilled tt))
     = Paramedic.Returns "/tmp/tmp-1"
  /\ false = Config.shouldUseSauce RunExamples.android_run.
Proof.
  apply (appium_runner_is_for_this_run RunExamples.android_run
           (RunExamples.a_world 0 (Fulfilled tt))
           {| Paramedic.opt_platform := "android";
              Paramedic.opt_appPath := "/tmp/tmp-1";
              Paramedic.opt_appiumDeviceName := Some "emulator-5554";
              Paramedic.opt_udid := None;
              Paramedic.opt_sauce := false;
              Paramedic.opt_cli := "cordova" |}).
  vm_compute. repeat (first [left; reflexivity | right]).
Defined.


(** ** The file transfer server *)

Section FileTransferFacts.
Import Paramedic Effects Allowed Q.Notations.
Variable config : Config.t.
Variable world : World.

Lemma maybeRunFileTransferServer_loop_started
  (plugins : list string) (r : Runner) (name : string) :
  server r = true -> tempFolder r = Some name ->
  maybeRunFileTransferServer_loop config world plugins r
  = if existsb
         (fun plugin => 0 <=? Js.indexOf plugin "cordova-plugin-file-transfer")
         plugins
       && negb (Config.getFileTransferServer config)
       && negb (Config.isCI config)
    then (startFileTransferServer world,
          add_log (EStartFileTransferServer name) r)
    else (Fulfilled tt, r).
Proof.
  intros Hs Ht. induction plugins as [|plugin rest IH]; simpl; [reflexivity|].
  destruct (0 <=? Js.indexOf plugin "cordova-plugin-file-transfer"); simpl;
    [|exact IH].
  destruct (negb (Config.getFileTransferServer config)); simpl;
    [|rewrite IH; now rewrite andb_false_r].
  destruct (negb (Config.isCI config)); simpl;
    [|rewrite IH; now rewrite andb_false_r].
  unfold tempFolder_name, call_async, Q.then_, read, emit, Q.await, Q.ret.
  simpl. rewrite Hs. simpl. rewrite Ht. reflexivity.
Qed.

Lemma maybeRunFileTransferServer_loop_no_server
  (plugins : list string) (r : Runner) :
  server r = false ->
  existsb
    (fun plugin => 0 <=? Js.indexOf plugin "cordova-plugin-file-transfer")
    plugins
  && negb (Config.getFileTransferServer config)
  && negb (Config.isCI config) = true ->
  maybeRunFileTransferServer_loop config world plugins r
  = (Rejected (Js.TypeError
       "Cannot read property 'startFileTransferServer' of undefined"), r).
Proof.
  intros Hs H. apply andb_true_iff in H as [H Hci].
  apply andb_true_iff in H as [Hex Hf].
  induction plugins as [|plugin rest IH]; simpl in *; [discriminate Hex|].
  rewrite Hf, Hci.
  destruct (0 <=? Js.indexOf plugin "cordova-plugin-file-transfer"); simpl.
  - unfold Q.then_, read. simpl. rewrite Hs. reflexivity.
  - now apply IH.
Qed.

End FileTransferFacts.

(** X22. [maybeRunFileTransferServer] starts the file transfer server at
    most once: with the local server running, it is started in the temp
    project, once however many plugins match, when some plugin has
    'cordova-plugin-file-transfer' in its name, no file transfer server
    is configured and the run is not a CI run; the promise of the start
    is the outcome. Otherwise nothing is done. *)
Theorem maybeRunFileTransferServer_starts_once :
  forall (config : Config.t) (world : Paramedic.World) (r : Paramedic.Runner)
    (name : string),
    Paramedic.server r = true ->
    Paramedic.tempFolder r = Some name ->
    Paramedic.maybeRunFileTransferServer config world r
    = if Allowed.wants_file_transfer_server config
      then (Paramedic.startFileTransferServer world,
            Paramedic.add_log (Paramedic.EStartFileTransferServer name) r)
      else (Fulfilled tt, r).
Proof.
  intros config world r name Hs Ht.
  unfold Paramedic.maybeRunFileTransferServer,
    Allowed.wants_file_transfer_server.
  now apply maybeRunFileTransferServer_loop_started.
Qed.

(** The witness of X22: two of the three plugins match, one start. *)
Lemma maybeRunFileTransferServer_starts_once_witness :
  Paramedic.maybeRunFileTransferServer
    (MoreExamples.file_transfer_run "android" true)
    MoreExamples.resolving_world RunExamples.prepared
  = (Fulfilled tt,
     Paramedic.add_log (Paramedic.EStartFileTransferServer "/tmp/tmp-1")
       RunExamples.prepared).
Proof.
  apply (maybeRunFileTransferServer_starts_once
           (MoreExamples.file_transfer_run "android" true)
           MoreExamples.resolving_world RunExamples.prepared "/tmp/tmp-1");
    reflexivity.
Defined.

(** X23. The local tests of a plugin that needs the file transfer server
    fail when the main tests are skipped. For Android [runLocalTests]
    goes on without main tests, [this.server] has not been set, and
    [maybeRunFileTransferServer] calls [startFileTransferServer] on it:
    the promise is rejected with the [TypeError], no command is launched
    and nothing else is done. *)
Theorem runLocalTests_without_main_tests_needs_the_server :
  forall (config : Config.t) (world : Paramedic.World) (r : Paramedic.Runner),
    Config.runMainTests config = false ->
    Config.getPlatformId config = "android" ->
    Allowed.wants_file_transfer_server config = true ->
    Paramedic.server r = false ->
    Paramedic.runLocalTests config world r
    = (Rejected (Js.TypeError
         "Cannot read property 'startFileTransferServer' of undefined"),
       Paramedic.set_runProcess false r).
Proof.
  intros config world r Hm Hp Hw Hs. unfold Paramedic.runLocalTests.
  rewrite Hm, Hp. simpl negb. simpl andb. cbv iota.
  unfold Q.then_ at 1. unfold Paramedic.modify at 1. cbv beta iota.
  unfold Q.fin. unfold Q.then_ at 1.
  unfold Paramedic.maybeRunFileTransferServer.
  rewrite (maybeRunFileTransferServer_loop_no_server config world _
             (Paramedic.set_runProcess false r) Hs Hw).
  reflexivity.
Qed.

(** The witness of X23. *)
Lemma runLocalTests_without_main_tests_needs_the_server_witness :
  Paramedic.runLocalTests (MoreExamples.file_transfer_run "android" false)
    MoreExamples.resolving_world
    (Paramedic.new_runner (MoreExamples.file_transfer_run "android" false))
  = (Rejected (Js.TypeError
       "Cannot read property 'startFileTransferServer' of undefined"),
     Paramedic.set_runProcess false
       (Paramedic.new_runner (MoreExamples.file_transfer_run "android" false))).
Proof.
  apply (runLocalTests_without_main_tests_needs_the_server
           (MoreExamples.file_transfer_run "android" false)
           MoreExamples.resolving_world
           (Paramedic.new_runner (MoreExamples.file_transfer_run "android" false)));
    reflexivity.
Defined.

(** X24. The Appium tests alone cannot run locally for iOS. With the
    main tests skipped [runLocalTests] returns at once for a platform
    other than Android, so that no target is chosen, and
    [runAppiumTests] then throws: the tests are rejected with "Cannot
    determine local device name for Appium" and nothing has been done. *)
Theorem runTests_ios_appium_alone_has_no_device :
  forall (config : Config.t) (world : Paramedic.World) (r : Paramedic.Runner),
    Config.shouldUseSauce config = false ->
    Config.runMainTests config = false ->
    Config.runAppiumTests config = true ->
    Config.getPlatformId config = "ios" ->
    Config.getAction config <> "build" ->
    Paramedic.targetObj r = None ->
    Paramedic.runTests config world r
    = (Rejected (Js.Error "Cannot determine local device name for Appium"),
       Paramedic.set_runProcess false r).
Proof.
  intros config world r Hs Hm Ha Hp Hb Ht.
  apply String.eqb_neq in Hb.
  unfold Paramedic.runTests. rewrite Hs.
  unfold Q.then_ at 1. unfold Paramedic.runLocalTests.
  rewrite Hm, Hp. unfold Q.then_ at 1, Paramedic.modify at 1.
  cbv beta iota. simpl negb. simpl andb. cbv iota.
  unfold Q.ret at 1. cbv beta iota.
  unfold Q.then_ at 1. unfold Paramedic.runAppiumTests.
  rewrite Hb, Ha, Hp. simpl negb. simpl andb. cbv iota zeta.
  unfold Q.then_, Paramedic.read. simpl. rewrite Ht. reflexivity.
Qed.

(** The witness of X24. *)
Lemma runTests_ios_appium_alone_has_no_device_witness :
  Paramedic.runTests (MoreExamples.file_transfer_run "ios" false)
    MoreExamples.resolving_world RunExamples.prepared
  = (Rejected (Js.Error "Cannot determine local device name for Appium"),
     Paramedic.set_runProcess false RunExamples.prepared).
Proof.
  apply (runTests_ios_appium_alone_has_no_device
           (MoreExamples.file_transfer_run "ios" false)
           MoreExamples.resolving_world RunExamples.prepared);
    try reflexivity.
  discriminate.
Defined.

(** ** The error handler of [run] *)

Section LoggedFacts.
Import Paramedic Effects Allowed Q.Notations.
Variable config : Config.t.
Variable world : World.

#[local] Abbreviation quiet := (fun e => negb (is_loggerError e)).

Lemma maybeRunFileTransferServer_quiet :
  keeps (grows quiet) (maybeRunFileTransferServer config world).
Proof.
  unfold maybeRunFileTransferServer.
  induction (Config.getPlugins config) as [|plugin rest IH]; simpl.
  - grows_tac.
  - destruct (_ && _ && _); [|exact IH].
    unfold tempFolder_name. grows_tac; reflexivity.
Qed.

Lemma runLocalTests_quiet : keeps (grows quiet) (runLocalTests config world).
Proof.
  unfold runLocalTests.
  apply keeps_then; [apply grows_trans | grows_tac | intros _].
  destruct (_ && _); [grows_tac|].
  apply keeps_fin; [apply grows_trans | | grows_tac; reflexivity].
  apply keeps_then;
    [apply grows_trans | apply maybeRunFileTransferServer_quiet | intros _].
  unfold getCommandForStartingTests, setPermissions, execPromise,
    waitForTestResult, tempFolder_name.
  grows_tac; reflexivity.
Qed.

Lemma runTests_quiet : keeps (grows quiet) (runTests config world).
Proof.
  unfold runTests. destruct (Config.shouldUseSauce config).
  - unfold Paramedic.runAppiumTests, tempFolder_name. grows_tac; reflexivity.
  - apply keeps_then; [apply grows_trans | apply runLocalTests_quiet | intros m].
    unfold Paramedic.runAppiumTests, tempFolder_name. grows_tac; reflexivity.
Qed.

(** The handler logs the rejection of the chain, and the missed
    deadline. *)
Lemma catch_timeout_logs {A} (body : M A) (msg : string) (r : Runner) :
  keeps (grows quiet) body ->
  exists l,
    forallb quiet l = true
    /\ match fst (Q.catch_ (Q.timeout body msg)
                    (fun error =>
                       emit (ELoggerError error) ;;;
                       Q.throw (Js.wrap_error error)) r) with
       | Fulfilled _ =>
           log (snd (Q.catch_ (Q.timeout body msg)
                       (fun error =>
                          emit (ELoggerError error) ;;;
                          Q.throw (Js.wrap_error error)) r))
           = (log r ++ l)%list
       | Rejected error =>
           exists cause,
             error = Js.wrap_error cause
             /\ log (snd (Q.catch_ (Q.timeout body msg)
                            (fun error =>
                               emit (ELoggerError error) ;;;
                               Q.throw (Js.wrap_error error)) r))
                = (log r ++ l ++ [ELoggerError cause])%list
       | Pending => False
       end.
Proof.
  intros Hb. destruct (Hb r) as [[l [El Fl]] _]. exists l. split; [exact Fl|].
  unfold Q.catch_, Q.timeout.
  destruct (body r) as [[a|e|] r1]; simpl in *.
  - exact El.
  - exists e. split; [reflexivity|]. rewrite El. now rewrite <- app_assoc.
  - exists (Js.Error msg). split; [reflexivity|]. rewrite El.
    now rewrite <- app_assoc.
Qed.

End LoggedFacts.

(** X25. The phases of [run] log their failure once. The promise they
    make is never left pending; when it is fulfilled no error has been
    logged, and when it is rejected, the error it carries is
    [new Error(cause)], whose message is the string of [cause] (for a
    thrown string the string itself), where [cause] is the one error
    that was logged: nothing before it and nothing after it is logged as
    an error. *)
Theorem phases_log_the_failure_once :
  forall (config : Config.t) (world : Paramedic.World) (r : Paramedic.Runner),
    match fst (Paramedic.phases config world r) with
    | Fulfilled _ =>
        exists l,
          Paramedic.log (snd (Paramedic.phases config world r))
          = (Paramedic.log r ++ l)%list
          /\ forallb (fun e => negb (Allowed.is_loggerError e)) l = true
    | Rejected error =>
        exists cause l1 l2,
          error = Js.Error (Js.error_to_string cause)
          /\ Paramedic.log (snd (Paramedic.phases config world r))
             = (Paramedic.log r ++ l1 ++ Paramedic.ELoggerError cause :: l2)%list
          /\ forallb (fun e => negb (Allowed.is_loggerError e)) l1 = true
          /\ forallb (fun e => negb (Allowed.is_loggerError e)) l2 = true
    | Pending => False
    end.
Proof.
  intros config world r. unfold Paramedic.phases.
  match goal with
  | |- context [Q.catch_ (Q.timeout ?body ?msg) _ r] =>
      assert (H : keeps (grows (fun e => negb (Allowed.is_loggerError e)))
                    body);
      [ | destruct (catch_timeout_logs body msg r H) as [l [Fl Hl]] ]
  end.
  { apply keeps_then; [apply grows_trans | | intros _].
    { grows_tac; reflexivity. }
    apply keeps_then; [apply grows_trans | | intros _].
    { grows_tac; reflexivity. }
    apply keeps_then; [apply grows_trans | | intros _].
    { unfold Paramedic.injectReporters, Paramedic.subcribeForEvents,
        Paramedic.writeMedicJson.
      grows_tac; reflexivity. }
    apply runTests_quiet. }
  destruct (fst (Q.catch_ _ _ r)) as [passed|error|].
  - exists l. split; [exact Hl | exact Fl].
  - destruct Hl as [cause [He Hlog]]. exists cause, l, [].
    repeat split; [exact He | exact Hlog | exact Fl].
  - exact Hl.
Qed.

(** ** [checkConfig] *)

(** X26. [checkConfig] leaves a command-line client that does not depend
    on the working directory. Where [path.resolve] gives absolute paths,
    [checkConfig] returns exactly when some tests are to be run (and the
    requirements of Sauce Labs, if it is used, are met), and then the
    client is one of [cordova] and [phonegap] or an absolute path; it
    throws what the check of the requirements throws, or the error of a
    run without tests. *)
Theorem checkConfig_makes_the_cli_absolute :
  forall (config : Config.t) (world : Paramedic.World) (r : Paramedic.Runner),
    (forall p, Paramedic.path_isAbsolute world (Paramedic.path_resolve world p)
               = true) ->
    match Paramedic.checkConfig config world r with
    | (Fulfilled _, r') =>
        Config.runMainTests config || Config.runAppiumTests config = true
        /\ (Paramedic.cli r' = "cordova"
            \/ Paramedic.cli r' = "phonegap"
            \/ Paramedic.path_isAbsolute world (Paramedic.cli r') = true)
    | (Rejected e, _) =>
        (Config.shouldUseSauce config = true
         /\ Paramedic.checkSauceRequirements world = Paramedic.Throws e)
        \/ (Config.runMainTests config = false
            /\ Config.runAppiumTests config = false
            /\ e = Js.Error
                 "No tests to run: both --skipAppiumTests and --skipMainTests are used")
    | (Pending, _) => False
    end.
Proof.
  intros config world r Habs. unfold Paramedic.checkConfig.
  unfold Q.then_ at 1.
  assert (Htail : forall r0,
    Paramedic.cli r0 = Paramedic.cli r ->
    match
      (if negb (Config.runMainTests config) && negb (Config.runAppiumTests config)
       then Q.throw (Js.Error
              "No tests to run: both --skipAppiumTests and --skipMainTests are used")
       else
         Q.then_ (Paramedic.read Paramedic.cli) (fun c =>
           if negb (existsb (String.eqb c) ["cordova"; "phonegap"])
           then
             if negb (Paramedic.path_isAbsolute world c)
             then Paramedic.modify
                    (Paramedic.set_cli (Paramedic.path_resolve world c))
             else Q.ret tt
           else Q.ret tt)) r0
    with
    | (Fulfilled _, r') =>
        Config.runMainTests config || Config.runAppiumTests config = true
        /\ (Paramedic.cli r' = "cordova"
            \/ Paramedic.cli r' = "phonegap"
            \/ Paramedic.path_isAbsolute world (Paramedic.cli r') = true)
    | (Rejected e, _) =>
        (Config.shouldUseSauce config = true
         /\ Paramedic.checkSauceRequirements world = Paramedic.Throws e)
        \/ (Config.runMainTests config = false
            /\ Config.runAppiumTests config = false
            /\ e = Js.Error
                 "No tests to run: both --skipAppiumTests and --skipMainTests are used")
    | (Pending, _) => False
    end).
  { intros r0 _.
    destruct (Config.runMainTests config), (Config.runAppiumTests config);
      simpl negb; simpl andb; cbv iota;
      try (unfold Q.throw; right; repeat split; reflexivity);
      unfold Q.then_, Paramedic.read; simpl;
      (destruct (String.eqb (Paramedic.cli r0) "cordova") eqn:E1;
       [apply String.eqb_eq in E1; simpl; split; [reflexivity | now left]|]);
      (destruct (String.eqb (Paramedic.cli r0) "phonegap") eqn:E2;
       [apply String.eqb_eq in E2; simpl; split;
        [reflexivity | right; now left]|]);
      simpl;
      (destruct (Paramedic.path_isAbsolute world (Paramedic.cli r0)) eqn:E3;
       simpl; split; try reflexivity; right; right; [exact E3 | apply Habs]). }
  destruct (Config.shouldUseSauce config) eqn:Hs.
  - unfold Q.then_ at 1, Paramedic.modify at 1. cbv beta iota.
    unfold Paramedic.call_sync, Q.then_ at 1, Paramedic.emit at 1.
    cbv beta iota.
    destruct (Paramedic.checkSauceRequirements world) as [u|err] eqn:Hc.
    + unfold Q.ret at 1. cbv beta iota. apply Htail. reflexivity.
    + unfold Q.throw at 1. cbv beta iota. left. split; reflexivity.
  - unfold Q.ret at 1. cbv beta iota. apply Htail. reflexivity.
Qed.

(** The witness of X26: the client in [node_modules] is resolved. *)
Lemma checkConfig_makes_the_cli_absolute_witness :
  true = true
  /\ ("/home/user/./node_modules/.bin/cordova" = "cordova"
      \/ "/home/user/./node_modules/.bin/cordova" = "phonegap"
      \/ true = true).
Proof.
  apply (checkConfig_makes_the_cli_absolute
           (MoreExamples.file_transfer_run "android" true)
           MoreExamples.resolving_world
           (Paramedic.new_runner (MoreExamples.file_transfer_run "android" true))).
  intros p. reflexivity.
Defined.
